(** * Order lifecycle and payment reconciliation of the Sheshri backend

    A shallow embedding of [controllers/order.js] and
    [controllers/payment.js].  The document store is an explicit state;
    every controller is a state-and-exception computation whose writes
    survive a later exception, as writes to the database do. *)

From Stdlib Require Import ZArith String Ascii List Bool Lia.
From stdpp Require Import base tactics option list strings numbers gmap pretty sorting.

Local Open Scope Z_scope.
Local Open Scope string_scope.

(** ** JavaScript values used by the controllers *)

(** [!!v] for a value that is a string or [undefined]: the empty string
    and [undefined] are falsy. *)
Definition truthy (v : option string) : bool :=
  match v with
  | Some s => negb (String.eqb s "")
  | None => false
  end.

(** [v1 === v2] on values that are a string or [undefined]. *)
Definition strictEq (a b : option string) : bool :=
  match a, b with
  | Some x, Some y => String.eqb x y
  | None, None => true
  | _, _ => false
  end.

(** String conversion of a value inside [+] or a template literal. *)
Definition toStr (v : option string) : string :=
  match v with
  | Some s => s
  | None => "undefined"
  end.

Definition lowerChar (c : ascii) : ascii :=
  let n := nat_of_ascii c in
  if ((65 <=? n)%nat && (n <=? 90)%nat)%bool then ascii_of_nat (n + 32) else c.

(** [s.toLowerCase()] on the ASCII range. *)
Fixpoint toLowerCase (s : string) : string :=
  match s with
  | EmptyString => EmptyString
  | String c r => String (lowerChar c) (toLowerCase r)
  end.

(** [s.slice(-8)]: the last eight characters, or all of [s]. *)
Definition sliceLast8 (s : string) : string :=
  let n := String.length s in
  substring (n - 8) 8 s.

Definition dquote : string := String (ascii_of_nat 34) EmptyString.

(** ** Documents *)

Record AddOn := mkAddOn {
  a_id : string;
  a_name : string;
  a_inStock : bool;
  a_countInStock : Z
}.

Record Product := mkProduct {
  p_id : string;
  p_name : string;
  p_inStock : bool;
  p_countInStock : Z;
  p_addOnItems : list AddOn
}.

Record OrderItem := mkOrderItem {
  i_product : string;
  i_name : option string;
  i_qty : Z
}.

Record PaymentResult := mkPaymentResult {
  pr_id : option string;
  pr_status : option string;
  pr_update_time : option Z;
  pr_razorpay_order_id : option string;
  pr_payment_method : option string
}.

Record TrackingEntry := mkTrackingEntry {
  te_status : string;
  te_message : string;
  te_location : option string;
  te_timestamp : option Z;
  te_updatedBy : option string
}.

Record Order := mkOrder {
  o_id : string;
  o_user : string;
  o_orderItems : list OrderItem;
  o_shippingAddress : string;
  o_paymentMethod : option string;
  o_itemsPrice : Z;
  o_taxPrice : Z;
  o_shippingPrice : Z;
  o_totalPrice : Z;
  o_customization : option string;
  o_isPaid : bool;
  o_paidAt : option Z;
  o_paymentResult : option PaymentResult;
  o_isDelivered : bool;
  o_deliveredAt : option Z;
  o_trackingStatus : string;
  o_trackingHistory : list TrackingEntry;
  o_returnStatus : string;
  o_returnReason : option string;
  o_returnAdminNote : option string;
  o_createdAt : Z
}.

Record User := mkUser {
  u_id : string;
  u_role : string;
  u_orderAlerts : option bool;
  u_lowStockAlerts : option bool
}.

Record Notification := mkNotification {
  n_user : string;
  n_title : string;
  n_message : string;
  n_type : string;
  n_link : string;
  n_read : bool;
  n_relatedOrder : option string
}.

(** The principal placed in [req.user] by the token middleware: the
    token payload holds [id] and [role] only. *)
Record Principal := mkPrincipal {
  user_id : string;
  user_role : string
}.

#[global] Instance AddOn_eq_dec : EqDecision AddOn.
Proof. solve_decision. Defined.
#[global] Instance Product_eq_dec : EqDecision Product.
Proof. solve_decision. Defined.
#[global] Instance OrderItem_eq_dec : EqDecision OrderItem.
Proof. solve_decision. Defined.
#[global] Instance PaymentResult_eq_dec : EqDecision PaymentResult.
Proof. solve_decision. Defined.
#[global] Instance TrackingEntry_eq_dec : EqDecision TrackingEntry.
Proof. solve_decision. Defined.
#[global] Instance Order_eq_dec : EqDecision Order.
Proof. solve_decision. Defined.
#[global] Instance Notification_eq_dec : EqDecision Notification.
Proof. solve_decision. Defined.

(** ** The document store

    Orders are keyed by their identifier.  Products and users are kept
    in collection order, because [findOne] and [find] answer in that
    order.  Notifications are only ever appended. *)
Record Store := mkStore {
  products : list Product;
  orders : gmap string Order;
  users : list User;
  notifications : list Notification
}.

Definition setProducts (ps : list Product) (st : Store) : Store :=
  mkStore ps (orders st) (users st) (notifications st).

Definition setOrders (os : gmap string Order) (st : Store) : Store :=
  mkStore (products st) os (users st) (notifications st).

Definition setNotifications (ns : list Notification) (st : Store) : Store :=
  mkStore (products st) (orders st) (users st) ns.

(** ** Exceptions, responses and the controller monad *)

(** A thrown [Error]: its message, and the status that [res.status]
    had been given when it was thrown (200 when none was set). *)
Record Err := mkErr {
  err_status : Z;
  err_message : string
}.

Inductive Body :=
| OrderBody (o : Order)
| OrdersBody (os : list Order)
| MessageBody (message : string)
| BulkBody (message : string) (modifiedCount : option nat)
| VerifiedBody (message : string) (o : Order)
| StatusBody (status : string).

(** What a controller leaves behind: a JSON response, an error handed to
    [next], or a rejected promise (an exception no [catch] took). *)
Inductive Outcome :=
| Responded (status : Z) (body : Body)
| Forwarded (e : Err)
| Uncaught (e : Err).

Definition M (A : Type) : Type := Store -> Store * (Err + A).

#[global] Instance M_ret : MRet M := fun A a st => (st, inr a).
#[global] Instance M_bind : MBind M := fun A B f m st =>
  match m st with
  | (st', inr a) => f a st'
  | (st', inl e) => (st', inl e)
  end.

Definition throw {A} (status : Z) (msg : string) : M A :=
  fun st => (st, inl (mkErr status msg)).

Definition get : M Store := fun st => (st, inr st).
Definition modify (f : Store -> Store) : M unit := fun st => (f st, inr tt).

(** [try { m } catch (error) { h error }] *)
Definition tryCatch {A} (m : M A) (h : Err -> M A) : M A :=
  fun st =>
    match m st with
    | (st', inl e) => h e st'
    | r => r
    end.

(** [for (const x of l) { body x }] *)
Fixpoint forEach {A} (l : list A) (body : A -> M unit) : M unit :=
  match l with
  | [] => mret tt
  | x :: r => body x ;; forEach r body
  end.

Definition when (b : bool) (m : M unit) : M unit :=
  if b then m else mret tt.

(** How each kind of controller ends when an exception escapes its body. *)

(** [try { ... } catch (error) { next(error) }] *)
Definition runNext (m : M Outcome) (st : Store) : Store * Outcome :=
  match m st with
  | (st', inr o) => (st', o)
  | (st', inl e) => (st', Forwarded e)
  end.

(** An [async] handler without a [catch]: the promise rejects. *)
Definition runAsync (m : M Outcome) (st : Store) : Store * Outcome :=
  match m st with
  | (st', inr o) => (st', o)
  | (st', inl e) => (st', Uncaught e)
  end.

(** [try { ... } catch (error) { res.status(500).json({ message: error.message }) }] *)
Definition runCatch500 (m : M Outcome) (st : Store) : Store * Outcome :=
  match m st with
  | (st', inr o) => (st', o)
  | (st', inl e) => (st', Responded 500 (MessageBody (err_message e)))
  end.

(** ** The environment of a request *)

Record NotificationText := mkNotificationText {
  nt_title : string;
  nt_message : string;
  nt_type : string;
  nt_link : string
}.

Record MockVerification := mkMockVerification {
  mv_success : bool;
  mv_paymentId : option string
}.

(** [payload.payment.entity] of a webhook body.  [we_notes] is [None]
    when the entity has no [notes] object, [Some None] when [notes] has
    no [orderId]. *)
Record WebhookEntity := mkWebhookEntity {
  we_id : option string;
  we_order_id : option string;
  we_notes : option (option string)
}.

(** The parsed webhook body.  [wb_entity] is [None] when some link of
    [payload.payment.entity] is missing. *)
Record WebhookBody := mkWebhookBody {
  wb_event : option string;
  wb_entity : option WebhookEntity
}.

(** Everything a request reads from outside the store: the clock, the
    identifier the driver draws for a new document, the driver's verdict
    on a notification document, the crypto and JSON libraries, the
    process environment, the parts of [config/payment.js] and
    [services/notificationService.js] the controllers call, and whether
    the schema of [models/Order.js] has the [timestamps] option. *)
Record Env := mkEnv {
  now : Z;
  newOrderId : string;
  notificationError : Notification -> option string;
  hmac_sha256_hex : string -> string -> string;
  JSON_stringify : WebhookBody -> string;
  RAZORPAY_KEY_ID : option string;
  RAZORPAY_KEY_SECRET : option string;
  RAZORPAY_WEBHOOK_SECRET : option string;
  paymentConfig_mode : string;
  verifyMockPayment : option string -> option string -> option string -> MockVerification;
  paymentNotificationText : string -> Order -> NotificationText;
  orderNotificationText : string -> Order -> NotificationText;
  Order_timestamps : bool
}.

(** ** Collection primitives *)

(** Update the first element that satisfies [P], if there is one. *)
Fixpoint updateFirst {A} (P : A -> bool) (f : A -> A) (l : list A) : list A :=
  match l with
  | [] => []
  | x :: r => if P x then f x :: r else x :: updateFirst P f r
  end.

Definition hasId (id : string) (p : Product) : bool := String.eqb (p_id p) id.
Definition addOnHasId (id : string) (a : AddOn) : bool := String.eqb (a_id a) id.

(** The filter [{ "addOnItems._id": id }]. *)
Definition hasAddOn (id : string) (p : Product) : bool :=
  existsb (addOnHasId id) (p_addOnItems p).

(** [product.addOnItems.id(id)] *)
Definition addOnItems_id (id : string) (l : list AddOn) : option AddOn :=
  find (addOnHasId id) l.

Definition incCount (d : Z) (p : Product) : Product :=
  mkProduct (p_id p) (p_name p) (p_inStock p) (p_countInStock p + d) (p_addOnItems p).

Definition incAddOnCount (d : Z) (a : AddOn) : AddOn :=
  mkAddOn (a_id a) (a_name a) (a_inStock a) (a_countInStock a + d).

(** [{ $inc: { "addOnItems.$.countInStock": d } }]: the positional
    operator addresses the first add-on matched by the filter. *)
Definition incAddOnOf (id : string) (d : Z) (p : Product) : Product :=
  mkProduct (p_id p) (p_name p) (p_inStock p) (p_countInStock p)
            (updateFirst (addOnHasId id) (incAddOnCount d) (p_addOnItems p)).

Definition Product_findById (id : string) : M (option Product) :=
  st ← get; mret (find (hasId id) (products st)).

Definition Product_findOne_addOn (id : string) : M (option Product) :=
  st ← get; mret (find (hasAddOn id) (products st)).

(** [Product.findByIdAndUpdate(id, { $inc: { countInStock: d } })] *)
Definition Product_findByIdAndUpdate_inc (id : string) (d : Z) : M (option Product) :=
  st ← get;
  modify (setProducts (updateFirst (hasId id) (incCount d) (products st))) ;;
  mret (find (hasId id) (products st)).

(** [Product.findOneAndUpdate({ "addOnItems._id": id },
      { $inc: { "addOnItems.$.countInStock": d } })] *)
Definition Product_findOneAndUpdate_addOn_inc (id : string) (d : Z) : M (option Product) :=
  st ← get;
  modify (setProducts (updateFirst (hasAddOn id) (incAddOnOf id d) (products st))) ;;
  mret (find (hasAddOn id) (products st)).

Definition Order_findById (id : option string) : M (option Order) :=
  st ← get; mret (id ≫= fun i => orders st !! i).

(** [order.save()] on a document that was loaded from the store. *)
Definition Order_save (o : Order) : M Order :=
  modify (fun st => setOrders (<[o_id o := o]> (orders st)) st) ;; mret o.

(** [order.save()] on a document made by [new Order]: an insert, which
    the store refuses when the identifier is taken. *)
Definition Order_insert (o : Order) : M Order :=
  st ← get;
  match orders st !! o_id o with
  | Some _ => throw 200 "E11000 duplicate key error"
  | None => modify (setOrders (<[o_id o := o]> (orders st))) ;; mret o
  end.

Definition Order_findByIdAndDelete (id : string) : M unit :=
  modify (fun st => setOrders (delete id (orders st)) st).

Definition isAdmin (u : User) : bool := String.eqb (u_role u) "admin".

(** [User.find({ role: 'admin' })] *)
Definition User_find_admins : M (list User) :=
  st ← get; mret (List.filter isAdmin (users st)).

(** [prefs?.flag !== false] *)
Definition notDisabled (flag : option bool) : bool :=
  match flag with
  | Some false => false
  | _ => true
  end.

(** Field updates of an in-memory order document. *)

Definition setPayment (isPaid : bool) (paidAt : option Z) (r : option PaymentResult)
    (o : Order) : Order :=
  mkOrder (o_id o) (o_user o) (o_orderItems o) (o_shippingAddress o) (o_paymentMethod o)
          (o_itemsPrice o) (o_taxPrice o) (o_shippingPrice o) (o_totalPrice o)
          (o_customization o) isPaid paidAt r (o_isDelivered o) (o_deliveredAt o)
          (o_trackingStatus o) (o_trackingHistory o) (o_returnStatus o) (o_returnReason o)
          (o_returnAdminNote o) (o_createdAt o).

Definition setPaymentResult (r : option PaymentResult) (o : Order) : Order :=
  setPayment (o_isPaid o) (o_paidAt o) r o.

Definition setDelivered (isDelivered : bool) (deliveredAt : option Z) (o : Order) : Order :=
  mkOrder (o_id o) (o_user o) (o_orderItems o) (o_shippingAddress o) (o_paymentMethod o)
          (o_itemsPrice o) (o_taxPrice o) (o_shippingPrice o) (o_totalPrice o)
          (o_customization o) (o_isPaid o) (o_paidAt o) (o_paymentResult o)
          isDelivered deliveredAt
          (o_trackingStatus o) (o_trackingHistory o) (o_returnStatus o) (o_returnReason o)
          (o_returnAdminNote o) (o_createdAt o).

Definition setTrackingStatus (status : string) (o : Order) : Order :=
  mkOrder (o_id o) (o_user o) (o_orderItems o) (o_shippingAddress o) (o_paymentMethod o)
          (o_itemsPrice o) (o_taxPrice o) (o_shippingPrice o) (o_totalPrice o)
          (o_customization o) (o_isPaid o) (o_paidAt o) (o_paymentResult o)
          (o_isDelivered o) (o_deliveredAt o)
          status (o_trackingHistory o) (o_returnStatus o) (o_returnReason o)
          (o_returnAdminNote o) (o_createdAt o).

(** [order.trackingHistory.push(entry)] *)
Definition pushTrackingHistory (entry : TrackingEntry) (o : Order) : Order :=
  mkOrder (o_id o) (o_user o) (o_orderItems o) (o_shippingAddress o) (o_paymentMethod o)
          (o_itemsPrice o) (o_taxPrice o) (o_shippingPrice o) (o_totalPrice o)
          (o_customization o) (o_isPaid o) (o_paidAt o) (o_paymentResult o)
          (o_isDelivered o) (o_deliveredAt o)
          (o_trackingStatus o) (o_trackingHistory o ++ [entry]) (o_returnStatus o)
          (o_returnReason o) (o_returnAdminNote o) (o_createdAt o).

Definition setReturn (status : string) (reason : option string) (o : Order) : Order :=
  mkOrder (o_id o) (o_user o) (o_orderItems o) (o_shippingAddress o) (o_paymentMethod o)
          (o_itemsPrice o) (o_taxPrice o) (o_shippingPrice o) (o_totalPrice o)
          (o_customization o) (o_isPaid o) (o_paidAt o) (o_paymentResult o)
          (o_isDelivered o) (o_deliveredAt o)
          (o_trackingStatus o) (o_trackingHistory o) status reason
          (o_returnAdminNote o) (o_createdAt o).

(** [{ ...order.paymentResult }]: spreading [undefined] gives no fields. *)
Definition spreadPaymentResult (r : option PaymentResult) : PaymentResult :=
  default (mkPaymentResult None None None None None) r.

(** The update document built by the bulk status update; a field that
    was not assigned is [None]. *)
Record UpdateData := mkUpdateData {
  ud_isDelivered : option bool;
  ud_deliveredAt : option Z;
  ud_trackingStatus : option string;
  ud_isPaid : option bool;
  ud_paidAt : option Z
}.

Definition emptyUpdate : UpdateData := mkUpdateData None None None None None.

(** [{ $set: updateData }] applied to one document. *)
Definition applySet (ud : UpdateData) (o : Order) : Order :=
  mkOrder (o_id o) (o_user o) (o_orderItems o) (o_shippingAddress o) (o_paymentMethod o)
          (o_itemsPrice o) (o_taxPrice o) (o_shippingPrice o) (o_totalPrice o)
          (o_customization o)
          (default (o_isPaid o) (ud_isPaid ud))
          (from_option Some (o_paidAt o) (ud_paidAt ud))
          (o_paymentResult o)
          (default (o_isDelivered o) (ud_isDelivered ud))
          (from_option Some (o_deliveredAt o) (ud_deliveredAt ud))
          (default (o_trackingStatus o) (ud_trackingStatus ud))
          (o_trackingHistory o) (o_returnStatus o) (o_returnReason o)
          (o_returnAdminNote o) (o_createdAt o).

Definition inIds (ids : list string) (id : string) : bool := existsb (String.eqb id) ids.

(** [Object.keys(updateData).length === 0] *)
Definition isEmptyUpdate (ud : UpdateData) : bool :=
  match ud with
  | mkUpdateData None None None None None => true
  | _ => false
  end.

(** The documents the filter [{ _id: { $in: ids } }] matches. *)
Definition matchedDocs (ids : list string) (os : gmap string Order) : gmap string Order :=
  filter (fun ko => inIds ids ko.1 = true) os.

(** The collection once [{ $set: ud }] is applied to each of them. *)
Definition updatedOrders_of (ids : list string) (ud : UpdateData) (os : gmap string Order)
    : gmap string Order :=
  map_imap (fun k o => Some (if inIds ids k then applySet ud o else o)) os.

(** Those of them that [{ $set: ud }] changes. *)
Definition modifiedDocs (ids : list string) (ud : UpdateData) (os : gmap string Order)
    : gmap string Order :=
  filter (fun ko => inIds ids ko.1 = true /\ applySet ud ko.2 <> ko.2) os.

(** [Order.updateMany({ _id: { $in: ids } }, { $set: ud })], answering
    [result.modifiedCount], which is [None] for [undefined].

    What mongoose sends depends on the schema.  With [timestamps] it
    adds [updatedAt] to the [$set], so that every matching document is
    written and counted, also for an empty [ud]; the order record does
    not carry [updatedAt], so the store shows the fields of [ud] only.
    Without [timestamps] an empty [$set] is dropped and no command is
    sent: nothing is written and the result has no [modifiedCount];
    otherwise every matching document is updated and the documents the
    update changed are counted. *)
Definition Order_updateMany_in (timestamps : bool) (ids : list string) (ud : UpdateData)
    : M (option nat) :=
  st ← get;
  if timestamps
  then
    modify (setOrders (updatedOrders_of ids ud (orders st))) ;;
    mret (Some (size (matchedDocs ids (orders st))))
  else if isEmptyUpdate ud
  then mret None
  else
    modify (setOrders (updatedOrders_of ids ud (orders st))) ;;
    mret (Some (size (modifiedDocs ids ud (orders st)))).

(** [`${result.modifiedCount}`] *)
Definition templateCount (modifiedCount : option nat) : string :=
  from_option pretty "undefined" modifiedCount.

(** [Order.find({ user, $or: [{ paymentMethod: 'COD' }, { isPaid: true }] })] *)
Definition myOrdersQuery (uid : string) (o : Order) : bool :=
  String.eqb (o_user o) uid && (strictEq (o_paymentMethod o) (Some "COD") || o_isPaid o).

(** The order of [.sort({ createdAt: -1 })]. *)
Definition newerFirst (a b : Order) : Prop := o_createdAt b <= o_createdAt a.

#[global] Instance newerFirst_dec a b : Decision (newerFirst a b).
Proof. unfold newerFirst. apply _. Defined.

Definition Order_find_mine_sorted (uid : string) : M (list Order) :=
  st ← get;
  mret (merge_sort newerFirst
          (List.filter (myOrdersQuery uid) (map snd (map_to_list (orders st))))).

(** A notification built by the notification service from a text. *)
Definition serviceNotification (t : NotificationText) (userId : string) (order : Order)
    : Notification :=
  mkNotification userId (nt_title t) (nt_message t) (nt_type t) (nt_link t) false
                 (Some (o_id order)).

Section Controllers.

Context (env : Env).

(** [Notification.create(n)] *)
Definition Notification_create (n : Notification) : M unit :=
  match notificationError env n with
  | Some msg => throw 200 msg
  | None => modify (fun st => setNotifications (notifications st ++ [n]) st)
  end.

(** *** [sendNewOrderNotifications] *)

Definition orderPlacedNotification (order : Order) (user : Principal) : Notification :=
  mkNotification (user_id user) "Order Placed!"
    ("Your order #" ++ sliceLast8 (o_id order) ++ " has been placed successfully.")
    "order" "/orders" false (Some (o_id order)).

Definition newOrderReceivedNotification (order : Order) (admin : User) : Notification :=
  mkNotification (u_id admin) "New Order Received!"
    ("Order #" ++ sliceLast8 (o_id order) ++ " totaling ₹" ++ pretty (o_totalPrice order)
       ++ " has been placed.")
    "order" ("/admin/order/" ++ o_id order) false (Some (o_id order)).

Definition lowStockNotification (product : Product) (admin : User) : Notification :=
  mkNotification (u_id admin) "Low Stock Alert!"
    ("Product " ++ dquote ++ p_name product ++ dquote ++ " is low in stock ("
       ++ pretty (p_countInStock product) ++ " remaining).")
    "tracking" ("/admin/product/" ++ p_id product ++ "/edit") false None.

(** The token principal has no [_id], so [user._id || user.id] is [user.id]. *)
Definition sendNewOrderNotifications (order : Order) (user : Principal) : M unit :=
  tryCatch
    (Notification_create (orderPlacedNotification order user) ;;
     admins ← User_find_admins;
     forEach admins (fun admin =>
       when (notDisabled (u_orderAlerts admin))
            (Notification_create (newOrderReceivedNotification order admin))) ;;
     forEach (o_orderItems order) (fun item =>
       product ← Product_findById (i_product item);
       match product with
       | Some p =>
           when (p_countInStock p <=? 5)%Z
             (forEach admins (fun admin =>
                when (notDisabled (u_lowStockAlerts admin))
                     (Notification_create (lowStockNotification p admin))))
       | None => mret tt
       end))
    (fun _ => mret tt).

(** *** [addOrderItems] *)

Record CreateOrderBody := mkCreateOrderBody {
  b_orderItems : option (list OrderItem);
  b_shippingAddress : string;
  b_paymentMethod : option string;
  b_itemsPrice : Z;
  b_taxPrice : Z;
  b_shippingPrice : Z;
  b_totalPrice : Z;
  b_customization : option string
}.

(** The body of the first loop: the stock check of one line item. *)
Definition checkItem (item : OrderItem) : M unit :=
  product ← Product_findById (i_product item);
  match product with
  | Some p =>
      if negb (p_inStock p) || (p_countInStock p <? i_qty item)%Z
      then throw 400 ("Insufficient stock for product: " ++ p_name p)
      else mret tt
  | None =>
      product ← Product_findOne_addOn (i_product item);
      match product with
      | Some p =>
          match addOnItems_id (i_product item) (p_addOnItems p) with
          | None => throw 400 "Insufficient stock for product: Unknown Add-on"
          | Some a =>
              if negb (a_inStock a) || (a_countInStock a <? i_qty item)%Z
              then throw 400 ("Insufficient stock for product: " ++ a_name a)
              else mret tt
          end
      | None =>
          throw 404 ("Product not found: " ++
                     (if truthy (i_name item) then toStr (i_name item) else i_product item))
      end
  end.

(** The body of the stock loops: adjust the primary product, and the
    add-on only when no primary product has the identifier. *)
Definition adjustStock (id : string) (delta : Z) : M unit :=
  updatedMain ← Product_findByIdAndUpdate_inc id delta;
  match updatedMain with
  | Some _ => mret tt
  | None => Product_findOneAndUpdate_addOn_inc id delta ;; mret tt
  end.

(** Modelled from the spec: [models/Order.js] is not among the sources.
    A new order starts unpaid and undelivered, in tracking status
    [pending] with an empty tracking history and return status [None]
    (sections 3 and 4.4); its creation time is the time of the request. *)
Definition newOrder (user : Principal) (items : list OrderItem) (b : CreateOrderBody) : Order :=
  mkOrder (newOrderId env) (user_id user) items (b_shippingAddress b) (b_paymentMethod b)
          (b_itemsPrice b) (b_taxPrice b) (b_shippingPrice b) (b_totalPrice b)
          (b_customization b)
          false None None false None "pending" [] "None" None None (now env).

Definition isOnlinePayment (paymentMethod : option string) : bool :=
  match paymentMethod with
  | Some pm =>
      negb (String.eqb pm "") &&
      (String.eqb (toLowerCase pm) "online" || String.eqb (toLowerCase pm) "razorpay")
  | None => false
  end.

Definition addOrderItems (user : Principal) (b : CreateOrderBody) : Store -> Store * Outcome :=
  runNext
    (match b_orderItems b with
     | Some [] => throw 400 "No order items"
     | None => throw 200 "orderItems is not iterable"
     | Some orderItems =>
         forEach orderItems checkItem ;;
         createdOrder ← Order_insert (newOrder user orderItems b);
         forEach orderItems (fun item => adjustStock (i_product item) (- i_qty item)) ;;
         when (negb (isOnlinePayment (b_paymentMethod b)))
              (sendNewOrderNotifications createdOrder user) ;;
         mret (Responded 201 (OrderBody createdOrder))
     end).

(** *** [getMyOrders] *)

Definition getMyOrders (user : Principal) : Store -> Store * Outcome :=
  runAsync
    (found ← Order_find_mine_sorted (user_id user);
     mret (Responded 200 (OrdersBody found))).

(** *** [cancelOrder] *)

Definition isTerminalForCancel (status : string) : bool :=
  String.eqb status "delivered" || String.eqb status "shipped" || String.eqb status "cancelled".

Definition orderCancelledNotification (order : Order) : Notification :=
  mkNotification (o_user order) "Order Cancelled"
    ("Your order #" ++ sliceLast8 (o_id order) ++ " has been cancelled.")
    "order" ("/track/" ++ o_id order) false (Some (o_id order)).

Definition cancelledByUserNotification (order : Order) (admin : User) : Notification :=
  mkNotification (u_id admin) "Order Cancelled by User"
    ("Order #" ++ sliceLast8 (o_id order) ++ " has been cancelled by the customer.")
    "order" ("/admin/order/" ++ o_id order) false (Some (o_id order)).

(** The in-memory changes that [cancelOrder] makes before [save].  The
    tracking history of a loaded document is always an array, so the
    guard [if (order.trackingHistory)] holds. *)
Definition cancelledOrder (user : Principal) (order : Order) : Order :=
  let order1 := setTrackingStatus "cancelled" order in
  let order2 :=
    if o_isPaid order1
    then setPaymentResult
           (Some (let r := spreadPaymentResult (o_paymentResult order1) in
                  mkPaymentResult (pr_id r) (Some "refund_pending") (Some (now env))
                                  (pr_razorpay_order_id r) (pr_payment_method r)))
           order1
    else order1 in
  let cancellationMessage :=
    if o_isPaid order1
    then "Order cancelled. Refund initiated to original payment source."
    else "Order cancelled by user" in
  pushTrackingHistory
    (mkTrackingEntry "cancelled" cancellationMessage None None (Some (user_id user)))
    order2.

Definition cancelOrder (user : Principal) (id : string) : Store -> Store * Outcome :=
  runAsync
    (found ← Order_findById (Some id);
     match found with
     | Some order =>
         if negb (String.eqb (o_user order) (user_id user))
            && negb (String.eqb (user_role user) "admin")
         then throw 401 "Not authorized to cancel this order"
         else if isTerminalForCancel (o_trackingStatus order)
         then throw 400 ("Cannot cancel order that is " ++ o_trackingStatus order)
         else
           forEach (o_orderItems order)
                   (fun item => adjustStock (i_product item) (i_qty item)) ;;
           updatedOrder ← Order_save (cancelledOrder user order);
           Notification_create (orderCancelledNotification updatedOrder) ;;
           admins ← User_find_admins;
           forEach admins (fun admin =>
             when (notDisabled (u_orderAlerts admin))
                  (Notification_create (cancelledByUserNotification updatedOrder admin))) ;;
           mret (Responded 200 (OrderBody updatedOrder))
     | None => throw 404 "Order not found"
     end).

(** *** [updateOrdersStatus] *)

Definition nonTerminalStates : list string :=
  ["pending"; "confirmed"; "processing"; "shipped"; "out_for_delivery"].

Definition buildUpdateData (status : string) : UpdateData :=
  if String.eqb status "delivered"
  then mkUpdateData (Some true) (Some (now env)) (Some "delivered") None None
  else if String.eqb status "paid"
  then mkUpdateData None None None (Some true) (Some (now env))
  else if existsb (String.eqb status) nonTerminalStates
  then mkUpdateData None None (Some status) None None
  else emptyUpdate.

(** [orderIds] is [None] when the body has no array under that name. *)
Definition updateOrdersStatus (orderIds : option (list string)) (status : string)
    : Store -> Store * Outcome :=
  runAsync
    (match orderIds with
     | None | Some [] => throw 400 "No orders selected"
     | Some ids =>
         tryCatch
           (modifiedCount ← Order_updateMany_in (Order_timestamps env) ids
                              (buildUpdateData status);
            mret (Responded 200
                    (BulkBody ("Successfully updated " ++ templateCount modifiedCount
                                 ++ " orders")
                              modifiedCount)))
           (fun error => mret (Forwarded error))
     end).

(** *** [requestReturn] *)

Definition msPerDay : Z := 1000 * 60 * 60 * 24.

(** [Math.floor(Math.abs(currentDate - deliveredDate) / msPerDay)] *)
Definition diffDays (current delivered : Z) : Z := Z.abs (current - delivered) / msPerDay.

Definition returnRequestNotification (order : Order) (reason : option string) (admin : User)
    : Notification :=
  mkNotification (u_id admin) "New Return Request"
    ("Return requested for Order #" ++ sliceLast8 (o_id order) ++ ". Reason: " ++ toStr reason
       ++ (if truthy (o_returnAdminNote order)
           then ". Admin Note: " ++ toStr (o_returnAdminNote order) else ""))
    "order" "/admin/returns" false (Some (o_id order)).

Definition requestReturn (user : Principal) (id : string) (reason : option string)
    : Store -> Store * Outcome :=
  runAsync
    (found ← Order_findById (Some id);
     match found with
     | Some order =>
         if negb (String.eqb (o_user order) (user_id user))
         then throw 401 "Not authorized to request return for this order"
         else if negb (String.eqb (o_trackingStatus order) "delivered")
         then throw 400 "Return can only be requested for delivered orders"
         else
           match o_deliveredAt order with
           | Some deliveredAt =>
               if (7 <? diffDays (now env) deliveredAt)%Z
               then throw 400 "Return request can only be submitted within 7 days of delivery"
               else mret tt
           | None => mret tt
           end ;;
           if negb (String.eqb (o_returnStatus order) "None")
           then throw 400 "Return request already exists for this order"
           else
             updatedOrder ← Order_save (setReturn "Requested" reason order);
             admins ← User_find_admins;
             forEach admins (fun admin =>
               when (notDisabled (u_orderAlerts admin))
                    (Notification_create (returnRequestNotification updatedOrder reason admin))) ;;
             mret (Responded 200 (OrderBody updatedOrder))
     | None => throw 404 "Order not found"
     end).

(** *** [abandonOrder] *)

Definition abandonOrder (user : Principal) (id : string) : Store -> Store * Outcome :=
  runNext
    (found ← Order_findById (Some id);
     match found with
     | Some order =>
         forEach (o_orderItems order)
                 (fun item => adjustStock (i_product item) (i_qty item)) ;;
         Order_findByIdAndDelete id ;;
         mret (Responded 200
                 (MessageBody "Order record permanently deleted and stock restored"))
     | None => throw 404 "Order not found"
     end).

(** *** [services/notificationService.js] *)

(** Modelled from the spec: [services/notificationService.js] is not
    among the sources.  Section 4.2: notifying a user creates one
    notification addressed to that user, and the call is best-effort,
    its errors caught and logged, not propagated.  The texts are those
    of the environment. *)
Definition createPaymentNotification (userId : string) (order : Order) (kind : string)
    : M unit :=
  tryCatch
    (Notification_create
       (serviceNotification (paymentNotificationText env kind order) userId order))
    (fun _ => mret tt).

(** Modelled from the spec: [services/notificationService.js] is not
    among the sources.  As [createPaymentNotification], for the order
    events. *)
Definition createOrderNotification (userId : string) (order : Order) (kind : string)
    : M unit :=
  tryCatch
    (Notification_create
       (serviceNotification (orderNotificationText env kind order) userId order))
    (fun _ => mret tt).

(** *** [verifyPayment] *)

Record VerifyBody := mkVerifyBody {
  razorpay_order_id : option string;
  razorpay_payment_id : option string;
  razorpay_signature : option string;
  vb_orderId : option string
}.

(** The module-level [razorpayInstance] is set when both credentials are. *)
Definition razorpayInstance : bool :=
  truthy (RAZORPAY_KEY_ID env) && truthy (RAZORPAY_KEY_SECRET env).

(** The verdict [isValid] and the [paymentId] that is recorded. *)
Definition checkPayment (b : VerifyBody) : bool * option string :=
  if razorpayInstance && truthy (razorpay_signature b)
  then
    let sign := toStr (razorpay_order_id b) ++ "|" ++ toStr (razorpay_payment_id b) in
    let expectedSign := hmac_sha256_hex env (default "" (RAZORPAY_KEY_SECRET env)) sign in
    (strictEq (razorpay_signature b) (Some expectedSign), razorpay_payment_id b)
  else if String.eqb (paymentConfig_mode env) "mock"
  then
    let verification :=
      verifyMockPayment env (razorpay_order_id b) (razorpay_payment_id b)
                        (razorpay_signature b) in
    (mv_success verification, mv_paymentId verification)
  else (false, razorpay_payment_id b).

Definition paymentReceivedEntry : TrackingEntry :=
  mkTrackingEntry "pending" "Order placed and payment received" (Some "Online")
                  (Some (now env)) None.

(** The in-memory changes that [verifyPayment] makes before [save]. *)
Definition verifiedOrder (b : VerifyBody) (paymentId : option string) (order : Order) : Order :=
  pushTrackingHistory paymentReceivedEntry
    (setPayment true (Some (now env))
       (Some (mkPaymentResult paymentId (Some "completed") (Some (now env))
                              (razorpay_order_id b) (Some "razorpay")))
       order).

Definition verifyPayment (user : Principal) (b : VerifyBody) : Store -> Store * Outcome :=
  runCatch500
    (found ← Order_findById (vb_orderId b);
     match found with
     | None => mret (Responded 404 (MessageBody "Order not found"))
     | Some order =>
         let '(isValid, paymentId) := checkPayment b in
         if isValid
         then
           order ← Order_save (verifiedOrder b paymentId order);
           sendNewOrderNotifications order user ;;
           createPaymentNotification (o_user order) order "success" ;;
           createOrderNotification (o_user order) order "order_created" ;;
           mret (Responded 200 (VerifiedBody "Payment verified" order))
         else mret (Responded 400 (MessageBody "Invalid payment signature"))
     end).

(** *** [handleWebhook] *)

Definition webhookConfirmedEntry : TrackingEntry :=
  mkTrackingEntry "confirmed" "Order confirmed via Webhook" (Some "Online")
                  (Some (now env)) None.

(** The in-memory changes that [handleWebhook] makes before [save]. *)
Definition capturedOrder (entity : WebhookEntity) (order : Order) : Order :=
  pushTrackingHistory webhookConfirmedEntry
    (setTrackingStatus "confirmed"
       (setPayment true (Some (now env))
          (Some (mkPaymentResult (we_id entity) (Some "completed") (Some (now env))
                                 (we_order_id entity) (Some "razorpay")))
          order)).

(** [signature] is the [x-razorpay-signature] header.  Reading a
    property of a missing object throws a [TypeError]. *)
Definition handleWebhook (signature : option string) (body : WebhookBody)
    : Store -> Store * Outcome :=
  runCatch500
    (let secret := RAZORPAY_WEBHOOK_SECRET env in
     if negb (truthy signature) || negb (truthy secret)
     then mret (Responded 400 (MessageBody "Signature and secret are required for webhook"))
     else
       let expectedSignature :=
         hmac_sha256_hex env (default "" secret) (JSON_stringify env body) in
       if negb (strictEq signature (Some expectedSignature))
       then mret (Responded 400 (MessageBody "Invalid webhook signature"))
       else
         (if strictEq (wb_event body) (Some "payment.captured")
          then
            match wb_entity body with
            | None => throw 200 "Cannot read properties of undefined"
            | Some razorpayPayment =>
                match we_notes razorpayPayment with
                | None => throw 200 "Cannot read properties of undefined"
                | Some orderId =>
                    found ← Order_findById orderId;
                    match found with
                    | Some order =>
                        if negb (o_isPaid order)
                        then Order_save (capturedOrder razorpayPayment order) ;; mret tt
                        else mret tt
                    | None => mret tt
                    end
                end
            end
          else mret tt) ;;
         mret (Responded 200 (StatusBody "ok"))).

End Controllers.

(** * Reading the store

    Functions that observe a store; the properties below are stated with
    them. *)

(** The product list after one stock adjustment. *)
Definition adjustProducts (id : string) (delta : Z) (ps : list Product) : list Product :=
  match find (hasId id) ps with
  | Some _ => updateFirst (hasId id) (incCount delta) ps
  | None => updateFirst (hasAddOn id) (incAddOnOf id delta) ps
  end.

Definition addOnStock (id : string) (p : Product) : option Z :=
  a_countInStock <$> addOnItems_id id (p_addOnItems p).

(** The stock a line item refers to: that of the primary product with
    the identifier, else that of the first add-on with it. *)
Definition stockOf (id : string) (ps : list Product) : option Z :=
  match find (hasId id) ps with
  | Some p => Some (p_countInStock p)
  | None => find (hasAddOn id) ps ≫= addOnStock id
  end.

(** The quantity a list of line items asks of one identifier. *)
Definition totalQty (id : string) (items : list OrderItem) : Z :=
  foldr (fun item acc => if String.eqb (i_product item) id then i_qty item + acc else acc)
        0 items.

(** What a line item resolves to. *)
Inductive Resolution :=
| Primary (p : Product)
| Nested (a : AddOn)
| Missing.

Definition resolveItem (id : string) (ps : list Product) : Resolution :=
  match find (hasId id) ps with
  | Some p => Primary p
  | None =>
      match find (hasAddOn id) ps ≫= fun p => addOnItems_id id (p_addOnItems p) with
      | Some a => Nested a
      | None => Missing
      end
  end.

(** The stock-sufficiency check of one line item. *)
Definition sufficient (ps : list Product) (item : OrderItem) : bool :=
  match resolveItem (i_product item) ps with
  | Primary p => p_inStock p && (i_qty item <=? p_countInStock p)%Z
  | Nested a => a_inStock a && (i_qty item <=? a_countInStock a)%Z
  | Missing => false
  end.

(** The error with which the check of an insufficient item ends. *)
Definition checkError (ps : list Product) (item : OrderItem) : Err :=
  match resolveItem (i_product item) ps with
  | Primary p => mkErr 400 ("Insufficient stock for product: " ++ p_name p)
  | Nested a => mkErr 400 ("Insufficient stock for product: " ++ a_name a)
  | Missing =>
      mkErr 404 ("Product not found: " ++
                 (if truthy (i_name item) then toStr (i_name item) else i_product item))
  end.

(** The first line item, in request order, that fails the check. *)
Definition firstInsufficient (ps : list Product) (items : list OrderItem) : option OrderItem :=
  find (fun item => negb (sufficient ps item)) items.

(** The notifications of a batch that reach the store when they are
    created one after the other and the first refusal ends the batch. *)
Fixpoint acceptedPrefix (env : Env) (l : list Notification) : list Notification :=
  match l with
  | [] => []
  | n :: r =>
      match notificationError env n with
      | Some _ => []
      | None => n :: acceptedPrefix env r
      end
  end.

Definition lowStockThreshold : Z := 5.

(** The low-stock alerts for the line items of an order, in the order
    the loop visits them. *)
Definition lowStockAlerts (ps : list Product) (admins : list User) (items : list OrderItem)
    : list Notification :=
  flat_map (fun item =>
    match find (hasId (i_product item)) ps with
    | Some p =>
        if (p_countInStock p <=? lowStockThreshold)%Z
        then map (lowStockNotification p)
                 (List.filter (fun a => notDisabled (u_lowStockAlerts a)) admins)
        else []
    | None => []
    end) items.

(** The whole batch of new-order notifications for an order: one to the
    placing user, one to every admin who has not disabled order alerts,
    then the low-stock alerts. *)
Definition newOrderNotifications (order : Order) (user : Principal) (st : Store)
    : list Notification :=
  let admins := List.filter isAdmin (users st) in
  orderPlacedNotification order user
    :: map (newOrderReceivedNotification order)
           (List.filter (fun a => notDisabled (u_orderAlerts a)) admins)
    ++ lowStockAlerts (products st) admins (o_orderItems order).

(** The message of the first refusal in a batch, if any. *)
Fixpoint firstRefusal (env : Env) (l : list Notification) : option string :=
  match l with
  | [] => None
  | n :: r =>
      match notificationError env n with
      | Some msg => Some msg
      | None => firstRefusal env r
      end
  end.

(** Creating a batch of notifications one after the other. *)
Definition createAll (env : Env) (l : list Notification) : M unit :=
  forEach l (Notification_create env).

(** ** A small shop

    Concrete data on which the properties are exercised.  The digest and
    the serializer are stand-ins that keep their arguments apart; the
    properties themselves hold for every environment. *)

Definition sampleEnv : Env :=
  mkEnv 1700000000000 "65c3f0a1order0002" (fun _ => None)
        (fun key data => "hmac[" ++ key ++ "][" ++ data ++ "]")
        (fun body => toStr (wb_event body) ++ "/" ++
                     toStr (wb_entity body ≫= we_id) ++ "/" ++
                     toStr (wb_entity body ≫= we_order_id))
        (Some "rzp_test_key") (Some "rzp_test_secret") (Some "whsec_test") "live"
        (fun _ paymentId _ => mkMockVerification true paymentId)
        (fun kind _ => mkNotificationText ("Payment " ++ kind) "" "payment" "/orders")
        (fun kind _ => mkNotificationText ("Order " ++ kind) "" "order" "/orders")
        true.

Definition sampleProducts : list Product :=
  [ mkProduct "p1" "Silk Saree" true 5 [mkAddOn "a1" "Blouse Piece" true 2];
    mkProduct "p2" "Cotton Kurta" true 1 [] ].

Definition sampleUsers : list User :=
  [ mkUser "admin1" "admin" None None; mkUser "u1" "customer" None None ].

Definition customer : Principal := mkPrincipal "u1" "customer".
Definition stranger : Principal := mkPrincipal "u2" "customer".

Definition sampleItems : list OrderItem :=
  [ mkOrderItem "p1" (Some "Silk Saree") 2; mkOrderItem "a1" (Some "Blouse Piece") 1 ].

(** An order of [sampleItems] placed by [customer], with the given
    payment and tracking fields. *)
Definition sampleOrder (id : string) (paymentMethod : string) (isPaid : bool)
    (trackingStatus : string) (deliveredAt : option Z) : Order :=
  mkOrder id "u1" sampleItems "12 Temple Road" (Some paymentMethod) 900 45 50 995 None
          isPaid (if isPaid then Some 1699990000000 else None) None
          (String.eqb trackingStatus "delivered") deliveredAt trackingStatus [] "None"
          None None 1699990000000.

Definition sampleStore : Store := mkStore sampleProducts ∅ sampleUsers [].

Definition storeWith (os : list Order) : Store :=
  mkStore sampleProducts (list_to_map (map (fun o => (o_id o, o)) os)) sampleUsers [].

Definition sampleRequest (items : list OrderItem) (paymentMethod : string) : CreateOrderBody :=
  mkCreateOrderBody (Some items) "12 Temple Road" (Some paymentMethod) 900 45 50 995 None.

(** The store after a successful creation, before any notification. *)
Definition createdStore (env : Env) (user : Principal) (items : list OrderItem)
    (b : CreateOrderBody) (st : Store) : Store :=
  setProducts
    (foldl (fun ps item => adjustProducts (i_product item) (- i_qty item) ps)
           (products st) items)
    (setOrders (<[newOrderId env := newOrder env user items b]> (orders st)) st).

(** The product list after the stock of a list of items is restored. *)
Definition restoredProducts (items : list OrderItem) (ps : list Product) : list Product :=
  foldl (fun ps item => adjustProducts (i_product item) (i_qty item) ps) ps items.

(** The batch of notifications of a cancellation: one to the owner, one
    to every admin who has not disabled order alerts. *)
Definition cancelNotifications (order : Order) (st : Store) : list Notification :=
  orderCancelledNotification order
    :: map (cancelledByUserNotification order)
           (List.filter (fun a => notDisabled (u_orderAlerts a))
                        (List.filter isAdmin (users st))).

(** The batch of notifications of a return request. *)
Definition returnNotifications (order : Order) (reason : option string) (st : Store)
    : list Notification :=
  map (returnRequestNotification order reason)
      (List.filter (fun a => notDisabled (u_orderAlerts a)) (List.filter isAdmin (users st))).

(** The guards of a return request, read off an order: the caller owns
    it, it is delivered, no return is recorded, and, when a delivery
    time is recorded, at most seven whole days have passed since. *)
Definition returnable (env : Env) (user : Principal) (o : Order) : Prop :=
  o_user o = user_id user /\
  o_trackingStatus o = "delivered" /\
  o_returnStatus o = "None" /\
  (forall d, o_deliveredAt o = Some d -> diffDays (now env) d <= 7).

(** The two notifications that follow a verified payment. *)
Definition paymentSuccessNotification (env : Env) (order : Order) : Notification :=
  serviceNotification (paymentNotificationText env "success" order) (o_user order) order.

Definition orderCreatedNotification (env : Env) (order : Order) : Notification :=
  serviceNotification (orderNotificationText env "order_created" order) (o_user order) order.

(** An environment whose store refuses every notification. *)
Definition refusingEnv : Env :=
  mkEnv (now sampleEnv) (newOrderId sampleEnv)
        (fun _ => Some "Notification validation failed")
        (hmac_sha256_hex sampleEnv) (JSON_stringify sampleEnv)
        (RAZORPAY_KEY_ID sampleEnv) (RAZORPAY_KEY_SECRET sampleEnv)
        (RAZORPAY_WEBHOOK_SECRET sampleEnv) (paymentConfig_mode sampleEnv)
        (verifyMockPayment sampleEnv) (paymentNotificationText sampleEnv)
        (orderNotificationText sampleEnv) (Order_timestamps sampleEnv).

(** The sample environment some whole days later. *)
Definition sampleEnvAfter (days : Z) : Env :=
  mkEnv (now sampleEnv + days * msPerDay) (newOrderId sampleEnv) (notificationError sampleEnv)
        (hmac_sha256_hex sampleEnv) (JSON_stringify sampleEnv)
        (RAZORPAY_KEY_ID sampleEnv) (RAZORPAY_KEY_SECRET sampleEnv)
        (RAZORPAY_WEBHOOK_SECRET sampleEnv) (paymentConfig_mode sampleEnv)
        (verifyMockPayment sampleEnv) (paymentNotificationText sampleEnv)
        (orderNotificationText sampleEnv) (Order_timestamps sampleEnv).

(** The sample environment with an order schema without [timestamps]. *)
Definition untimedEnv : Env :=
  mkEnv (now sampleEnv) (newOrderId sampleEnv) (notificationError sampleEnv)
        (hmac_sha256_hex sampleEnv) (JSON_stringify sampleEnv)
        (RAZORPAY_KEY_ID sampleEnv) (RAZORPAY_KEY_SECRET sampleEnv)
        (RAZORPAY_WEBHOOK_SECRET sampleEnv) (paymentConfig_mode sampleEnv)
        (verifyMockPayment sampleEnv) (paymentNotificationText sampleEnv)
        (orderNotificationText sampleEnv) false.

(** A verification request for [sampleEnv] with the right signature. *)
Definition signedVerifyBody (orderId : string) : VerifyBody :=
  mkVerifyBody (Some "order_1") (Some "pay_1")
               (Some (hmac_sha256_hex sampleEnv "rzp_test_secret" "order_1|pay_1"))
               (Some orderId).

(** A [payment.captured] webhook body for an order. *)
Definition capturedBody (orderId : string) : WebhookBody :=
  mkWebhookBody (Some "payment.captured")
                (Some (mkWebhookEntity (Some "pay_1") (Some "order_1") (Some (Some orderId)))).

(** A store is well formed when every order is filed under its own
    identifier. *)
Definition wfStore (st : Store) : Prop :=
  forall id o, orders st !! id = Some o -> o_id o = id.

(** A computation keeps a property of the store, however it ends. *)
Definition keeps (P : Store -> Prop) {A} (m : M A) : Prop :=
  forall st, P st -> P (m st).1.

(** * The remaining controllers and the middleware *)

Definition setReturnAdminNote (note : option string) (o : Order) : Order :=
  mkOrder (o_id o) (o_user o) (o_orderItems o) (o_shippingAddress o) (o_paymentMethod o)
          (o_itemsPrice o) (o_taxPrice o) (o_shippingPrice o) (o_totalPrice o)
          (o_customization o) (o_isPaid o) (o_paidAt o) (o_paymentResult o)
          (o_isDelivered o) (o_deliveredAt o)
          (o_trackingStatus o) (o_trackingHistory o) (o_returnStatus o) (o_returnReason o)
          note (o_createdAt o).

(** The in-memory changes that [updateReturnStatus] makes before [save].
    [adminNote] is [None] when the body has no such field. *)
Definition returnUpdatedOrder (status : string) (reason adminNote : option string)
    (order : Order) : Order :=
  let order1 :=
    setReturn status (if truthy reason then reason else o_returnReason order) order in
  let order2 :=
    match adminNote with
    | Some _ => setReturnAdminNote adminNote order1
    | None => order1
    end in
  if String.eqb status "Completed" then setTrackingStatus "returned" order2 else order2.

(** [updateReturnStatus], for a body that carries a [status]. *)
Definition updateReturnStatus (id : string) (status : string) (reason adminNote : option string)
    : Store -> Store * Outcome :=
  runAsync
    (found ← Order_findById (Some id);
     match found with
     | Some order =>
         updatedOrder ← Order_save (returnUpdatedOrder status reason adminNote order);
         mret (Responded 200 (OrderBody updatedOrder))
     | None => throw 404 "Order not found"
     end).

(** What the payment provider, or the simulator of [config/payment.js],
    answers to the creation of a payment order. *)
Record PaymentOrder := mkPaymentOrder {
  po_id : string;
  po_amount : Z;
  po_currency : string
}.

(** The two ways of creating a payment order, both outside the sources:
    [razorpayInstance.orders.create] with the amount in paise, the
    currency and the receipt, and [createMockPaymentOrder] with the
    amount and the order identifier.  Either may throw. *)
Record Gateway := mkGateway {
  razorpay_orders_create : Z -> string -> string -> Err + PaymentOrder;
  createMockPaymentOrder : Z -> string -> Err + PaymentOrder
}.

(** The answers of [createPaymentOrder]. *)
Inductive PaymentOrderReply :=
| PaymentOrderCreated (orderId : string) (amount : Z) (currency : string)
                      (key : option string) (mode : string)
| PaymentOrderRefused (status : Z) (message : string).

(** Lifting an outside call that may throw. *)
Definition call {A} (r : Err + A) : M A := fun st => (st, r).

Section OtherControllers.

Context (env : Env) (gateway : Gateway).

(** *** [updateOrderToDelivered] *)

Definition updateOrderToDelivered (id : string) : Store -> Store * Outcome :=
  runAsync
    (found ← Order_findById (Some id);
     match found with
     | Some order =>
         updatedOrder ← Order_save (setDelivered true (Some (now env)) order);
         mret (Responded 200 (OrderBody updatedOrder))
     | None => throw 404 "Order not found"
     end).

(** *** [createPaymentOrder]

    The amount is a whole number of rupees, as the prices of the model
    are, so that [Math.round(amount * 100)] is [amount * 100].  [amount]
    is [None] when the body has none. *)
Definition createPaymentOrder (user : Principal) (amount : option Z) (orderId : option string)
    : Store -> Store * PaymentOrderReply :=
  fun st =>
    match
      (match amount, orderId with
       | Some amt, Some oid =>
           if (amt =? 0)%Z || negb (truthy orderId)
           then mret (PaymentOrderRefused 400 "Amount and order ID are required")
           else
             found ← Order_findById orderId;
             match found with
             | None => mret (PaymentOrderRefused 404 "Order not found")
             | Some order =>
                 if negb (String.eqb (o_user order) (user_id user))
                 then mret (PaymentOrderRefused 403 "Not authorized")
                 else if razorpayInstance env
                 then
                   razorpayOrder ← call (razorpay_orders_create gateway (amt * 100) "INR" oid);
                   mret (PaymentOrderCreated (po_id razorpayOrder) (po_amount razorpayOrder)
                                             (po_currency razorpayOrder)
                                             (RAZORPAY_KEY_ID env) "live")
                 else if String.eqb (paymentConfig_mode env) "mock"
                 then
                   paymentOrder ← call (createMockPaymentOrder gateway amt oid);
                   mret (PaymentOrderCreated (po_id paymentOrder) (po_amount paymentOrder)
                                             (po_currency paymentOrder) None "mock")
                 else mret (PaymentOrderRefused 500 "Payment gateway not configured")
             end
       | _, _ => mret (PaymentOrderRefused 400 "Amount and order ID are required")
       end) st
    with
    | (st', inr reply) => (st', reply)
    | (st', inl e) => (st', PaymentOrderRefused 500 (err_message e))
    end.

End OtherControllers.

(** ** [utils/verifyToken.js] and the error handler of [server.js] *)

(** An [Error] object as the error handler reads it: [status] is [None]
    on an error that was made with [new Error(message)]. *)
Record JsError := mkJsError {
  je_status : option Z;
  je_message : string
}.

(** The part of a request the middleware reads and writes. *)
Record Request := mkRequest {
  rq_authorization : option string;
  rq_params_id : option string;
  rq_user : option Principal
}.

(** How a middleware hands over: it calls [next()], calls [next(err)],
    or throws. *)
Inductive Handover :=
| Continue (req : Request)
| Fail (e : JsError)
| Thrown (e : JsError).

(** The callback a middleware is given: its argument is the error, if
    any, and the request as the middleware left it. *)
Definition NextFn : Type := option JsError -> Request -> Handover.

(** The [next] that the router supplies. *)
Definition expressNext : NextFn :=
  fun err req =>
    match err with
    | Some e => Fail e
    | None => Continue req
    end.

(** [jwt.verify] under [JWT_SECRET], answering the payload of a valid
    token, and [createError] of [utils/error.js], which is not among the
    sources. *)
Record AuthEnv := mkAuthEnv {
  jwt_verify : string -> option Principal;
  createError : Z -> string -> JsError
}.

(** [s.split(" ")] *)
Fixpoint splitSpace (s : string) : list string :=
  match s with
  | EmptyString => [EmptyString]
  | String c r =>
      if Ascii.eqb c " "
      then EmptyString :: splitSpace r
      else match splitSpace r with
           | h :: t => String c h :: t
           | [] => [String c EmptyString]
           end
  end.

Definition setUser (user : Principal) (req : Request) : Request :=
  mkRequest (rq_authorization req) (rq_params_id req) (Some user).

(** Reading [req.user.role] or [req.user.id] when [req.user] is undefined. *)
Definition undefinedUserError (property : string) : JsError :=
  mkJsError None ("Cannot read properties of undefined (reading '" ++ property ++ "')").

Section Middleware.

Context (auth : AuthEnv).

Definition verifyToken (req : Request) (next : NextFn) : Handover :=
  match rq_authorization req with
  | Some authHeader =>
      if negb (String.eqb authHeader "") && String.prefix "Bearer " authHeader
      then
        match splitSpace authHeader !! 1%nat ≫= jwt_verify auth with
        | None => next (Some (createError auth 403 "Token is not valid!")) req
        | Some user => next None (setUser user req)
        end
      else next (Some (createError auth 401 "You are not authenticated!")) req
  | None => next (Some (createError auth 401 "You are not authenticated!")) req
  end.

(** The callback given to [verifyToken] takes no argument: an error
    passed to it is dropped, and the callback reads [req.user]. *)
Definition verifyUser (req : Request) (next : NextFn) : Handover :=
  verifyToken req (fun _ req' =>
    match rq_user req' with
    | None => Thrown (undefinedUserError "id")
    | Some user =>
        if strictEq (Some (user_id user)) (rq_params_id req')
           || String.eqb (user_role user) "admin"
        then next None req'
        else next (Some (createError auth 403 "You are not authorized!")) req'
    end).

Definition verifyAdmin (req : Request) (next : NextFn) : Handover :=
  verifyToken req (fun _ req' =>
    match rq_user req' with
    | None => Thrown (undefinedUserError "role")
    | Some user =>
        if String.eqb (user_role user) "admin"
        then next None req'
        else next (Some (createError auth 403 "Admin access only!")) req'
    end).

(** A middleware as the router runs it. *)
Definition Middleware : Type := Request -> NextFn -> Handover.

(** The router runs the middleware of a route in order, each with the
    request as the one before left it, until one does not call [next()]. *)
Fixpoint runChain (chain : list Middleware) (req : Request) : Handover :=
  match chain with
  | [] => Continue req
  | mw :: rest =>
      match mw req expressNext with
      | Continue req' => runChain rest req'
      | stop => stop
      end
  end.

End Middleware.

(** The global error handler: [err.status || 500] and
    [err.message || "Something went wrong!"]. *)
Definition errorStatus (e : JsError) : Z :=
  match je_status e with
  | Some s => if (s =? 0)%Z then 500 else s
  | None => 500
  end.

Definition errorMessage (e : JsError) : string :=
  if String.eqb (je_message e) "" then "Something went wrong!" else je_message e.

(** What the client of a route gets in the end: the answer of the
    controller, the answer of the error handler, or, for a rejected
    promise of an [async] handler, whatever the framework does with it. *)
Inductive Reply :=
| Answer (status : Z) (body : Body)
| ErrorAnswer (status : Z) (message : string)
| Unhandled (e : Err).

(** A controller throws [new Error(message)], which has no [status]. *)
Definition controllerError (e : Err) : JsError := mkJsError None (err_message e).

Definition handleError (e : JsError) : Reply := ErrorAnswer (errorStatus e) (errorMessage e).

Definition replyOf (o : Outcome) : Reply :=
  match o with
  | Responded status body => Answer status body
  | Forwarded e => handleError (controllerError e)
  | Uncaught e => Unhandled e
  end.

(** A route: the chain of its middleware, then its controller with the
    principal the chain left in [req.user].  A chain that begins with
    [verifyToken] always leaves one. *)
Definition route (chain : list Middleware)
    (controller : Principal -> Store -> Store * Outcome) (req : Request) (st : Store)
    : Store * Reply :=
  match runChain chain req with
  | Continue req' =>
      match rq_user req' with
      | Some user => let (st', o) := controller user st in (st', replyOf o)
      | None => (st, handleError (undefinedUserError "id"))
      end
  | Fail e => (st, handleError e)
  | Thrown e => (st, handleError e)
  end.

(** The routes of [routes/order.routes.js] whose controllers are modelled. *)
Section OrderRoutes.

Context (env : Env) (auth : AuthEnv).

(** [router.route("/").post(verifyToken, addOrderItems)] *)
Definition POST_orders (b : CreateOrderBody) : Request -> Store -> Store * Reply :=
  route [verifyToken auth] (fun user => addOrderItems env user b).

(** [router.route('/bulk-update').put(protect, admin, updateOrdersStatus)] *)
Definition PUT_orders_bulk_update (orderIds : option (list string)) (status : string)
    : Request -> Store -> Store * Reply :=
  route [verifyToken auth; verifyAdmin auth]
        (fun _ => updateOrdersStatus env orderIds status).

(** [router.route("/:id/abandon").put(verifyToken, abandonOrder)] *)
Definition PUT_orders_abandon (id : string) : Request -> Store -> Store * Reply :=
  route [verifyToken auth] (fun user => abandonOrder user id).

End OrderRoutes.

(** The product list after the stock of a list of items is reserved. *)
Definition reservedProducts (items : list OrderItem) (ps : list Product) : list Product :=
  foldl (fun ps item => adjustProducts (i_product item) (- i_qty item) ps) ps items.

(** Whether [handleWebhook] gets past its two signature guards. *)
Definition webhookAuthentic (env : Env) (signature : option string) (body : WebhookBody)
    : bool :=
  truthy signature && truthy (RAZORPAY_WEBHOOK_SECRET env) &&
  strictEq signature
    (Some (hmac_sha256_hex env (default "" (RAZORPAY_WEBHOOK_SECRET env))
                           (JSON_stringify env body))).

(** Whether a string has a space in it. *)
Fixpoint hasSpace (s : string) : bool :=
  match s with
  | EmptyString => false
  | String c r => Ascii.eqb c " " || hasSpace r
  end.

(** A token service for examples: two tokens are valid. *)
Definition sampleAuth : AuthEnv :=
  mkAuthEnv (fun token =>
               if String.eqb token "token-of-u1" then Some customer
               else if String.eqb token "token-of-admin1" then Some (mkPrincipal "admin1" "admin")
               else None)
            (fun status message => mkJsError (Some status) message).

Definition bearer (token : string) : Request :=
  mkRequest (Some ("Bearer " ++ token)) None None.

(** * Properties *)

(** ** Lists updated at their first match *)

Section UpdateFirst.

Context {A B : Type} (P Q : A -> bool) (f : A -> A) (g : A -> B).

Lemma find_updateFirst_proj (l : list A) :
  (forall x, Q (f x) = Q x) ->
  (forall x, P x = true -> Q x = true -> g (f x) = g x) ->
  g <$> find Q (updateFirst P f l) = g <$> find Q l.
Proof.
  intros HQ Hg. induction l as [|a l IH]; simpl; [done|].
  destruct (P a) eqn:HP; simpl.
  - rewrite HQ. destruct (Q a) eqn:HQa; simpl; [|done].
    by rewrite Hg.
  - destruct (Q a); simpl; [done|]. apply IH.
Qed.

Lemma find_updateFirst_same (l : list A) :
  (forall x, P (f x) = P x) ->
  find P (updateFirst P f l) = f <$> find P l.
Proof.
  intros HP. induction l as [|a l IH]; simpl; [done|].
  destruct (P a) eqn:HPa; simpl.
  - by rewrite HP, HPa.
  - by rewrite HPa.
Qed.

Lemma updateFirst_none (l : list A) :
  find P l = None -> updateFirst P f l = l.
Proof.
  induction l as [|a l IH]; simpl; [done|].
  destruct (P a); [done|]. intros H. by rewrite IH.
Qed.

Lemma existsb_updateFirst (l : list A) :
  (forall x, Q (f x) = Q x) ->
  existsb Q (updateFirst P f l) = existsb Q l.
Proof.
  intros HQ. induction l as [|a l IH]; simpl; [done|].
  destruct (P a); simpl; [by rewrite HQ|by rewrite IH].
Qed.

End UpdateFirst.

(** ** The stock ledger *)

Lemma hasId_incCount q d p : hasId q (incCount d p) = hasId q p.
Proof. done. Qed.

Lemma hasId_incAddOnOf q id d p : hasId q (incAddOnOf id d p) = hasId q p.
Proof. done. Qed.

Lemma hasAddOn_incCount q d p : hasAddOn q (incCount d p) = hasAddOn q p.
Proof. done. Qed.

Lemma hasAddOn_incAddOnOf q id d p : hasAddOn q (incAddOnOf id d p) = hasAddOn q p.
Proof. unfold hasAddOn. simpl. by apply existsb_updateFirst. Qed.

Lemma addOnStock_incAddOnOf_same id d p :
  addOnStock id (incAddOnOf id d p) = (fun c => c + d) <$> addOnStock id p.
Proof.
  unfold addOnStock, addOnItems_id. simpl.
  rewrite find_updateFirst_same by done.
  by destruct (find (addOnHasId id) (p_addOnItems p)).
Qed.

Lemma addOnStock_incAddOnOf_other q id d p :
  id <> q -> addOnStock q (incAddOnOf id d p) = addOnStock q p.
Proof.
  intros Hne. unfold addOnStock, addOnItems_id. simpl.
  apply find_updateFirst_proj; [done|].
  unfold addOnHasId. intros a H1 H2.
  apply String.eqb_eq in H1, H2. congruence.
Qed.

(** [stockOf] through projections of the two lookups. *)
Lemma stockOf_alt id ps :
  stockOf id ps =
  from_option Some (mjoin (addOnStock id <$> find (hasAddOn id) ps))
              (p_countInStock <$> find (hasId id) ps).
Proof.
  unfold stockOf. destruct (find (hasId id) ps); simpl; [done|].
  by destruct (find (hasAddOn id) ps).
Qed.

(** One adjustment moves the stock of its own identifier by [delta] and
    leaves the stock of every other identifier alone. *)
Lemma stockOf_adjustProducts q id delta ps :
  stockOf q (adjustProducts id delta ps) =
  (fun c => if String.eqb id q then c + delta else c) <$> stockOf q ps.
Proof.
  rewrite !stockOf_alt. unfold adjustProducts.
  destruct (find (hasId id) ps) as [p0|] eqn:Hmain.
  - (* the primary product is adjusted *)
    assert (Hadd : addOnStock q <$> find (hasAddOn q) (updateFirst (hasId id) (incCount delta) ps)
                   = addOnStock q <$> find (hasAddOn q) ps).
    { apply find_updateFirst_proj; done. }
    rewrite Hadd. destruct (String.eqb_spec id q) as [->|Hne].
    + rewrite find_updateFirst_same by done. rewrite Hmain. done.
    + assert (Hc : p_countInStock <$> find (hasId q) (updateFirst (hasId id) (incCount delta) ps)
                   = p_countInStock <$> find (hasId q) ps).
      { apply find_updateFirst_proj; [done|]. unfold hasId. intros x H1 H2.
        apply String.eqb_eq in H1, H2. congruence. }
      rewrite Hc.
      destruct (p_countInStock <$> find (hasId q) ps); simpl; [done|].
      by destruct (mjoin (addOnStock q <$> find (hasAddOn q) ps)).
  - (* no primary product: the add-on is adjusted *)
    assert (Hc : p_countInStock <$> find (hasId q)
                   (updateFirst (hasAddOn id) (incAddOnOf id delta) ps)
                 = p_countInStock <$> find (hasId q) ps).
    { apply find_updateFirst_proj; done. }
    rewrite Hc. destruct (String.eqb_spec id q) as [->|Hne].
    + rewrite Hmain. simpl.
      rewrite find_updateFirst_same by (intros; apply hasAddOn_incAddOnOf).
      destruct (find (hasAddOn q) ps) as [p1|]; simpl; [|done].
      by rewrite addOnStock_incAddOnOf_same.
    + assert (Hadd : addOnStock q <$> find (hasAddOn q)
                       (updateFirst (hasAddOn id) (incAddOnOf id delta) ps)
                     = addOnStock q <$> find (hasAddOn q) ps).
      { apply find_updateFirst_proj; [intros; apply hasAddOn_incAddOnOf|].
        intros. by apply addOnStock_incAddOnOf_other. }
      rewrite Hadd.
      destruct (p_countInStock <$> find (hasId q) ps); simpl; [done|].
      by destruct (mjoin (addOnStock q <$> find (hasAddOn q) ps)).
Qed.

Lemma setProducts_same st : setProducts (products st) st = st.
Proof. by destruct st. Qed.

Lemma adjustStock_run id delta st :
  adjustStock id delta st = (setProducts (adjustProducts id delta (products st)) st, inr tt).
Proof.
  unfold adjustStock, adjustProducts, Product_findByIdAndUpdate_inc,
    Product_findOneAndUpdate_addOn_inc, mbind, M_bind, mret, M_ret, get, modify.
  simpl. destruct (find (hasId id) (products st)) eqn:H; simpl; [done|].
  by rewrite (updateFirst_none _ _ _ H).
Qed.

(** A loop of stock adjustments never throws, and touches the products only. *)
Lemma forEach_adjustStock (k : OrderItem -> Z) items st :
  forEach items (fun item => adjustStock (i_product item) (k item)) st =
  (setProducts (foldl (fun ps item => adjustProducts (i_product item) (k item) ps)
                      (products st) items) st, inr tt).
Proof.
  revert st. induction items as [|item items IH]; intros st; simpl.
  - by rewrite setProducts_same.
  - unfold mbind, M_bind. rewrite adjustStock_run, IH. done.
Qed.

Lemma stockOf_foldl_adjust (k : OrderItem -> Z) q items ps :
  stockOf q (foldl (fun ps item => adjustProducts (i_product item) (k item) ps) ps items) =
  (fun c => c + foldr (fun item acc => if String.eqb (i_product item) q
                                        then k item + acc else acc) 0 items)
    <$> stockOf q ps.
Proof.
  revert ps. induction items as [|item items IH]; intros ps; simpl.
  - destruct (stockOf q ps); simpl; f_equal; lia.
  - rewrite IH, stockOf_adjustProducts.
    destruct (stockOf q ps); simpl; [|done].
    f_equal. destruct (String.eqb (i_product item) q); lia.
Qed.

Lemma totalQty_opp q items :
  foldr (fun item acc => if String.eqb (i_product item) q then - i_qty item + acc else acc)
        0 items = - totalQty q items.
Proof.
  induction items as [|item items IH]; simpl; [done|].
  rewrite IH. destruct (String.eqb (i_product item) q); lia.
Qed.

(** Restoring the items of an order gives every identifier back the
    quantity the items ask of it. *)
Lemma stockOf_restore q items ps :
  stockOf q (restoredProducts items ps) = (fun c => c + totalQty q items) <$> stockOf q ps.
Proof. apply stockOf_foldl_adjust. Qed.

Lemma stockOf_reserve q items ps :
  stockOf q (foldl (fun ps item => adjustProducts (i_product item) (- i_qty item) ps) ps items) =
  (fun c => c - totalQty q items) <$> stockOf q ps.
Proof.
  rewrite stockOf_foldl_adjust, totalQty_opp.
  destruct (stockOf q ps); simpl; f_equal; lia.
Qed.

(** ** The stock check *)

Lemma hasAddOn_find id p :
  hasAddOn id p = true -> is_Some (addOnItems_id id (p_addOnItems p)).
Proof.
  unfold hasAddOn, addOnItems_id. intros H.
  apply existsb_exists in H as (a & Hin & Ha).
  destruct (find (addOnHasId id) (p_addOnItems p)) eqn:Hf; [eauto|].
  eapply find_none in Hf; [|exact Hin]. congruence.
Qed.

Lemma checkItem_run item st :
  checkItem item st =
  (st, if sufficient (products st) item then inr tt
       else inl (checkError (products st) item)).
Proof.
  unfold checkItem, sufficient, checkError, resolveItem, Product_findById,
    Product_findOne_addOn, mbind, M_bind, mret, M_ret, get, throw.
  simpl. destruct (find (hasId (i_product item)) (products st)) as [p|] eqn:Hmain; simpl.
  - destruct (p_inStock p); simpl.
    + rewrite Z.ltb_antisym. by destruct (i_qty item <=? p_countInStock p)%Z.
    + done.
  - destruct (find (hasAddOn (i_product item)) (products st)) as [p|] eqn:Hadd; simpl; [|done].
    apply find_some in Hadd as [_ Hadd].
    destruct (hasAddOn_find _ _ Hadd) as [a Ha]. rewrite Ha.
    destruct (a_inStock a); simpl.
    + rewrite Z.ltb_antisym. by destruct (i_qty item <=? a_countInStock a)%Z.
    + done.
Qed.

(** The check loop reads only: it ends with the error of the first
    insufficient item, or normally when there is none. *)
Lemma forEach_checkItem items st :
  forEach items checkItem st =
  (st, match firstInsufficient (products st) items with
       | Some item => inl (checkError (products st) item)
       | None => inr tt
       end).
Proof.
  unfold firstInsufficient. induction items as [|item items IH]; simpl; [done|].
  unfold mbind, M_bind. rewrite checkItem_run.
  destruct (sufficient (products st) item); simpl; [apply IH|done].
Qed.

Lemma checkError_status ps item :
  err_status (checkError ps item) =
  match resolveItem (i_product item) ps with Missing => 404 | _ => 400 end.
Proof. unfold checkError. by destruct (resolveItem (i_product item) ps). Qed.

Lemma firstInsufficient_None ps items :
  firstInsufficient ps items = None <-> forallb (sufficient ps) items = true.
Proof.
  unfold firstInsufficient. induction items as [|item items IH]; simpl; [done|].
  destruct (sufficient ps item); simpl; [apply IH|split; discriminate].
Qed.

(** ** Batches of notifications *)

Lemma createAll_run env l st :
  createAll env l st =
  (setNotifications (notifications st ++ acceptedPrefix env l) st,
   match firstRefusal env l with
   | Some msg => inl (mkErr 200 msg)
   | None => inr tt
   end).
Proof.
  unfold createAll. revert st. induction l as [|n l IH]; intros st; simpl.
  - rewrite app_nil_r. by destruct st.
  - unfold mbind, M_bind, Notification_create.
    destruct (notificationError env n) as [msg|]; simpl.
    + rewrite app_nil_r. by destruct st.
    + unfold modify. rewrite IH. simpl. by rewrite <- app_assoc.
Qed.

Lemma acceptedPrefix_app env l1 l2 :
  acceptedPrefix env (l1 ++ l2) =
  (acceptedPrefix env l1 ++
   match firstRefusal env l1 with Some _ => [] | None => acceptedPrefix env l2 end)%list.
Proof.
  induction l1 as [|n l1 IH]; simpl; [done|].
  destruct (notificationError env n); simpl; [done|]. by rewrite IH.
Qed.

Lemma firstRefusal_app env l1 l2 :
  firstRefusal env (l1 ++ l2) =
  match firstRefusal env l1 with Some msg => Some msg | None => firstRefusal env l2 end.
Proof.
  induction l1 as [|n l1 IH]; simpl; [done|].
  by destruct (notificationError env n).
Qed.

Lemma createAll_app env l1 l2 st :
  createAll env (l1 ++ l2) st = (createAll env l1 ;; createAll env l2) st.
Proof.
  unfold mbind, M_bind.
  rewrite (createAll_run env (l1 ++ l2)), (createAll_run env l1),
    acceptedPrefix_app, firstRefusal_app.
  destruct (firstRefusal env l1); cbv beta iota.
  - by rewrite app_nil_r.
  - rewrite createAll_run. simpl. by rewrite <- app_assoc.
Qed.

(** A loop that creates one notification for every element that passes
    a guard is the batch of those notifications. *)
Lemma forEach_when_create {A} env (c : A -> bool) (f : A -> Notification) l st :
  forEach l (fun a => when (c a) (Notification_create env (f a))) st =
  createAll env (map f (List.filter c l)) st.
Proof.
  unfold createAll. revert st. induction l as [|a l IH]; intros st; simpl; [done|].
  unfold mbind, M_bind. destruct (c a); simpl.
  - unfold mbind, M_bind. destruct (Notification_create env (f a) st) as [st' [e|[]]]; [done|].
    apply IH.
  - apply IH.
Qed.

Lemma createAll_products env l st : products (createAll env l st).1 = products st.
Proof. by rewrite createAll_run. Qed.

(** Sequencing two computations that are batches, the second in any
    store with the same products and users, is the batch of both. *)
Lemma bind_batch env (m1 m2 : M unit) l1 l2 st :
  m1 st = createAll env l1 st ->
  (forall st', products st' = products st -> users st' = users st ->
               m2 st' = createAll env l2 st') ->
  (m1 ;; m2) st = createAll env (l1 ++ l2) st.
Proof.
  intros H1 H2. rewrite createAll_app. unfold mbind, M_bind. rewrite H1.
  rewrite (createAll_run env l1).
  destruct (firstRefusal env l1); [done|]. by apply H2.
Qed.

Lemma Notification_create_batch env n st :
  Notification_create env n st = createAll env [n] st.
Proof.
  unfold createAll. simpl. unfold mbind, M_bind.
  by destruct (Notification_create env n st) as [st' [e|[]]].
Qed.

Lemma bind_admins {A} (k : list User -> M A) st :
  (admins ← User_find_admins; k admins) st = k (List.filter isAdmin (users st)) st.
Proof. done. Qed.

Lemma forEach_batches {A} env (body : A -> M unit)
    (batch : list Product -> A -> list Notification) l st :
  (forall a st', body a st' = createAll env (batch (products st') a) st') ->
  forEach l body st = createAll env (flat_map (batch (products st)) l) st.
Proof.
  intros Hbody. revert st. induction l as [|a l IH]; intros st; [done|].
  simpl. apply bind_batch; [apply Hbody|].
  intros st' Hp _. by rewrite IH, Hp.
Qed.

Lemma forEach_lowStock env admins items st :
  forEach items (fun item =>
    product ← Product_findById (i_product item);
    match product with
    | Some p =>
        when (p_countInStock p <=? 5)%Z
          (forEach admins (fun admin =>
             when (notDisabled (u_lowStockAlerts admin))
                  (Notification_create env (lowStockNotification p admin))))
    | None => mret tt
    end) st =
  createAll env (lowStockAlerts (products st) admins items) st.
Proof.
  unfold lowStockAlerts.
  apply (forEach_batches env _ (fun ps item =>
    match find (hasId (i_product item)) ps with
    | Some p =>
        if (p_countInStock p <=? lowStockThreshold)%Z
        then map (lowStockNotification p)
                 (List.filter (fun a => notDisabled (u_lowStockAlerts a)) admins)
        else []
    | None => []
    end)).
  intros item st'. unfold Product_findById, mbind, M_bind, get, mret, M_ret. simpl.
  destruct (find (hasId (i_product item)) (products st')) as [p|]; [|done].
  unfold lowStockThreshold. destruct (p_countInStock p <=? 5)%Z; simpl; [|done].
  apply forEach_when_create.
Qed.

Lemma tryCatch_batch env (m : M unit) l st :
  m st = createAll env l st ->
  tryCatch m (fun _ => mret tt) st =
  (setNotifications (notifications st ++ acceptedPrefix env l) st, inr tt).
Proof.
  intros H. unfold tryCatch. rewrite H, createAll_run.
  by destruct (firstRefusal env l).
Qed.

Lemma sendNewOrderNotifications_run env order user st :
  sendNewOrderNotifications env order user st =
  (setNotifications
     (notifications st ++ acceptedPrefix env (newOrderNotifications order user st)) st,
   inr tt).
Proof.
  unfold sendNewOrderNotifications. apply tryCatch_batch.
  unfold newOrderNotifications.
  apply (bind_batch env _ _ [orderPlacedNotification order user]);
    [apply Notification_create_batch|].
  intros st1 Hp1 Hu1. rewrite bind_admins. apply bind_batch.
  - rewrite Hu1. apply forEach_when_create.
  - intros st2 Hp2 Hu2. rewrite forEach_lowStock. by rewrite Hp2, Hp1, Hu1.
Qed.

(** ** Order creation *)

Lemma Order_insert_run o st :
  Order_insert o st =
  match orders st !! o_id o with
  | Some _ => (st, inl (mkErr 200 "E11000 duplicate key error"))
  | None => (setOrders (<[o_id o := o]> (orders st)) st, inr o)
  end.
Proof.
  unfold Order_insert, mbind, M_bind, get, modify, throw, mret, M_ret. simpl.
  by destruct (orders st !! o_id o).
Qed.

(** [addOrderItems] on a request with a non-empty item list, path by path. *)
Lemma addOrderItems_run env user b items st :
  b_orderItems b = Some items -> items <> [] ->
  addOrderItems env user b st =
  match firstInsufficient (products st) items with
  | Some item => (st, Forwarded (checkError (products st) item))
  | None =>
      match orders st !! newOrderId env with
      | Some _ => (st, Forwarded (mkErr 200 "E11000 duplicate key error"))
      | None =>
          let o := newOrder env user items b in
          let st1 := createdStore env user items b st in
          (if isOnlinePayment (b_paymentMethod b) then st1
           else setNotifications
                  (notifications st1 ++ acceptedPrefix env (newOrderNotifications o user st1))
                  st1,
           Responded 201 (OrderBody o))
      end
  end.
Proof.
  intros Hb Hne. unfold addOrderItems, runNext. rewrite Hb.
  destruct items as [|item0 items0]; [done|]. set (items := item0 :: items0) in *.
  unfold mbind, M_bind. rewrite forEach_checkItem.
  destruct (firstInsufficient (products st) items); [done|].
  rewrite Order_insert_run. change (o_id (newOrder env user items b)) with (newOrderId env).
  destruct (orders st !! newOrderId env); [done|].
  rewrite forEach_adjustStock. fold (createdStore env user items b st).
  destruct (isOnlinePayment (b_paymentMethod b)); simpl; [done|].
  by rewrite sendNewOrderNotifications_run.
Qed.

Lemma addOrderItems_empty env user b st :
  b_orderItems b = Some [] ->
  addOrderItems env user b st = (st, Forwarded (mkErr 400 "No order items")).
Proof. intros Hb. unfold addOrderItems, runNext. by rewrite Hb. Qed.

Lemma sufficient_stockOf ps item :
  sufficient ps item = true ->
  exists c, stockOf (i_product item) ps = Some c /\ i_qty item <= c.
Proof.
  unfold sufficient, resolveItem, stockOf, addOnStock.
  destruct (find (hasId (i_product item)) ps) as [p|].
  - intros H. apply andb_prop in H as [_ H]. exists (p_countInStock p). split; [done|lia].
  - destruct (find (hasAddOn (i_product item)) ps) as [p|]; simpl; [|done].
    destruct (addOnItems_id (i_product item) (p_addOnItems p)) as [a|]; simpl; [|done].
    intros H. apply andb_prop in H as [_ H]. exists (a_countInStock a). split; [done|lia].
Qed.

(** C1. Order creation is all-or-nothing on the stock check.  When some
    requested line item fails the check (resolved as a primary product,
    else as an add-on; an identifier that resolves to neither is the 404
    case), the request ends in an error and the store is the one it
    started from: no order document, no stock moved.  The store changes
    only when every item passes; then, the identifier of the new document
    being free, the order is persisted, answered with 201, and the stock
    of every item is lowered by the quantity the order asks of it. *)
Theorem addOrderItems_all_or_nothing env user b items st :
  b_orderItems b = Some items ->
  let ps := products st in
  let res := addOrderItems env user b st in
  (forall item, In item items -> sufficient ps item = false ->
     res.1 = st /\
     exists e, res.2 = Forwarded e /\ (err_status e = 400 \/ err_status e = 404)) /\
  (forall item, firstInsufficient ps items = Some item ->
     res = (st, Forwarded (checkError ps item)) /\
     (resolveItem (i_product item) ps = Missing -> err_status (checkError ps item) = 404)) /\
  (res.1 <> st -> forallb (sufficient ps) items = true) /\
  (items <> [] -> forallb (sufficient ps) items = true ->
   orders st !! newOrderId env = None ->
     res.2 = Responded 201 (OrderBody (newOrder env user items b)) /\
     orders res.1 = <[newOrderId env := newOrder env user items b]> (orders st) /\
     (forall id, stockOf id (products res.1) =
                 (fun c => c - totalQty id items) <$> stockOf id ps) /\
     (forall item, In item items ->
        exists c, stockOf (i_product item) ps = Some c /\
                  stockOf (i_product item) (products res.1) =
                  Some (c - totalQty (i_product item) items))).
Proof.
  intros Hb ps res.
  assert (Hfail : forall item, firstInsufficient ps items = Some item ->
                    res = (st, Forwarded (checkError ps item))).
  { intros item Hfirst. subst res.
    rewrite (addOrderItems_run env user b items st Hb).
    - fold ps. by rewrite Hfirst.
    - intros ->. discriminate. }
  assert (Hchanged : res.1 <> st -> forallb (sufficient ps) items = true).
  { intros Hres. apply firstInsufficient_None.
    destruct (firstInsufficient ps items) as [item|] eqn:Hfirst; [|done].
    rewrite (Hfail item eq_refl) in Hres. done. }
  repeat split.
  - destruct (firstInsufficient ps items) as [item'|] eqn:Hfirst.
    + by rewrite (Hfail item' eq_refl).
    + apply firstInsufficient_None in Hfirst.
      rewrite forallb_forall in Hfirst. specialize (Hfirst item H). congruence.
  - destruct (firstInsufficient ps items) as [item'|] eqn:Hfirst.
    + rewrite (Hfail item' eq_refl). eexists. split; [done|].
      simpl. rewrite checkError_status.
      destruct (resolveItem (i_product item') ps); auto.
    + apply firstInsufficient_None in Hfirst.
      rewrite forallb_forall in Hfirst. specialize (Hfirst item H). congruence.
  - by apply Hfail.
  - intros Hmiss. by rewrite checkError_status, Hmiss.
  - exact Hchanged.
  - subst res. rewrite (addOrderItems_run env user b items st Hb H).
    apply firstInsufficient_None in H0. fold ps. rewrite H0, H1. done.
  - subst res. rewrite (addOrderItems_run env user b items st Hb H).
    apply firstInsufficient_None in H0. fold ps. rewrite H0, H1.
    by destruct (isOnlinePayment (b_paymentMethod b)).
  - intros id. subst res. rewrite (addOrderItems_run env user b items st Hb H).
    apply firstInsufficient_None in H0. fold ps. rewrite H0, H1.
    destruct (isOnlinePayment (b_paymentMethod b)); simpl; apply stockOf_reserve.
  - intros item Hin.
    rewrite forallb_forall in H0.
    destruct (sufficient_stockOf ps item (H0 item Hin)) as (c & Hc & _).
    exists c. split; [done|].
    subst res. rewrite (addOrderItems_run env user b items st Hb H).
    assert (Hnone : firstInsufficient ps items = None).
    { apply firstInsufficient_None. by apply forallb_forall. }
    fold ps. rewrite Hnone, H1.
    destruct (isOnlinePayment (b_paymentMethod b)); simpl;
      rewrite stockOf_reserve; fold ps; by rewrite Hc.
Qed.

Lemma addOrderItems_all_or_nothing_witness :
  b_orderItems (sampleRequest sampleItems "COD") = Some sampleItems /\
  stockOf "p1"
    (products (addOrderItems sampleEnv customer (sampleRequest sampleItems "COD")
                             sampleStore).1) = Some 3.
Proof.
  split; [reflexivity|].
  destruct (addOrderItems_all_or_nothing sampleEnv customer
              (sampleRequest sampleItems "COD") sampleItems sampleStore eq_refl)
    as (_ & _ & _ & Hok).
  destruct Hok as (_ & _ & Hstock & _); [discriminate|reflexivity|reflexivity|].
  rewrite Hstock. reflexivity.
Defined.

(** ** Cancellation and abandonment *)

(** A batch followed by a continuation: the continuation runs in the
    store with the whole batch created, unless a refusal ended it. *)
Lemma batch_then {A} env (m : M unit) (k : M A) l st :
  m st = createAll env l st ->
  (m ;; k) st =
  match firstRefusal env l with
  | Some msg =>
      (setNotifications (notifications st ++ acceptedPrefix env l) st, inl (mkErr 200 msg))
  | None => k (setNotifications (notifications st ++ acceptedPrefix env l) st)
  end.
Proof.
  intros H. unfold mbind, M_bind. rewrite H, createAll_run.
  by destruct (firstRefusal env l).
Qed.

Lemma isTerminalForCancel_spec s :
  isTerminalForCancel s = true <-> s = "delivered" \/ s = "shipped" \/ s = "cancelled".
Proof.
  unfold isTerminalForCancel. rewrite !orb_true_iff, !String.eqb_eq. tauto.
Qed.

Lemma restore_run items st :
  forEach items (fun item => adjustStock (i_product item) (i_qty item)) st =
  (setProducts (restoredProducts items (products st)) st, inr tt).
Proof. apply forEach_adjustStock. Qed.

Lemma cancelledOrder_id env user o : o_id (cancelledOrder env user o) = o_id o.
Proof. unfold cancelledOrder. simpl. by destruct (o_isPaid o). Qed.

Lemma cancelOrder_run env user id o st :
  orders st !! id = Some o ->
  String.eqb (o_user o) (user_id user) || String.eqb (user_role user) "admin" = true ->
  isTerminalForCancel (o_trackingStatus o) = false ->
  cancelOrder env user id st =
  let o' := cancelledOrder env user o in
  let st1 := setOrders (<[o_id o := o']> (orders st))
                       (setProducts (restoredProducts (o_orderItems o) (products st)) st) in
  let batch := cancelNotifications o' st in
  (setNotifications (notifications st ++ acceptedPrefix env batch) st1,
   match firstRefusal env batch with
   | Some msg => Uncaught (mkErr 200 msg)
   | None => Responded 200 (OrderBody o')
   end).
Proof.
  intros Hfound Hauth Hterm. unfold cancelOrder, runAsync.
  unfold mbind at 1. unfold M_bind at 1. unfold Order_findById, mbind at 1, M_bind at 1.
  simpl. rewrite Hfound.
  apply orb_true_iff in Hauth.
  assert (Hguard : negb (String.eqb (o_user o) (user_id user))
                   && negb (String.eqb (user_role user) "admin") = false).
  { destruct Hauth as [-> | ->]; simpl; [done|apply andb_false_r]. }
  rewrite Hguard, Hterm.
  unfold mbind at 1. unfold M_bind at 1. rewrite restore_run.
  unfold mbind at 1. unfold M_bind at 1. unfold Order_save, mbind at 1, M_bind at 1, modify.
  cbv beta iota. unfold mret at 1. unfold M_ret at 1. cbv beta iota.
  rewrite cancelledOrder_id.
  rewrite (batch_then env _ _ [orderCancelledNotification (cancelledOrder env user o)])
    by apply Notification_create_batch.
  unfold cancelNotifications.
  cbn [firstRefusal acceptedPrefix].
  destruct (notificationError env (orderCancelledNotification (cancelledOrder env user o)))
    as [msg|]; [done|].
  rewrite bind_admins.
  erewrite batch_then by apply forEach_when_create.
  cbn [users products orders notifications setNotifications setOrders setProducts].
  rewrite <- app_assoc. cbn [app].
  match goal with |- context [firstRefusal env ?l] => destruct (firstRefusal env l) end; done.
Qed.

Lemma cancelOrder_rejected env user id o st :
  orders st !! id = Some o ->
  isTerminalForCancel (o_trackingStatus o) = true ->
  exists e, cancelOrder env user id st = (st, Uncaught e) /\
            (err_status e = 401 \/
             e = mkErr 400 ("Cannot cancel order that is " ++ o_trackingStatus o)).
Proof.
  intros Hfound Hterm. unfold cancelOrder, runAsync.
  unfold mbind at 1. unfold M_bind at 1. unfold Order_findById, mbind at 1, M_bind at 1.
  simpl. rewrite Hfound, Hterm.
  destruct (negb (String.eqb (o_user o) (user_id user))
            && negb (String.eqb (user_role user) "admin")); simpl; eauto.
Qed.

Lemma cancelledOrder_items env user o :
  o_orderItems (cancelledOrder env user o) = o_orderItems o.
Proof. unfold cancelledOrder. simpl. by destruct (o_isPaid o). Qed.

Lemma cancelledOrder_status env user o :
  o_trackingStatus (cancelledOrder env user o) = "cancelled".
Proof. unfold cancelledOrder. simpl. by destruct (o_isPaid o). Qed.

Lemma cancelledOrder_history env user o :
  exists entry,
    o_trackingHistory (cancelledOrder env user o) = (o_trackingHistory o ++ [entry])%list /\
    te_status entry = "cancelled" /\ te_updatedBy entry = Some (user_id user).
Proof. unfold cancelledOrder. simpl. destruct (o_isPaid o); eexists; done. Qed.

Lemma cancelledOrder_payment env user o :
  (o_isPaid o = true ->
     o_paymentResult (cancelledOrder env user o) ≫= pr_status = Some "refund_pending") /\
  (o_isPaid o = false -> o_paymentResult (cancelledOrder env user o) = o_paymentResult o).
Proof. unfold cancelledOrder. simpl. by destruct (o_isPaid o). Qed.

(** C4. Cancelling an order whose tracking status is delivered, shipped
    or cancelled ends in an error and leaves the whole store as it was.
    For any other status, and a caller who owns the order or is an admin,
    the stock of every identifier rises by the quantity the order's items
    ask of it (primary product first, else the add-on), the stored order
    has tracking status cancelled and one more tracking-history entry, of
    status cancelled, and its payment result has status refund_pending
    when the order was paid and is untouched when it was not; no other
    order changes. *)
Theorem cancelOrder_transition env user id o st :
  orders st !! id = Some o -> o_id o = id ->
  let res := cancelOrder env user id st in
  (o_trackingStatus o = "delivered" \/ o_trackingStatus o = "shipped" \/
   o_trackingStatus o = "cancelled" ->
     res.1 = st /\
     exists e, res.2 = Uncaught e /\ (err_status e = 400 \/ err_status e = 401)) /\
  (o_trackingStatus o <> "delivered" -> o_trackingStatus o <> "shipped" ->
   o_trackingStatus o <> "cancelled" ->
   o_user o = user_id user \/ user_role user = "admin" ->
     (forall q, stockOf q (products res.1) =
                (fun c => c + totalQty q (o_orderItems o)) <$> stockOf q (products st)) /\
     exists o' entry,
       orders res.1 !! id = Some o' /\
       o_trackingStatus o' = "cancelled" /\
       o_trackingHistory o' = (o_trackingHistory o ++ [entry])%list /\
       te_status entry = "cancelled" /\
       (o_isPaid o = true -> o_paymentResult o' ≫= pr_status = Some "refund_pending") /\
       (o_isPaid o = false -> o_paymentResult o' = o_paymentResult o) /\
       (forall id', id' <> id -> orders res.1 !! id' = orders st !! id')).
Proof.
  intros Hfound Hid res. split.
  - intros Hterm. apply isTerminalForCancel_spec in Hterm.
    destruct (cancelOrder_rejected env user id o st Hfound Hterm) as (e & Hres & He).
    subst res. rewrite Hres. split; [done|]. exists e. split; [done|].
    destruct He as [He | ->]; auto.
  - intros Hd Hs Hc Hauth.
    assert (Hterm : isTerminalForCancel (o_trackingStatus o) = false).
    { apply not_true_is_false. rewrite isTerminalForCancel_spec. tauto. }
    assert (Hauth' : String.eqb (o_user o) (user_id user)
                     || String.eqb (user_role user) "admin" = true).
    { apply orb_true_iff. rewrite !String.eqb_eq. done. }
    subst res. rewrite (cancelOrder_run env user id o st Hfound Hauth' Hterm).
    cbn [fst snd products orders setNotifications setOrders setProducts]. rewrite Hid.
    split; [intros q; apply stockOf_restore|].
    destruct (cancelledOrder_history env user o) as (entry & Hhist & Hentry & _).
    destruct (cancelledOrder_payment env user o) as [Hpaid Hunpaid].
    exists (cancelledOrder env user o), entry.
    rewrite lookup_insert_eq. repeat split; try done.
    + apply cancelledOrder_status.
    + intros id' Hne. by rewrite lookup_insert_ne.
Qed.

Lemma cancelOrder_transition_witness :
  let st := storeWith [sampleOrder "65c3f0a1order0001" "Online" true "confirmed" None] in
  st.(orders) !! "65c3f0a1order0001"
    = Some (sampleOrder "65c3f0a1order0001" "Online" true "confirmed" None) /\
  stockOf "a1" (products (cancelOrder sampleEnv customer "65c3f0a1order0001" st).1) = Some 3.
Proof.
  intros st. split; [reflexivity|].
  destruct (cancelOrder_transition sampleEnv customer "65c3f0a1order0001"
              (sampleOrder "65c3f0a1order0001" "Online" true "confirmed" None) st
              eq_refl eq_refl) as [_ Hok].
  destruct Hok as [Hstock _]; [discriminate|discriminate|discriminate|by left|].
  rewrite Hstock. reflexivity.
Defined.

Lemma abandonOrder_run user id o st :
  orders st !! id = Some o ->
  abandonOrder user id st =
  (setOrders (delete id (orders st))
             (setProducts (restoredProducts (o_orderItems o) (products st)) st),
   Responded 200 (MessageBody "Order record permanently deleted and stock restored")).
Proof.
  intros Hfound. unfold abandonOrder, runNext.
  unfold mbind at 1. unfold M_bind at 1. unfold Order_findById, mbind at 1, M_bind at 1.
  simpl. rewrite Hfound.
  unfold mbind at 1. unfold M_bind at 1. by rewrite restore_run.
Qed.

(** C9. Abandoning an existing order succeeds for every caller and every
    state of the order: no owner, role, payment or tracking field is
    consulted.  The stock of every identifier rises by the quantity the
    order's items ask of it, the order document is deleted, and nothing
    else in the store changes.  In particular an order that was just
    cancelled can be abandoned, and its stock is then restored a second
    time. *)
Theorem abandonOrder_unconditional user id o st :
  orders st !! id = Some o ->
  let res := abandonOrder user id st in
  res.2 = Responded 200 (MessageBody "Order record permanently deleted and stock restored") /\
  orders res.1 = delete id (orders st) /\
  (forall q, stockOf q (products res.1) =
             (fun c => c + totalQty q (o_orderItems o)) <$> stockOf q (products st)) /\
  users res.1 = users st /\ notifications res.1 = notifications st /\
  (forall env canceller,
     o_id o = id ->
     o_user o = user_id canceller \/ user_role canceller = "admin" ->
     isTerminalForCancel (o_trackingStatus o) = false ->
     let cancelled := (cancelOrder env canceller id st).1 in
     let res2 := abandonOrder user id cancelled in
     (exists o', orders cancelled !! id = Some o' /\ o_trackingStatus o' = "cancelled") /\
     orders res2.1 !! id = None /\
     forall q, stockOf q (products res2.1) =
               (fun c => c + 2 * totalQty q (o_orderItems o)) <$> stockOf q (products st)).
Proof.
  intros Hfound res. subst res. rewrite (abandonOrder_run user id o st Hfound).
  cbn [fst snd products orders users notifications setOrders setProducts].
  split; [done|]. split; [done|]. split; [intros q; apply stockOf_restore|].
  split; [done|]. split; [done|].
  intros env canceller Hid Hauth Hterm.
  set (cancelled := (cancelOrder env canceller id st).1).
  assert (Hauth' : String.eqb (o_user o) (user_id canceller)
                   || String.eqb (user_role canceller) "admin" = true).
  { apply orb_true_iff. by rewrite !String.eqb_eq. }
  assert (Hcancelled : cancelled =
            setNotifications
              (notifications st ++
               acceptedPrefix env (cancelNotifications (cancelledOrder env canceller o) st))
              (setOrders (<[id := cancelledOrder env canceller o]> (orders st))
                 (setProducts (restoredProducts (o_orderItems o) (products st)) st))).
  { subst cancelled. rewrite (cancelOrder_run env canceller id o st Hfound Hauth' Hterm).
    cbn [fst]. by rewrite Hid. }
  assert (Hstill : orders cancelled !! id = Some (cancelledOrder env canceller o)).
  { rewrite Hcancelled. cbn [orders setNotifications setOrders]. apply lookup_insert_eq. }
  split; [|split].
  - exists (cancelledOrder env canceller o). split; [done|apply cancelledOrder_status].
  - rewrite (abandonOrder_run user id _ cancelled Hstill).
    cbn [fst orders setOrders]. apply lookup_delete_eq.
  - intros q. rewrite (abandonOrder_run user id _ cancelled Hstill).
    cbn [fst products setOrders setProducts]. rewrite Hcancelled.
    cbn [products setOrders setProducts setNotifications].
    rewrite cancelledOrder_items, !stockOf_restore.
    destruct (stockOf q (products st)); simpl; f_equal; lia.
Qed.

Lemma abandonOrder_unconditional_witness :
  let st := storeWith [sampleOrder "65c3f0a1order0001" "Online" true "cancelled" None] in
  st.(orders) !! "65c3f0a1order0001"
    = Some (sampleOrder "65c3f0a1order0001" "Online" true "cancelled" None) /\
  orders (abandonOrder stranger "65c3f0a1order0001" st).1 = ∅ /\
  stockOf "p1" (products (abandonOrder stranger "65c3f0a1order0001" st).1) = Some 7.
Proof.
  intros st. split; [reflexivity|].
  destruct (abandonOrder_unconditional stranger "65c3f0a1order0001"
              (sampleOrder "65c3f0a1order0001" "Online" true "cancelled" None) st eq_refl)
    as (_ & Horders & Hstock & _).
  split; [rewrite Horders; reflexivity|rewrite Hstock; reflexivity].
Defined.

(** ** Return requests *)

Lemma requestReturn_accept_run env user id o reason st :
  orders st !! id = Some o -> returnable env user o ->
  requestReturn env user id reason st =
  let o' := setReturn "Requested" reason o in
  let batch := returnNotifications o' reason st in
  (setNotifications (notifications st ++ acceptedPrefix env batch)
     (setOrders (<[o_id o := o']> (orders st)) st),
   match firstRefusal env batch with
   | Some msg => Uncaught (mkErr 200 msg)
   | None => Responded 200 (OrderBody o')
   end).
Proof.
  intros Hfound (Howner & Hstatus & Hreturn & Hdays). unfold requestReturn, runAsync.
  unfold mbind at 1. unfold M_bind at 1. unfold Order_findById, mbind at 1, M_bind at 1.
  simpl. rewrite Hfound, Howner, Hstatus, Hreturn, String.eqb_refl. simpl.
  assert (Hwindow :
    match o_deliveredAt o with
    | Some deliveredAt =>
        if (7 <? diffDays (now env) deliveredAt)%Z
        then throw 400 "Return request can only be submitted within 7 days of delivery"
        else mret tt
    | None => mret tt
    end st = (st, inr tt)).
  { destruct (o_deliveredAt o) as [d|]; [|reflexivity].
    specialize (Hdays d eq_refl).
    destruct (Z.ltb_spec 7 (diffDays (now env) d)); [lia|reflexivity]. }
  unfold mbind at 1. unfold M_bind at 1. rewrite Hwindow.
  unfold mbind at 1. unfold M_bind at 1. unfold Order_save, mbind at 1, M_bind at 1, modify.
  cbv beta iota. unfold mret at 1. unfold M_ret at 1. cbv beta iota.
  rewrite bind_admins. erewrite batch_then by apply forEach_when_create.
  unfold returnNotifications. cbn [users setOrders].
  match goal with |- context [firstRefusal env ?l] => destruct (firstRefusal env l) end; done.
Qed.

Lemma requestReturn_reject_run env user id o reason st :
  orders st !! id = Some o -> ~ returnable env user o ->
  exists e, requestReturn env user id reason st = (st, Uncaught e) /\
            (err_status e = 400 \/ err_status e = 401).
Proof.
  intros Hfound Hnot. unfold requestReturn, runAsync.
  unfold mbind at 1. unfold M_bind at 1. unfold Order_findById, mbind at 1, M_bind at 1.
  simpl. rewrite Hfound.
  destruct (String.eqb_spec (o_user o) (user_id user)) as [Howner|]; simpl; [|eauto].
  destruct (String.eqb_spec (o_trackingStatus o) "delivered") as [Hstatus|]; simpl; [|eauto].
  unfold mbind at 1. unfold M_bind at 1.
  destruct (o_deliveredAt o) as [d|] eqn:Hd.
  - destruct (Z.ltb_spec 7 (diffDays (now env) d)) as [Hlate|Hin]; simpl; [eauto|].
    destruct (String.eqb_spec (o_returnStatus o) "None") as [Hreturn|]; simpl; [|eauto].
    exfalso. apply Hnot. repeat split; try done.
    intros d' Hd'. by simplify_eq.
  - simpl. destruct (String.eqb_spec (o_returnStatus o) "None") as [Hreturn|]; simpl; [|eauto].
    exfalso. apply Hnot. repeat split; try done. intros d' Hd'. congruence.
Qed.

Lemma diffDays_after d k r :
  0 <= k -> 0 <= r < msPerDay -> diffDays (d + k * msPerDay + r) d = k.
Proof.
  intros Hk Hr. unfold diffDays.
  replace (d + k * msPerDay + r - d) with (k * msPerDay + r) by lia.
  rewrite Z.abs_eq by (unfold msPerDay in *; lia).
  rewrite Z.div_add_l by (unfold msPerDay; lia).
  rewrite Z.div_small by done. lia.
Qed.

(** C7. A return request goes through exactly when the caller owns the
    order, its tracking status is delivered, its return status is None,
    and the whole days since the delivery time number at most seven.
    When it goes through, the stored order has return status Requested
    and the reason recorded; when it does not, the request ends in an
    error and the store is unchanged.  The boundary is inclusive: for an
    order that passes the other guards, a request made exactly seven days
    after the delivery time goes through and one made eight days after is
    refused with the error of the return window. *)
Theorem requestReturn_window env user id o reason st :
  orders st !! id = Some o -> o_id o = id ->
  let res := requestReturn env user id reason st in
  (returnable env user o ->
     (exists o', orders res.1 !! id = Some o' /\
                 o_returnStatus o' = "Requested" /\ o_returnReason o' = reason) /\
     (firstRefusal env (returnNotifications (setReturn "Requested" reason o) reason st) = None ->
      res.2 = Responded 200 (OrderBody (setReturn "Requested" reason o)))) /\
  (~ returnable env user o ->
     res.1 = st /\
     exists e, res.2 = Uncaught e /\ (err_status e = 400 \/ err_status e = 401)) /\
  (o_user o = user_id user -> o_trackingStatus o = "delivered" ->
   o_returnStatus o = "None" ->
   forall d, o_deliveredAt o = Some d ->
     (now env = d + 7 * msPerDay -> returnable env user o) /\
     (now env = d + 8 * msPerDay ->
        res = (st, Uncaught (mkErr 400
                 "Return request can only be submitted within 7 days of delivery")))).
Proof.
  intros Hfound Hid res. split; [|split].
  - intros Hok. subst res. rewrite (requestReturn_accept_run env user id o reason st Hfound Hok).
    cbn [fst snd orders setNotifications setOrders]. rewrite Hid, lookup_insert_eq. split.
    + by eexists.
    + by intros ->.
  - intros Hnot.
    destruct (requestReturn_reject_run env user id o reason st Hfound Hnot) as (e & Hres & He).
    subst res. rewrite Hres. eauto.
  - intros Howner Hstatus Hreturn d Hd. split.
    + intros Hnow. repeat split; try done.
      intros d' Hd'. assert (d' = d) as -> by congruence. rewrite Hnow.
      rewrite <- (Z.add_0_r (d + 7 * msPerDay)).
      rewrite diffDays_after; unfold msPerDay; lia.
    + intros Hnow. subst res. unfold requestReturn, runAsync.
      unfold mbind at 1. unfold M_bind at 1. unfold Order_findById, mbind at 1, M_bind at 1.
      simpl. rewrite Hfound, Howner, Hstatus, Hd, String.eqb_refl. simpl.
      unfold mbind at 1. unfold M_bind at 1.
      assert (Hdiff : diffDays (now env) d = 8).
      { rewrite Hnow, <- (Z.add_0_r (d + 8 * msPerDay)).
        rewrite diffDays_after; unfold msPerDay; lia. }
      rewrite Hdiff. done.
Qed.

Lemma requestReturn_window_witness :
  let o := sampleOrder "65c3f0a1order0001" "COD" true "delivered"
                       (Some (now sampleEnv - 7 * msPerDay)) in
  let st := storeWith [o] in
  orders st !! "65c3f0a1order0001" = Some o /\
  (requestReturn sampleEnv customer "65c3f0a1order0001" (Some "Wrong size") st).2 =
  Responded 200 (OrderBody (setReturn "Requested" (Some "Wrong size") o)).
Proof.
  intros o st. split; [reflexivity|].
  destruct (requestReturn_window sampleEnv customer "65c3f0a1order0001" o
              (Some "Wrong size") st eq_refl eq_refl) as (Hok & _ & Hboundary).
  apply Hok; [|reflexivity].
  apply (Hboundary eq_refl eq_refl eq_refl _ eq_refl). reflexivity.
Defined.

(** The window is counted in whole days: a request is inside it until
    the eighth day after the delivery time begins. *)
Lemma returnable_during_day_seven env user o d r :
  o_user o = user_id user -> o_trackingStatus o = "delivered" ->
  o_returnStatus o = "None" -> o_deliveredAt o = Some d ->
  0 <= r < msPerDay -> now env = d + 7 * msPerDay + r ->
  returnable env user o.
Proof.
  intros Howner Hstatus Hreturn Hd Hr Hnow. repeat split; try done.
  intros d' Hd'. assert (d' = d) as -> by congruence.
  rewrite Hnow, diffDays_after; lia.
Qed.

(** ** Bulk status update *)

Lemma setOrders_same st : setOrders (orders st) st = st.
Proof. by destruct st. Qed.

Lemma inIds_In ids id : inIds ids id = true <-> In id ids.
Proof.
  unfold inIds. rewrite existsb_exists. split.
  - intros (x & Hin & Heq). apply String.eqb_eq in Heq. by subst.
  - intros Hin. exists id. split; [done|apply String.eqb_refl].
Qed.


Lemma applySet_empty o : applySet emptyUpdate o = o.
Proof. by destruct o. Qed.

Lemma isEmptyUpdate_spec ud : isEmptyUpdate ud = true <-> ud = emptyUpdate.
Proof.
  destruct ud as [[?|] [?|] [?|] [?|] [?|]]; simpl; split; (done || discriminate).
Qed.

Lemma updatedOrders_of_empty ids os : updatedOrders_of ids emptyUpdate os = os.
Proof.
  apply map_eq. intros id. unfold updatedOrders_of. rewrite map_lookup_imap.
  destruct (os !! id) as [o|]; simpl; [|done].
  rewrite applySet_empty. by destruct (inIds ids id).
Qed.

(** [updateOrdersStatus] on a non-empty list: the store it leaves and
    the count it answers with. *)
Lemma updateOrdersStatus_run env ids status st :
  ids <> [] ->
  updateOrdersStatus env (Some ids) status st =
  let ud := buildUpdateData env status in
  let count :=
    if Order_timestamps env then Some (size (matchedDocs ids (orders st)))
    else if isEmptyUpdate ud then None
    else Some (size (modifiedDocs ids ud (orders st))) in
  (setOrders (updatedOrders_of ids ud (orders st)) st,
   Responded 200
     (BulkBody ("Successfully updated " ++ templateCount count ++ " orders") count)).
Proof.
  intros Hne. destruct ids as [|id0 ids0]; [done|].
  unfold updateOrdersStatus, runAsync, tryCatch, Order_updateMany_in.
  unfold mbind, M_bind, get, modify, mret, M_ret. cbv zeta.
  destruct (Order_timestamps env); [done|].
  destruct (isEmptyUpdate (buildUpdateData env status)) eqn:Hempty; [|done].
  apply isEmptyUpdate_spec in Hempty. rewrite Hempty, updatedOrders_of_empty.
  by rewrite setOrders_same.
Qed.


Lemma buildUpdateData_tracking env status :
  status = "pending" \/ status = "confirmed" \/ status = "processing" \/
  status = "shipped" \/ status = "out_for_delivery" ->
  buildUpdateData env status = mkUpdateData None None (Some status) None None.
Proof. intros [->|[->|[->|[->| ->]]]]; reflexivity. Qed.

Lemma lookup_updatedOrders_of ids ud (os : gmap string Order) id :
  updatedOrders_of ids ud os !! id =
  (fun o => if inIds ids id then applySet ud o else o) <$> os !! id.
Proof. unfold updatedOrders_of. rewrite map_lookup_imap. by destruct (os !! id). Qed.









(** ** Listing one's orders *)

Lemma newerFirst_trans : Transitive newerFirst.
Proof. unfold newerFirst. intros x y z. lia. Qed.

Lemma newerFirst_total : Total newerFirst.
Proof. unfold newerFirst. intros x y. lia. Qed.

Lemma myOrdersQuery_spec uid o :
  myOrdersQuery uid o = true <->
  o_user o = uid /\ (o_paymentMethod o = Some "COD" \/ o_isPaid o = true).
Proof.
  unfold myOrdersQuery. rewrite andb_true_iff, orb_true_iff, String.eqb_eq.
  assert (strictEq (o_paymentMethod o) (Some "COD") = true <-> o_paymentMethod o = Some "COD")
    as ->; [|done].
  destruct (o_paymentMethod o) as [pm|]; simpl; [|split; discriminate].
  rewrite String.eqb_eq. split; congruence.
Qed.

(** C10. Listing one's orders answers, newest first by creation time,
    exactly the stored orders of the caller that are cash-on-delivery or
    paid, each once; an unpaid order of any other payment method is never
    in the answer. *)
Theorem getMyOrders_visible user st :
  exists l,
    getMyOrders user st = (st, Responded 200 (OrdersBody l)) /\
    l ≡ₚ List.filter (myOrdersQuery (user_id user)) (map snd (map_to_list (orders st))) /\
    StronglySorted newerFirst l /\
    (forall o, o ∈ l <->
       (exists id, orders st !! id = Some o) /\
       o_user o = user_id user /\
       (o_paymentMethod o = Some "COD" \/ o_isPaid o = true)) /\
    (forall o, o_paymentMethod o <> Some "COD" -> o_isPaid o = false -> o ∉ l).
Proof.
  eexists. split; [reflexivity|].
  assert (Hmem : forall o,
    o ∈ merge_sort newerFirst
          (List.filter (myOrdersQuery (user_id user)) (map snd (map_to_list (orders st)))) <->
    (exists id, orders st !! id = Some o) /\
    o_user o = user_id user /\
    (o_paymentMethod o = Some "COD" \/ o_isPaid o = true)).
  { intros o. rewrite merge_sort_Permutation, list_elem_of_In, filter_In, myOrdersQuery_spec.
    rewrite <- list_elem_of_In.
    assert (o ∈ map snd (map_to_list (orders st)) <-> exists id, orders st !! id = Some o)
      as ->; [|done].
    change (map snd (map_to_list (orders st))) with (snd <$> map_to_list (orders st)).
    rewrite list_elem_of_fmap. split.
    - intros ([id o'] & -> & Hin). exists id. by apply elem_of_map_to_list.
    - intros (id & Hid). exists (id, o). split; [done|]. by apply elem_of_map_to_list. }
  split; [apply merge_sort_Permutation|].
  split; [apply StronglySorted_merge_sort; [apply newerFirst_trans|apply newerFirst_total]|].
  split; [exact Hmem|].
  intros o Hpm Hpaid Hin. apply Hmem in Hin as (_ & _ & [?|?]); congruence.
Qed.

Lemma getMyOrders_visible_witness :
  let cod := sampleOrder "65c3f0a1order0001" "COD" false "pending" None in
  let unpaid := sampleOrder "65c3f0a1order0003" "Razorpay" false "pending" None in
  let paid := sampleOrder "65c3f0a1order0004" "Razorpay" true "confirmed" None in
  let st := storeWith [cod; unpaid; paid] in
  exists l, getMyOrders customer st = (st, Responded 200 (OrdersBody l)) /\
            cod ∈ l /\ paid ∈ l /\ unpaid ∉ l.
Proof.
  intros cod unpaid paid st.
  destruct (getMyOrders_visible customer st) as (l & Hrun & _ & _ & Hmem & Hhidden).
  exists l. split; [exact Hrun|]. split; [|split].
  - apply Hmem. split; [by exists "65c3f0a1order0001"|]. split; [reflexivity|by left].
  - apply Hmem. split; [by exists "65c3f0a1order0004"|]. split; [reflexivity|by right].
  - apply Hhidden; [discriminate|reflexivity].
Defined.

(** ** Payment reconciliation *)

Lemma strictEq_Some a x : strictEq a (Some x) = true <-> a = Some x.
Proof.
  destruct a as [y|]; simpl; [|split; discriminate].
  rewrite String.eqb_eq. split; congruence.
Qed.

(** With the gateway configured and a signature supplied, the
    verification holds exactly when the signature is the digest of
    ["{order id}|{payment id}"] under the key secret. *)
Lemma checkPayment_live env b :
  razorpayInstance env = true -> truthy (razorpay_signature b) = true ->
  ((checkPayment env b).1 = true <->
   razorpay_signature b =
   Some (hmac_sha256_hex env (default "" (RAZORPAY_KEY_SECRET env))
           (toStr (razorpay_order_id b) ++ "|" ++ toStr (razorpay_payment_id b)))) /\
  (checkPayment env b).2 = razorpay_payment_id b.
Proof.
  intros Hlive Hsig. unfold checkPayment. rewrite Hlive, Hsig. simpl.
  split; [apply strictEq_Some|done].
Qed.

Lemma createPaymentNotification_run env userId order kind st :
  createPaymentNotification env userId order kind st =
  (setNotifications
     (notifications st ++
      acceptedPrefix env [serviceNotification (paymentNotificationText env kind order)
                                              userId order]) st,
   inr tt).
Proof.
  unfold createPaymentNotification. apply tryCatch_batch, Notification_create_batch.
Qed.

Lemma createOrderNotification_run env userId order kind st :
  createOrderNotification env userId order kind st =
  (setNotifications
     (notifications st ++
      acceptedPrefix env [serviceNotification (orderNotificationText env kind order)
                                              userId order]) st,
   inr tt).
Proof.
  unfold createOrderNotification. apply tryCatch_batch, Notification_create_batch.
Qed.

(** [verifyPayment] on an existing order and a verification that
    holds: whatever the order's payment state, it is saved as paid with
    one more tracking entry, and the three dispatches follow. *)
Lemma verifyPayment_valid_run env user b id o st :
  vb_orderId b = Some id -> orders st !! id = Some o ->
  (checkPayment env b).1 = true ->
  verifyPayment env user b st =
  let o' := verifiedOrder env b (checkPayment env b).2 o in
  (setNotifications
     (notifications st ++
      (acceptedPrefix env (newOrderNotifications o' user st) ++
       acceptedPrefix env [paymentSuccessNotification env o'] ++
       acceptedPrefix env [orderCreatedNotification env o'])%list)
     (setOrders (<[o_id o := o']> (orders st)) st),
   Responded 200 (VerifiedBody "Payment verified" o')).
Proof.
  intros Hb Hfound Hvalid. unfold verifyPayment, runCatch500.
  unfold mbind at 1. unfold M_bind at 1. unfold Order_findById, mbind at 1, M_bind at 1.
  rewrite Hb. simpl. rewrite Hfound.
  destruct (checkPayment env b) as [isValid paymentId]. simpl in Hvalid. subst isValid.
  cbn [fst snd].
  unfold mbind at 1. unfold M_bind at 1. unfold Order_save, mbind at 1, M_bind at 1, modify.
  cbv beta iota. unfold mret at 1. unfold M_ret at 1. cbv beta iota.
  unfold mbind at 1. unfold M_bind at 1. rewrite sendNewOrderNotifications_run.
  unfold mbind at 1. unfold M_bind at 1. rewrite createPaymentNotification_run.
  unfold mbind at 1. unfold M_bind at 1. rewrite createOrderNotification_run.
  unfold mret, M_ret. f_equal.
  unfold paymentSuccessNotification, orderCreatedNotification, newOrderNotifications.
  cbn [users products orders notifications setNotifications setOrders o_user
       verifiedOrder pushTrackingHistory setPayment o_id].
  by rewrite <- !app_assoc.
Qed.

Lemma verifyPayment_invalid_run env user b id o st :
  vb_orderId b = Some id -> orders st !! id = Some o ->
  (checkPayment env b).1 = false ->
  verifyPayment env user b st =
  (st, Responded 400 (MessageBody "Invalid payment signature")).
Proof.
  intros Hb Hfound Hvalid. unfold verifyPayment, runCatch500.
  unfold mbind at 1. unfold M_bind at 1. unfold Order_findById, mbind at 1, M_bind at 1.
  rewrite Hb. simpl. rewrite Hfound.
  destruct (checkPayment env b) as [isValid paymentId]. simpl in Hvalid. by subst isValid.
Qed.

(** C3. The webhook handler answers 400 and leaves the store as it was
    when the signature header or the webhook secret is absent or empty,
    and when the signature is not the HMAC-SHA256 digest of the
    serialized body under the secret.  A [payment.captured] delivery for
    an order that is already paid leaves the store as it was, and with a
    valid signature is acknowledged. *)
Theorem handleWebhook_guarded env signature body st :
  let secret := RAZORPAY_WEBHOOK_SECRET env in
  let expected := hmac_sha256_hex env (default "" secret) (JSON_stringify env body) in
  let res := handleWebhook env signature body st in
  (truthy signature = false \/ truthy secret = false \/ signature <> Some expected ->
     res.1 = st /\ exists msg, res.2 = Responded 400 (MessageBody msg)) /\
  (forall entity id o,
     wb_event body = Some "payment.captured" -> wb_entity body = Some entity ->
     we_notes entity = Some (Some id) -> orders st !! id = Some o -> o_isPaid o = true ->
     res.1 = st /\
     (truthy signature = true -> truthy secret = true -> signature = Some expected ->
      res.2 = Responded 200 (StatusBody "ok"))).
Proof.
  intros secret expected res. subst res. unfold handleWebhook, runCatch500.
  fold secret. cbv zeta. fold expected.
  destruct (truthy signature) eqn:Hsig; simpl.
  2:{ split; [eauto|]. intros entity id o _ _ _ _ _. split; [done|discriminate]. }
  destruct (truthy secret) eqn:Hsec; simpl.
  2:{ split; [eauto|]. intros entity id o _ _ _ _ _. split; [done|discriminate]. }
  destruct (strictEq signature (Some expected)) eqn:Heq; simpl.
  2:{ split; [eauto|]. intros entity id o _ _ _ _ _. split; [done|].
      intros _ _ Hs. apply strictEq_Some in Hs. congruence. }
  apply strictEq_Some in Heq. split.
  - intros [?|[?|?]]; done.
  - intros entity id o Hev Hent Hnotes Hfound Hpaid.
    rewrite Hev, Hent, Hnotes. simpl.
    unfold mbind, M_bind, Order_findById, get, mret, M_ret. simpl.
    rewrite Hfound, Hpaid. simpl. done.
Qed.

Lemma handleWebhook_guarded_witness :
  let id := "65c3f0a1order0001" in
  let st := storeWith [sampleOrder id "Razorpay" true "confirmed" None] in
  let body := capturedBody id in
  let good := Some (hmac_sha256_hex sampleEnv "whsec_test" (JSON_stringify sampleEnv body)) in
  handleWebhook sampleEnv (Some "forged") body st
    = (st, Responded 400 (MessageBody "Invalid webhook signature")) /\
  handleWebhook sampleEnv good body st = (st, Responded 200 (StatusBody "ok")).
Proof.
  intros id st body good.
  pose proof (handleWebhook_guarded sampleEnv (Some "forged") body st) as [Hbad _].
  pose proof (handleWebhook_guarded sampleEnv good body st) as [_ Hpaid].
  split.
  - destruct Hbad as [Hst _]; [right; right; discriminate|].
    apply injective_projections; [exact Hst|reflexivity].
  - destruct (Hpaid _ id _ eq_refl eq_refl eq_refl eq_refl eq_refl) as [Hst Hres].
    apply injective_projections; [exact Hst|].
    apply Hres; reflexivity.
Defined.

(** A first delivery is processed: with a valid signature, a
    [payment.captured] event marks an unpaid order paid and confirmed. *)
Lemma handleWebhook_captures env signature body entity id o st :
  truthy signature = true -> truthy (RAZORPAY_WEBHOOK_SECRET env) = true ->
  signature = Some (hmac_sha256_hex env (default "" (RAZORPAY_WEBHOOK_SECRET env))
                                    (JSON_stringify env body)) ->
  wb_event body = Some "payment.captured" -> wb_entity body = Some entity ->
  we_notes entity = Some (Some id) -> orders st !! id = Some o -> o_isPaid o = false ->
  handleWebhook env signature body st =
  (setOrders (<[o_id o := capturedOrder env entity o]> (orders st)) st,
   Responded 200 (StatusBody "ok")).
Proof.
  intros Hsig Hsec Heq Hev Hent Hnotes Hfound Hpaid.
  unfold handleWebhook, runCatch500. rewrite Hsig, Hsec. simpl.
  apply strictEq_Some in Heq. rewrite Heq. simpl.
  rewrite Hev, Hent, Hnotes. simpl.
  unfold mbind, M_bind, Order_findById, Order_save, get, modify, mret, M_ret. simpl.
  rewrite Hfound, Hpaid. simpl. done.
Qed.

(** ** Deferred notifications *)

Lemma isOnlinePayment_spec pm :
  isOnlinePayment pm = true <->
  exists s, pm = Some s /\ (toLowerCase s = "online" \/ toLowerCase s = "razorpay").
Proof.
  unfold isOnlinePayment. destruct pm as [s|].
  - rewrite andb_true_iff, orb_true_iff, !String.eqb_eq, negb_true_iff. split.
    + intros [_ H]. eauto.
    + intros (s' & [= <-] & H). split; [|done].
      apply String.eqb_neq. intros ->. by destruct H.
  - split; [discriminate|]. by intros (s & ? & _).
Qed.

Lemma acceptedPrefix_all env l :
  (forall n, notificationError env n = None) -> acceptedPrefix env l = l.
Proof.
  intros Hok. induction l as [|n l IH]; simpl; [done|]. by rewrite Hok, IH.
Qed.

(** C5. The new-order notifications are deferred exactly for an online
    payment method, one whose lower-cased name is online or razorpay.  A
    creation that succeeds with such a method adds no notification; with
    any other method, cash on delivery among them, it adds the batch of
    new-order notifications, as far as the store accepts them.  A
    client-confirmed verification that holds adds that batch for the
    order, then a payment-success and an order-created notification,
    both addressed to the owner of the order. *)
Theorem notifications_deferred_for_online env user :
  (forall pm, isOnlinePayment pm = true <->
     exists s, pm = Some s /\ (toLowerCase s = "online" \/ toLowerCase s = "razorpay")) /\
  isOnlinePayment (Some "COD") = false /\
  (forall b items st body,
     b_orderItems b = Some items ->
     let res := addOrderItems env user b st in
     res.2 = Responded 201 body ->
     (isOnlinePayment (b_paymentMethod b) = true -> notifications res.1 = notifications st) /\
     (isOnlinePayment (b_paymentMethod b) = false ->
        notifications res.1 =
        (notifications st ++
         acceptedPrefix env
           (newOrderNotifications (newOrder env user items b) user res.1))%list)) /\
  (forall b id o st,
     vb_orderId b = Some id -> orders st !! id = Some o -> (checkPayment env b).1 = true ->
     let res := verifyPayment env user b st in
     let o' := verifiedOrder env b (checkPayment env b).2 o in
     notifications res.1 =
     (notifications st ++ acceptedPrefix env (newOrderNotifications o' user st) ++
      acceptedPrefix env [paymentSuccessNotification env o'] ++
      acceptedPrefix env [orderCreatedNotification env o'])%list /\
     n_user (paymentSuccessNotification env o') = o_user o /\
     n_user (orderCreatedNotification env o') = o_user o) /\
  (forall order st, exists rest,
     newOrderNotifications order user st = orderPlacedNotification order user :: rest) /\
  ((forall n, notificationError env n = None) -> forall l, acceptedPrefix env l = l).
Proof.
  split; [apply isOnlinePayment_spec|]. split; [done|]. split; [|split; [|split]].
  - intros b items st body Hb res Hres. subst res.
    destruct items as [|item0 items0].
    { rewrite (addOrderItems_empty env user b st Hb) in Hres. discriminate. }
    revert Hres. rewrite (addOrderItems_run env user b _ st Hb) by done.
    destruct (firstInsufficient (products st) (item0 :: items0)); [discriminate|].
    destruct (orders st !! newOrderId env); [discriminate|].
    cbv zeta. cbn [fst snd]. intros _.
    destruct (isOnlinePayment (b_paymentMethod b)); split; done.
  - intros b id o st Hb Hfound Hvalid res o'. subst res o'.
    rewrite (verifyPayment_valid_run env user b id o st Hb Hfound Hvalid).
    done.
  - intros order st. eexists. reflexivity.
  - intros Hok l. by apply acceptedPrefix_all.
Qed.

Lemma notifications_deferred_for_online_witness :
  let online := addOrderItems sampleEnv customer (sampleRequest sampleItems "Razorpay")
                              sampleStore in
  let cod := addOrderItems sampleEnv customer (sampleRequest sampleItems "COD") sampleStore in
  let paid := verifyPayment sampleEnv customer (signedVerifyBody (newOrderId sampleEnv))
                            online.1 in
  notifications online.1 = [] /\
  length (notifications cod.1) = 3%nat /\
  length (notifications paid.1) = 5%nat.
Proof.
  intros online cod paid.
  destruct (notifications_deferred_for_online sampleEnv customer)
    as (_ & _ & Hcreate & Hverify & _ & Hall).
  destruct (Hcreate (sampleRequest sampleItems "Razorpay") sampleItems sampleStore _
              eq_refl eq_refl) as [Honline _].
  destruct (Hcreate (sampleRequest sampleItems "COD") sampleItems sampleStore _
              eq_refl eq_refl) as [_ Hcod].
  destruct (Hverify (signedVerifyBody (newOrderId sampleEnv)) (newOrderId sampleEnv)
              (newOrder sampleEnv customer sampleItems (sampleRequest sampleItems "Razorpay"))
              online.1 eq_refl eq_refl eq_refl) as [Hpaid _].
  split; [exact (Honline eq_refl)|]. split.
  - subst cod. rewrite (Hcod eq_refl). reflexivity.
  - subst paid. rewrite Hpaid. reflexivity.
Defined.

(** ** Where the controllers part from the specification *)

(** C2. The client-confirmed verification does not look at [isPaid]: on
    an order that is already paid, a verification that holds saves the
    order again with one more tracking-history entry and dispatches the
    new-order, payment-success and order-created notifications again.
    The webhook handler guards its update with [!order.isPaid]; this
    entry point has no such guard. *)
Theorem verifyPayment_reprocesses_paid env user b id o st :
  vb_orderId b = Some id -> orders st !! id = Some o -> o_id o = id ->
  o_isPaid o = true -> (checkPayment env b).1 = true ->
  let res := verifyPayment env user b st in
  let o' := verifiedOrder env b (checkPayment env b).2 o in
  res.2 = Responded 200 (VerifiedBody "Payment verified" o') /\
  orders res.1 !! id = Some o' /\
  o_trackingHistory o' = (o_trackingHistory o ++ [paymentReceivedEntry env])%list /\
  notifications res.1 =
  (notifications st ++ acceptedPrefix env (newOrderNotifications o' user st) ++
   acceptedPrefix env [paymentSuccessNotification env o'] ++
   acceptedPrefix env [orderCreatedNotification env o'])%list.
Proof.
  intros Hb Hfound Hid _ Hvalid res o'. subst res o'.
  rewrite (verifyPayment_valid_run env user b id o st Hb Hfound Hvalid).
  cbn [fst snd orders notifications setNotifications setOrders].
  rewrite Hid, lookup_insert_eq. done.
Qed.

Lemma verifyPayment_reprocesses_paid_witness :
  let id := "65c3f0a1order0001" in
  let o := sampleOrder id "Razorpay" true "confirmed" None in
  let st := storeWith [o] in
  let once := verifyPayment sampleEnv customer (signedVerifyBody id) st in
  let twice := verifyPayment sampleEnv customer (signedVerifyBody id) once.1 in
  o_isPaid o = true /\
  (o_trackingHistory <$> orders once.1 !! id) = Some [paymentReceivedEntry sampleEnv] /\
  length (notifications once.1) = 5%nat /\
  (length ∘ o_trackingHistory <$> orders twice.1 !! id) = Some 2%nat /\
  length (notifications twice.1) = 10%nat.
Proof.
  intros id o st once twice. split; [reflexivity|].
  destruct (verifyPayment_reprocesses_paid sampleEnv customer (signedVerifyBody id) id o st
              eq_refl eq_refl eq_refl eq_refl eq_refl) as (_ & Ho & Hh & Hn).
  split; [subst once; rewrite Ho; reflexivity|].
  split; [subst once; rewrite Hn; reflexivity|].
  destruct (verifyPayment_reprocesses_paid sampleEnv customer (signedVerifyBody id) id
              (verifiedOrder sampleEnv (signedVerifyBody id) (Some "pay_1") o) once.1
              eq_refl eq_refl eq_refl eq_refl eq_refl) as (_ & Ho2 & _ & Hn2).
  split; [subst twice; rewrite Ho2; reflexivity|].
  subst twice. rewrite Hn2. reflexivity.
Defined.

(** Order creation absorbs every refusal of a notification: its
    answer does not depend on the verdicts of the store. *)
Lemma addOrderItems_absorbs_refusals env user b items st :
  b_orderItems b = Some items -> items <> [] ->
  firstInsufficient (products st) items = None -> orders st !! newOrderId env = None ->
  (addOrderItems env user b st).2 = Responded 201 (OrderBody (newOrder env user items b)).
Proof.
  intros Hb Hne Hok Hfree. rewrite (addOrderItems_run env user b items st Hb Hne).
  by rewrite Hok, Hfree.
Qed.

(** C6. Cancellation does not absorb a refusal of its notifications.
    When the store refuses the notification to the owner, the order has
    already been saved as cancelled and its stock restored, and the
    refusal escapes the handler as an uncaught exception instead of the
    success answer.  [sendNewOrderNotifications] wraps its dispatch in a
    [try]/[catch]; the dispatch of [cancelOrder] is not wrapped. *)
Theorem cancelOrder_refusal_escapes env user id o st msg :
  orders st !! id = Some o -> o_id o = id ->
  o_user o = user_id user \/ user_role user = "admin" ->
  isTerminalForCancel (o_trackingStatus o) = false ->
  notificationError env (orderCancelledNotification (cancelledOrder env user o)) = Some msg ->
  let res := cancelOrder env user id st in
  res.2 = Uncaught (mkErr 200 msg) /\
  orders res.1 !! id = Some (cancelledOrder env user o) /\
  products res.1 = restoredProducts (o_orderItems o) (products st).
Proof.
  intros Hfound Hid Hauth Hterm Hrefused res. subst res.
  rewrite (cancelOrder_run env user id o st Hfound);
    [|by apply orb_true_iff; rewrite !String.eqb_eq|done].
  cbn [fst snd orders products setNotifications setOrders setProducts].
  unfold cancelNotifications. cbn [firstRefusal]. rewrite Hrefused, Hid, lookup_insert_eq. done.
Qed.

Lemma cancelOrder_refusal_escapes_witness :
  let id := "65c3f0a1order0001" in
  let o := sampleOrder id "COD" false "pending" None in
  let st := storeWith [o] in
  let res := cancelOrder refusingEnv customer id st in
  orders st !! id = Some o /\
  res.2 = Uncaught (mkErr 200 "Notification validation failed") /\
  (o_trackingStatus <$> orders res.1 !! id) = Some "cancelled" /\
  stockOf "p1" (products res.1) = Some 7.
Proof.
  intros id o st res. split; [reflexivity|].
  destruct (cancelOrder_refusal_escapes refusingEnv customer id o st
              "Notification validation failed" eq_refl eq_refl (or_introl eq_refl)
              eq_refl eq_refl) as (Hres & Ho & Hps).
  split; [exact Hres|].
  split; [subst res; rewrite Ho; reflexivity|].
  subst res. rewrite Hps. reflexivity.
Defined.

(** The same holds for a return request: the refusal of an admin's
    notification escapes after the request has been recorded. *)
Lemma requestReturn_refusal_escapes env user id o reason st msg :
  orders st !! id = Some o -> o_id o = id -> returnable env user o ->
  firstRefusal env (returnNotifications (setReturn "Requested" reason o) reason st) = Some msg ->
  let res := requestReturn env user id reason st in
  res.2 = Uncaught (mkErr 200 msg) /\
  orders res.1 !! id = Some (setReturn "Requested" reason o).
Proof.
  intros Hfound Hid Hok Hrefused res. subst res.
  rewrite (requestReturn_accept_run env user id o reason st Hfound Hok).
  cbn [fst snd orders setNotifications setOrders].
  rewrite Hrefused, Hid, lookup_insert_eq. done.
Qed.

(** ** Well-formed stores

    Every controller files an order under the identifier the order
    carries, so the stores they produce stay well formed. *)

Lemma keeps_ret {A} P (a : A) : keeps P (mret a).
Proof. by intros st. Qed.

Lemma keeps_throw {A} P status msg : keeps P (@throw A status msg).
Proof. by intros st. Qed.

Lemma keeps_bind {A B} P (m : M A) (f : A -> M B) :
  keeps P m -> (forall a, keeps P (f a)) -> keeps P (m ≫= f).
Proof.
  intros Hm Hf st HP. unfold mbind, M_bind.
  specialize (Hm st HP). destruct (m st) as [st' [e|a]]; [done|]. by apply Hf.
Qed.

Lemma keeps_tryCatch {A} P (m : M A) h :
  keeps P m -> (forall e, keeps P (h e)) -> keeps P (tryCatch m h).
Proof.
  intros Hm Hh st HP. unfold tryCatch.
  specialize (Hm st HP). destruct (m st) as [st' [e|a]]; [by apply Hh|done].
Qed.

Lemma keeps_forEach {A} P (l : list A) body :
  (forall a, keeps P (body a)) -> keeps P (forEach l body).
Proof.
  intros Hbody. induction l as [|a l IH]; [apply keeps_ret|].
  apply keeps_bind; [apply Hbody|done].
Qed.

Lemma keeps_when P b m : keeps P m -> keeps P (when b m).
Proof. destruct b; [done|intros _; apply keeps_ret]. Qed.

Lemma keeps_modify P f : (forall st, P st -> P (f st)) -> keeps P (modify f).
Proof. intros Hf st HP. by apply Hf. Qed.

Lemma keeps_read {A} P (f : Store -> A) : keeps P (st ← get; mret (f st)).
Proof. by intros st. Qed.

Lemma wfStore_insert o st : wfStore st -> wfStore (setOrders (<[o_id o := o]> (orders st)) st).
Proof.
  intros Hwf id o'. cbn [orders setOrders].
  destruct (decide (o_id o = id)) as [<-|Hne].
  - rewrite lookup_insert_eq. congruence.
  - rewrite lookup_insert_ne by done. apply Hwf.
Qed.

Lemma keeps_Order_save o : keeps wfStore (Order_save o).
Proof. intros st Hwf. by apply wfStore_insert. Qed.

Lemma keeps_Order_insert o : keeps wfStore (Order_insert o).
Proof.
  intros st Hwf. rewrite Order_insert_run.
  destruct (orders st !! o_id o); [done|]. by apply wfStore_insert.
Qed.

Lemma keeps_Order_delete id : keeps wfStore (Order_findByIdAndDelete id).
Proof.
  intros st Hwf id' o. unfold Order_findByIdAndDelete, modify.
  cbn [fst orders setOrders]. intros Hlookup.
  apply lookup_delete_Some in Hlookup as [_ Hlookup]. by apply Hwf.
Qed.

Lemma keeps_Order_updateMany timestamps ids ud :
  keeps wfStore (Order_updateMany_in timestamps ids ud).
Proof.
  intros st Hwf id o.
  unfold Order_updateMany_in, mbind, M_bind, get, modify, mret, M_ret.
  destruct timestamps; [|destruct (isEmptyUpdate ud); [apply Hwf|]];
    cbn [fst orders setOrders]; rewrite lookup_updatedOrders_of;
    (destruct (orders st !! id) as [o0|] eqn:Hlookup; simpl; [|done]);
    intros [= <-]; specialize (Hwf id o0 Hlookup); by destruct (inIds ids id).
Qed.

Lemma keeps_unchanged_orders {A} (m : M A) :
  (forall st, orders (m st).1 = orders st) -> keeps wfStore m.
Proof. intros Hm st Hwf id o. rewrite Hm. apply Hwf. Qed.

Lemma keeps_adjustStock id delta : keeps wfStore (adjustStock id delta).
Proof. apply keeps_unchanged_orders. intros st. by rewrite adjustStock_run. Qed.

Lemma keeps_Notification_create env n : keeps wfStore (Notification_create env n).
Proof.
  apply keeps_unchanged_orders. intros st. unfold Notification_create.
  by destruct (notificationError env n).
Qed.

Lemma keeps_sendNewOrderNotifications env order user :
  keeps wfStore (sendNewOrderNotifications env order user).
Proof.
  apply keeps_unchanged_orders. intros st. by rewrite sendNewOrderNotifications_run.
Qed.

Lemma keeps_checkItem item : keeps wfStore (checkItem item).
Proof. apply keeps_unchanged_orders. intros st. by rewrite checkItem_run. Qed.

Create HintDb keeps_wf.

#[local] Hint Resolve keeps_ret keeps_throw keeps_Order_save keeps_Order_insert
  keeps_Order_delete keeps_Order_updateMany keeps_adjustStock keeps_Notification_create
  keeps_sendNewOrderNotifications keeps_checkItem : keeps_wf.

#[local] Hint Extern 2 (keeps _ (createPaymentNotification _ _ _ _)) =>
  apply keeps_tryCatch; intros : keeps_wf.
#[local] Hint Extern 2 (keeps _ (createOrderNotification _ _ _ _)) =>
  apply keeps_tryCatch; intros : keeps_wf.
#[local] Hint Extern 2 (keeps _ (Order_findById _)) => apply keeps_read : keeps_wf.
#[local] Hint Extern 2 (keeps _ User_find_admins) => apply keeps_read : keeps_wf.

(** Walk down a controller body: binds, loops, guards and branches. *)
Ltac keeps_step :=
  match goal with
  | |- keeps _ (mbind _ _) => apply keeps_bind; [|intros]
  | |- keeps _ (forEach _ _) => apply keeps_forEach; intros
  | |- keeps _ (when _ _) => apply keeps_when
  | |- keeps _ (tryCatch _ _) => apply keeps_tryCatch; [|intros]
  | |- keeps _ (match ?x with _ => _ end) => destruct x
  | |- keeps _ (let '(_, _) := ?x in _) => destruct x
  | |- keeps _ _ => solve [auto with keeps_wf]
  end.

Ltac keeps_controller :=
  match goal with
  | |- wfStore (?run ?m ?st).1 =>
      let H := fresh in
      assert (H : keeps wfStore m) by (repeat keeps_step);
      let Hst := fresh in
      intros; unfold run;
      match goal with Hwf : wfStore st |- _ => specialize (H st Hwf) end;
      destruct (m st) as [? [?|?]]; exact H
  end.

Lemma cancelOrder_wf env user id st :
  wfStore st -> wfStore (cancelOrder env user id st).1.
Proof. intros Hwf. unfold cancelOrder. keeps_controller. Qed.

Lemma requestReturn_wf env user id reason st :
  wfStore st -> wfStore (requestReturn env user id reason st).1.
Proof. intros Hwf. unfold requestReturn. keeps_controller. Qed.

Lemma abandonOrder_wf user id st :
  wfStore st -> wfStore (abandonOrder user id st).1.
Proof. intros Hwf. unfold abandonOrder. keeps_controller. Qed.

Lemma addOrderItems_wf env user b st :
  wfStore st -> wfStore (addOrderItems env user b st).1.
Proof. intros Hwf. unfold addOrderItems. keeps_controller. Qed.

Lemma updateOrdersStatus_wf env orderIds status st :
  wfStore st -> wfStore (updateOrdersStatus env orderIds status st).1.
Proof. intros Hwf. unfold updateOrdersStatus. keeps_controller. Qed.

Lemma verifyPayment_wf env user b st :
  wfStore st -> wfStore (verifyPayment env user b st).1.
Proof. intros Hwf. unfold verifyPayment. keeps_controller. Qed.

Lemma handleWebhook_wf env signature body st :
  wfStore st -> wfStore (handleWebhook env signature body st).1.
Proof. intros Hwf. unfold handleWebhook. keeps_controller. Qed.

(** The stores built by [storeWith] are well formed. *)
Lemma storeWith_wf os : wfStore (storeWith os).
Proof.
  intros id o. unfold storeWith. cbn [orders]. intros Hlookup.
  apply elem_of_list_to_map_2 in Hlookup.
  change (map (fun o => (o_id o, o)) os) with ((fun o => (o_id o, o)) <$> os) in Hlookup.
  apply list_elem_of_fmap in Hlookup as (o' & [= -> ->] & _). done.
Qed.

(** * Further properties *)

(** ** Reserving and restoring cancel out *)

Section UpdateFirstTwice.

Context {A : Type} (P Q : A -> bool) (f g : A -> A).

Lemma updateFirst_comm (l : list A) :
  (forall x, P (g x) = P x) -> (forall x, Q (f x) = Q x) ->
  (forall x, f (g x) = g (f x)) ->
  updateFirst P f (updateFirst Q g l) = updateFirst Q g (updateFirst P f l).
Proof.
  intros HP HQ Hfg. induction l as [|a l IH]; simpl; [done|].
  destruct (P a) eqn:HPa, (Q a) eqn:HQa; simpl.
  - by rewrite HP, HPa, HQ, HQa, Hfg.
  - by rewrite HPa, HQ, HQa.
  - by rewrite HP, HPa, HQa.
  - by rewrite HPa, HQa, IH.
Qed.

Lemma updateFirst_cancel (l : list A) :
  (forall x, P (g x) = P x) -> (forall x, f (g x) = x) ->
  updateFirst P f (updateFirst P g l) = l.
Proof.
  intros HP Hfg. induction l as [|a l IH]; simpl; [done|].
  destruct (P a) eqn:HPa; simpl.
  - by rewrite HP, HPa, Hfg.
  - by rewrite HPa, IH.
Qed.

End UpdateFirstTwice.

Lemma incCount_comm d d' p : incCount d (incCount d' p) = incCount d' (incCount d p).
Proof. unfold incCount. simpl. f_equal. lia. Qed.

Lemma incCount_cancel d p : incCount d (incCount (- d) p) = p.
Proof. destruct p. unfold incCount. simpl. f_equal. lia. Qed.

Lemma incAddOnCount_comm d d' a :
  incAddOnCount d (incAddOnCount d' a) = incAddOnCount d' (incAddOnCount d a).
Proof. unfold incAddOnCount. simpl. f_equal. lia. Qed.

Lemma incAddOnCount_cancel d a : incAddOnCount d (incAddOnCount (- d) a) = a.
Proof. destruct a. unfold incAddOnCount. simpl. f_equal. lia. Qed.

Lemma incAddOnOf_comm id d id' d' p :
  incAddOnOf id d (incAddOnOf id' d' p) = incAddOnOf id' d' (incAddOnOf id d p).
Proof.
  unfold incAddOnOf. simpl. f_equal.
  apply updateFirst_comm; [done|done|]. intros a. apply incAddOnCount_comm.
Qed.

Lemma incAddOnOf_cancel id d p : incAddOnOf id d (incAddOnOf id (- d) p) = p.
Proof.
  destruct p as [pid name inStock count addOns]. unfold incAddOnOf. simpl. f_equal.
  apply updateFirst_cancel; [done|]. intros a. apply incAddOnCount_cancel.
Qed.

Lemma incCount_incAddOnOf d id' d' p :
  incCount d (incAddOnOf id' d' p) = incAddOnOf id' d' (incCount d p).
Proof. done. Qed.

(** An adjustment changes neither which identifiers name a primary
    product nor which name an add-on. *)
Lemma find_hasId_adjustProducts q id delta ps :
  find (hasId q) (adjustProducts id delta ps) = None <-> find (hasId q) ps = None.
Proof.
  assert (H : (fun _ => tt) <$> find (hasId q) (adjustProducts id delta ps)
              = (fun _ => tt) <$> find (hasId q) ps).
  { unfold adjustProducts. destruct (find (hasId id) ps); by apply find_updateFirst_proj. }
  destruct (find (hasId q) (adjustProducts id delta ps)), (find (hasId q) ps);
    simpl in H; split; congruence.
Qed.

Lemma adjustProducts_comm id d id' d' ps :
  adjustProducts id d (adjustProducts id' d' ps) =
  adjustProducts id' d' (adjustProducts id d ps).
Proof.
  pose proof (find_hasId_adjustProducts id id' d' ps) as H1.
  pose proof (find_hasId_adjustProducts id' id d ps) as H2.
  unfold adjustProducts at 1 3.
  destruct (find (hasId id) (adjustProducts id' d' ps)) as [x|] eqn:E1;
    destruct (find (hasId id') (adjustProducts id d ps)) as [y|] eqn:E2;
    unfold adjustProducts;
    destruct (find (hasId id) ps) as [x0|] eqn:E3;
    destruct (find (hasId id') ps) as [y0|] eqn:E4;
    try (destruct H1 as [H1a H1b]; first [specialize (H1a eq_refl) | specialize (H1b eq_refl)];
         discriminate);
    try (destruct H2 as [H2a H2b]; first [specialize (H2a eq_refl) | specialize (H2b eq_refl)];
         discriminate).
  - apply updateFirst_comm; intros; first [done|apply incCount_comm].
  - apply updateFirst_comm; intros; done.
  - symmetry. apply updateFirst_comm; intros; done.
  - apply updateFirst_comm; intros;
      first [apply hasAddOn_incAddOnOf|apply incAddOnOf_comm].
Qed.

Lemma adjustProducts_cancel id d ps :
  adjustProducts id d (adjustProducts id (- d) ps) = ps.
Proof.
  pose proof (find_hasId_adjustProducts id id (- d) ps) as H.
  unfold adjustProducts at 1.
  destruct (find (hasId id) (adjustProducts id (- d) ps)) as [x|] eqn:E1;
    unfold adjustProducts; destruct (find (hasId id) ps) as [x0|] eqn:E2;
    try (destruct H as [Ha Hb]; first [specialize (Ha eq_refl) | specialize (Hb eq_refl)];
         discriminate).
  - apply updateFirst_cancel; [done|]. intros p. apply incCount_cancel.
  - apply updateFirst_cancel; [intros; apply hasAddOn_incAddOnOf|].
    intros p. apply incAddOnOf_cancel.
Qed.

Lemma reservedProducts_adjust id d items ps :
  adjustProducts id d (reservedProducts items ps) =
  reservedProducts items (adjustProducts id d ps).
Proof.
  revert ps. induction items as [|item items IH]; intros ps; [done|].
  unfold reservedProducts in *. simpl. by rewrite IH, adjustProducts_comm.
Qed.

(** Restoring the items of an order after reserving them gives back
    the product list itself. *)
Lemma restored_reserved items ps :
  restoredProducts items (reservedProducts items ps) = ps.
Proof.
  revert ps. induction items as [|item items IH]; intros ps; [done|].
  change (restoredProducts (item :: items) (reservedProducts (item :: items) ps))
    with (restoredProducts items
            (adjustProducts (i_product item) (i_qty item)
               (reservedProducts items
                  (adjustProducts (i_product item) (- i_qty item) ps)))).
  by rewrite reservedProducts_adjust, adjustProducts_cancel, IH.
Qed.

(** What a 201 answer of [addOrderItems] tells about the request and
    about the store it leaves. *)
Lemma addOrderItems_created env user b items st body :
  b_orderItems b = Some items ->
  (addOrderItems env user b st).2 = Responded 201 body ->
  items <> [] /\
  firstInsufficient (products st) items = None /\
  orders st !! newOrderId env = None /\
  products (addOrderItems env user b st).1 = reservedProducts items (products st) /\
  orders (addOrderItems env user b st).1 =
    <[newOrderId env := newOrder env user items b]> (orders st) /\
  users (addOrderItems env user b st).1 = users st /\
  (isOnlinePayment (b_paymentMethod b) = true ->
   notifications (addOrderItems env user b st).1 = notifications st).
Proof.
  intros Hb Hres.
  destruct items as [|item0 items0].
  { rewrite (addOrderItems_empty env user b st Hb) in Hres. discriminate. }
  revert Hres. rewrite (addOrderItems_run env user b _ st Hb) by done.
  destruct (firstInsufficient (products st) (item0 :: items0)); [discriminate|].
  destruct (orders st !! newOrderId env); [discriminate|].
  intros _. cbv zeta.
  destruct (isOnlinePayment (b_paymentMethod b)); repeat split; done.
Qed.

(** X1. A provisional order that is abandoned leaves no trace in the
    catalogue: after a creation that is answered 201, abandoning the new
    order, by any caller, gives back the product list, the orders and the
    users of before the creation; when the payment method is an online
    one, for which no notification was sent, the whole store is the one
    of before. *)
Theorem create_then_abandon_restores env user caller b items st body :
  b_orderItems b = Some items ->
  (addOrderItems env user b st).2 = Responded 201 body ->
  let created := (addOrderItems env user b st).1 in
  let res := abandonOrder caller (newOrderId env) created in
  res.2 = Responded 200 (MessageBody "Order record permanently deleted and stock restored") /\
  products res.1 = products st /\
  orders res.1 = orders st /\
  users res.1 = users st /\
  (isOnlinePayment (b_paymentMethod b) = true -> res.1 = st).
Proof.
  intros Hb Hres created res.
  destruct (addOrderItems_created env user b items st body Hb Hres)
    as (_ & _ & Hfree & Hps & Hos & Hus & Hns).
  assert (Hfound : orders created !! newOrderId env = Some (newOrder env user items b)).
  { subst created. rewrite Hos. apply lookup_insert_eq. }
  subst res. rewrite (abandonOrder_run caller _ _ created Hfound).
  cbn [fst snd products orders users setOrders setProducts].
  assert (Hps' : restoredProducts (o_orderItems (newOrder env user items b)) (products created)
                 = products st).
  { subst created. rewrite Hps. apply restored_reserved. }
  assert (Hos' : delete (newOrderId env) (orders created) = orders st).
  { subst created. rewrite Hos. by apply delete_insert_id. }
  split; [done|]. split; [done|]. split; [done|]. split; [done|].
  intros Honline. rewrite Hps', Hos'. specialize (Hns Honline).
  unfold setOrders, setProducts. cbn [products orders users notifications].
  subst created. rewrite Hus, Hns. by destruct st.
Qed.

Lemma create_then_abandon_restores_witness :
  let created := (addOrderItems sampleEnv customer (sampleRequest sampleItems "Razorpay")
                                sampleStore).1 in
  b_orderItems (sampleRequest sampleItems "Razorpay") = Some sampleItems /\
  created <> sampleStore /\
  (abandonOrder stranger (newOrderId sampleEnv) created).1 = sampleStore.
Proof.
  intros created. split; [reflexivity|]. split.
  - intros Heq. apply (f_equal products) in Heq. vm_compute in Heq. discriminate.
  - destruct (create_then_abandon_restores sampleEnv customer stranger
                (sampleRequest sampleItems "Razorpay") sampleItems sampleStore _
                eq_refl eq_refl) as (_ & _ & _ & _ & Hall).
    apply Hall. reflexivity.
Defined.

(** X2. Cancelling gives the stock back exactly: after a creation that
    is answered 201, a cancellation by the user who placed the order
    leaves the product list of before the creation, and keeps the order,
    now with tracking status cancelled. *)
Theorem create_then_cancel_restores env user b items st body :
  b_orderItems b = Some items ->
  (addOrderItems env user b st).2 = Responded 201 body ->
  let created := (addOrderItems env user b st).1 in
  let res := cancelOrder env user (newOrderId env) created in
  products res.1 = products st /\
  orders res.1 =
    <[newOrderId env := cancelledOrder env user (newOrder env user items b)]> (orders st) /\
  o_trackingStatus (cancelledOrder env user (newOrder env user items b)) = "cancelled".
Proof.
  intros Hb Hres created res.
  destruct (addOrderItems_created env user b items st body Hb Hres)
    as (_ & _ & Hfree & Hps & Hos & _ & _).
  assert (Hfound : orders created !! newOrderId env = Some (newOrder env user items b)).
  { subst created. rewrite Hos. apply lookup_insert_eq. }
  subst res. rewrite (cancelOrder_run env user _ _ created Hfound).
  - cbn [fst products orders setNotifications setOrders setProducts o_id newOrder
         o_orderItems].
    split; [|split].
    + subst created. rewrite Hps. apply restored_reserved.
    + subst created. rewrite Hos. apply insert_insert_eq.
    + apply cancelledOrder_status.
  - cbn [o_user newOrder]. by rewrite String.eqb_refl.
  - done.
Qed.

Lemma create_then_cancel_restores_witness :
  let created := (addOrderItems sampleEnv customer (sampleRequest sampleItems "COD")
                                sampleStore).1 in
  b_orderItems (sampleRequest sampleItems "COD") = Some sampleItems /\
  stockOf "p1" (products created) = Some 3 /\
  products (cancelOrder sampleEnv customer (newOrderId sampleEnv) created).1 = sampleProducts.
Proof.
  intros created. split; [reflexivity|]. split; [reflexivity|].
  destruct (create_then_cancel_restores sampleEnv customer
              (sampleRequest sampleItems "COD") sampleItems sampleStore _
              eq_refl eq_refl) as (Hps & _).
  exact Hps.
Defined.

(** ** What a creation does to the stock *)

Lemma totalQty_absent q items :
  (forall item, In item items -> i_product item <> q) -> totalQty q items = 0.
Proof.
  induction items as [|item items IH]; intros Hq; simpl; [done|].
  destruct (String.eqb_spec (i_product item) q) as [Heq|_].
  - exfalso. apply (Hq item); [by left|done].
  - apply IH. intros item' Hin. apply Hq. by right.
Qed.

Lemma totalQty_NoDup item items :
  List.NoDup (map i_product items) -> In item items ->
  totalQty (i_product item) items = i_qty item.
Proof.
  induction items as [|item0 items IH]; intros Hnd Hin; [done|].
  simpl in Hnd. apply List.NoDup_cons_iff in Hnd as [Hnotin Hnd].
  destruct Hin as [->|Hin]; simpl.
  - rewrite String.eqb_refl, totalQty_absent; [lia|].
    intros item' Hin' Heq. apply Hnotin. rewrite <- Heq. by apply in_map.
  - destruct (String.eqb_spec (i_product item0) (i_product item)) as [Heq|_].
    + exfalso. apply Hnotin. rewrite Heq. by apply in_map.
    + by apply IH.
Qed.

(** X3. When the lines of a request name pairwise distinct identifiers, a
    creation that is answered 201 lowers the stock of every line by
    exactly its quantity and leaves it non-negative, and the stock of
    every identifier the request does not name is the one of before. *)
Theorem distinct_lines_never_oversell env user b items st body :
  b_orderItems b = Some items ->
  List.NoDup (map i_product items) ->
  (addOrderItems env user b st).2 = Responded 201 body ->
  let after := products (addOrderItems env user b st).1 in
  (forall item, In item items ->
     exists c, stockOf (i_product item) (products st) = Some c /\
               stockOf (i_product item) after = Some (c - i_qty item) /\
               0 <= c - i_qty item) /\
  (forall q, (forall item, In item items -> i_product item <> q) ->
     stockOf q after = stockOf q (products st)).
Proof.
  intros Hb Hnd Hres after.
  destruct (addOrderItems_created env user b items st body Hb Hres)
    as (_ & Hok & _ & Hps & _).
  subst after. rewrite Hps. unfold reservedProducts. split.
  - intros item Hin.
    apply firstInsufficient_None in Hok. rewrite forallb_forall in Hok.
    destruct (sufficient_stockOf (products st) item (Hok item Hin)) as (c & Hc & Hle).
    exists c. rewrite stockOf_reserve, Hc, (totalQty_NoDup item items Hnd Hin). simpl.
    split; [done|]. split; [done|lia].
  - intros q Hq. rewrite stockOf_reserve, (totalQty_absent q items Hq).
    destruct (stockOf q (products st)); simpl; f_equal; lia.
Qed.

Lemma distinct_lines_never_oversell_witness :
  b_orderItems (sampleRequest sampleItems "COD") = Some sampleItems /\
  List.NoDup (map i_product sampleItems) /\
  stockOf "p2"
    (products (addOrderItems sampleEnv customer (sampleRequest sampleItems "COD")
                             sampleStore).1) = Some 1.
Proof.
  assert (Hnd : List.NoDup (map i_product sampleItems)).
  { constructor; [simpl; intros [H|[]]; discriminate|].
    constructor; [simpl; tauto|constructor]. }
  split; [reflexivity|]. split; [exact Hnd|].
  destruct (distinct_lines_never_oversell sampleEnv customer
              (sampleRequest sampleItems "COD") sampleItems sampleStore _
              eq_refl Hnd eq_refl) as [_ Hframe].
  rewrite Hframe; [reflexivity|].
  intros item [<-|[<-|[]]]; discriminate.
Defined.

(** X4. The stock check is made line by line against the stored count,
    so two lines for the same product pass together although their sum
    exceeds the stock: the order is created and the count of the product
    ends below zero. *)
Theorem repeated_lines_oversell env user b st pid p q name1 name2 :
  b_orderItems b = Some [mkOrderItem pid name1 q; mkOrderItem pid name2 q] ->
  find (hasId pid) (products st) = Some p ->
  p_inStock p = true -> q <= p_countInStock p -> p_countInStock p < 2 * q ->
  orders st !! newOrderId env = None ->
  let res := addOrderItems env user b st in
  (exists body, res.2 = Responded 201 body) /\
  stockOf pid (products res.1) = Some (p_countInStock p - 2 * q) /\
  p_countInStock p - 2 * q < 0.
Proof.
  intros Hb Hfound HinStock Hle Hlt Hfree res.
  set (items := [mkOrderItem pid name1 q; mkOrderItem pid name2 q]) in *.
  assert (Hsuff : forall name, sufficient (products st) (mkOrderItem pid name q) = true).
  { intros name. unfold sufficient, resolveItem. simpl. rewrite Hfound, HinStock. simpl.
    by apply Z.leb_le. }
  assert (Hok : firstInsufficient (products st) items = None).
  { unfold firstInsufficient, items. simpl. by rewrite !Hsuff. }
  assert (Hrun := addOrderItems_run env user b items st Hb).
  rewrite Hok, Hfree in Hrun. subst res. rewrite Hrun by done. cbv zeta.
  split; [|split; [|lia]].
  - eexists. reflexivity.
  - assert (Hps : forall st', products (if isOnlinePayment (b_paymentMethod b)
                    then createdStore env user items b st
                    else setNotifications st' (createdStore env user items b st))
                  = reservedProducts items (products st)).
    { intros st'. by destruct (isOnlinePayment (b_paymentMethod b)). }
    cbn [fst]. rewrite Hps. unfold reservedProducts. rewrite stockOf_reserve.
    unfold stockOf. rewrite Hfound. simpl. rewrite !String.eqb_refl.
    assert (q + (q + 0) = 2 * q) as -> by lia. done.
Qed.

Lemma repeated_lines_oversell_witness :
  let b := sampleRequest [mkOrderItem "p1" None 3; mkOrderItem "p1" None 3] "COD" in
  b_orderItems b = Some [mkOrderItem "p1" None 3; mkOrderItem "p1" None 3] /\
  stockOf "p1" (products (addOrderItems sampleEnv customer b sampleStore).1) = Some (-1).
Proof.
  intros b. split; [reflexivity|].
  destruct (repeated_lines_oversell sampleEnv customer b sampleStore "p1"
              (mkProduct "p1" "Silk Saree" true 5 [mkAddOn "a1" "Blouse Piece" true 2])
              3 None None eq_refl eq_refl eq_refl) as (_ & Hstock & _);
    [simpl; lia|simpl; lia|reflexivity|].
  exact Hstock.
Defined.

(** ** The dispatch of new-order notifications *)

Lemma acceptedPrefix_prefix env l : acceptedPrefix env l `prefix_of` l.
Proof.
  induction l as [|n l IH]; simpl; [done|].
  destruct (notificationError env n); [apply prefix_nil|by apply prefix_cons].
Qed.

Lemma acceptedPrefix_all_accepted env l n :
  n ∈ acceptedPrefix env l -> notificationError env n = None.
Proof.
  induction l as [|n0 l IH]; simpl; [by intros ?%elem_of_nil|].
  destruct (notificationError env n0) eqn:Hn0; [by intros ?%elem_of_nil|].
  intros [->|Hin]%elem_of_cons; [done|by apply IH].
Qed.

Lemma acceptedPrefix_cut env l :
  exists rest, l = (acceptedPrefix env l ++ rest)%list /\
               match rest with
               | [] => True
               | n :: _ => notificationError env n <> None
               end.
Proof.
  induction l as [|n l (rest & Hl & Hrest)]; simpl; [by exists []|].
  destruct (notificationError env n) eqn:Hn.
  - exists (n :: l). split; [done|]. by rewrite Hn.
  - exists rest. split; [|done]. simpl. by rewrite <- Hl.
Qed.

(** X5. [sendNewOrderNotifications] never throws and touches nothing but
    the notifications, to which it only appends.  The notifications it
    goes through begin with the one of the placing user; it stores them
    one by one and stops at the first one the store refuses: what it
    appends is the part of the batch before that one, all of it accepted,
    and the whole batch when none is refused.  So the notification of the
    placing user is stored whenever it is accepted itself, whatever
    happens to the later ones, and when it is refused no admin is
    notified. *)
Theorem sendNewOrderNotifications_best_effort env order user st :
  let res := sendNewOrderNotifications env order user st in
  let batch := newOrderNotifications order user st in
  res.2 = inr tt /\
  products res.1 = products st /\ orders res.1 = orders st /\ users res.1 = users st /\
  head batch = Some (orderPlacedNotification order user) /\
  (exists added rest,
     batch = (added ++ rest)%list /\
     notifications res.1 = (notifications st ++ added)%list /\
     (forall n, n ∈ added -> notificationError env n = None) /\
     match rest with
     | [] => True
     | refused :: _ => notificationError env refused <> None
     end) /\
  (notificationError env (orderPlacedNotification order user) = None ->
   orderPlacedNotification order user ∈ notifications res.1) /\
  (notificationError env (orderPlacedNotification order user) <> None ->
   notifications res.1 = notifications st).
Proof.
  intros res batch. subst res. rewrite sendNewOrderNotifications_run.
  cbn [fst snd products orders users notifications setNotifications]. fold batch.
  split; [done|]. split; [done|]. split; [done|]. split; [done|].
  split; [done|]. split.
  - destruct (acceptedPrefix_cut env batch) as (rest & Hcut & Hrest).
    exists (acceptedPrefix env batch), rest. split; [done|]. split; [done|].
    split; [|done]. intros n. apply acceptedPrefix_all_accepted.
  - subst batch. unfold newOrderNotifications. cbn [acceptedPrefix app]. split.
    + intros ->. apply elem_of_app. right. apply list_elem_of_here.
    + intros Hrefused.
      destruct (notificationError env (orderPlacedNotification order user)); [|done].
      by rewrite app_nil_r.
Qed.

Lemma lowStockAlerts_elem ps admins items n :
  n ∈ lowStockAlerts ps admins items ->
  exists item p admin,
    In item items /\ find (hasId (i_product item)) ps = Some p /\
    p_countInStock p <= 5 /\
    In admin admins /\ u_lowStockAlerts admin <> Some false /\
    n = lowStockNotification p admin.
Proof.
  unfold lowStockAlerts. rewrite list_elem_of_In, in_flat_map.
  intros (item & Hitem & Hn).
  destruct (find (hasId (i_product item)) ps) as [p|] eqn:Hp; [|done].
  unfold lowStockThreshold in Hn.
  destruct (Z.leb_spec (p_countInStock p) 5) as [Hlow|]; [|done].
  apply in_map_iff in Hn as (admin & <- & Hadmin).
  apply filter_In in Hadmin as [Hadmin Hpref].
  exists item, p, admin. repeat split; try done.
  intros Hoff. by rewrite Hoff in Hpref.
Qed.

(** X6. Who is notified of a new order.  Every notification that
    [sendNewOrderNotifications] adds is addressed either to the caller,
    and is then the order-placed notification, or to a stored user of role
    admin: a new-order notification only if that admin has not switched
    order alerts off, or a low-stock alert only if that admin has not
    switched low-stock alerts off and only for a line whose identifier is
    that of a primary product with at most five units left.  So a line
    that names an add-on never raises a low-stock alert. *)
Theorem new_order_recipients env order user st n :
  n ∈ notifications (sendNewOrderNotifications env order user st).1 ->
  n ∈ notifications st \/
  n = orderPlacedNotification order user \/
  (exists admin, In admin (users st) /\ u_role admin = "admin" /\
     u_orderAlerts admin <> Some false /\
     n = newOrderReceivedNotification order admin) \/
  (exists admin item p, In admin (users st) /\ u_role admin = "admin" /\
     u_lowStockAlerts admin <> Some false /\
     In item (o_orderItems order) /\
     find (hasId (i_product item)) (products st) = Some p /\
     p_countInStock p <= 5 /\
     n = lowStockNotification p admin).
Proof.
  rewrite sendNewOrderNotifications_run. cbn [fst notifications setNotifications].
  intros [Hold|Hnew]%elem_of_app; [by left|]. right.
  pose proof (acceptedPrefix_prefix env (newOrderNotifications order user st)) as [rest Hrest].
  assert (Hin : n ∈ newOrderNotifications order user st).
  { rewrite Hrest. apply elem_of_app. by left. }
  unfold newOrderNotifications in Hin.
  apply elem_of_cons in Hin as [->|Hin]; [by left|]. right.
  apply elem_of_app in Hin as [Hin|Hin].
  - left. apply list_elem_of_In, in_map_iff in Hin as (admin & <- & Hadmin).
    apply filter_In in Hadmin as [Hadmin Hpref].
    apply filter_In in Hadmin as [Hadmin Hrole].
    exists admin. repeat split; try done.
    + by apply String.eqb_eq.
    + intros Hoff. by rewrite Hoff in Hpref.
  - right. apply lowStockAlerts_elem in Hin
      as (item & p & admin & Hitem & Hp & Hlow & Hadmin & Hpref & ->).
    apply filter_In in Hadmin as [Hadmin Hrole].
    exists admin, item, p. repeat split; try done. by apply String.eqb_eq.
Qed.

Lemma new_order_recipients_witness :
  let shop := mkStore sampleProducts ∅
                [mkUser "admin1" "admin" (Some false) None; mkUser "u1" "customer" None None]
                [] in
  let order := sampleOrder "65c3f0a1order0001" "COD" false "pending" None in
  let low := lowStockNotification
               (mkProduct "p1" "Silk Saree" true 5 [mkAddOn "a1" "Blouse Piece" true 2])
               (mkUser "admin1" "admin" (Some false) None) in
  low ∈ notifications (sendNewOrderNotifications sampleEnv order customer shop).1 /\
  (low ∈ notifications shop \/
   low = orderPlacedNotification order customer \/
   (exists admin, In admin (users shop) /\ u_role admin = "admin" /\
      u_orderAlerts admin <> Some false /\
      low = newOrderReceivedNotification order admin) \/
   (exists admin item p, In admin (users shop) /\ u_role admin = "admin" /\
      u_lowStockAlerts admin <> Some false /\
      In item (o_orderItems order) /\
      find (hasId (i_product item)) (products shop) = Some p /\
      p_countInStock p <= 5 /\
      low = lowStockNotification p admin)).
Proof.
  intros shop order low.
  assert (Hin : low ∈ notifications
                        (sendNewOrderNotifications sampleEnv order customer shop).1).
  { vm_compute. apply list_elem_of_further, list_elem_of_here. }
  split; [exact Hin|].
  exact (new_order_recipients sampleEnv order customer shop low Hin).
Defined.

(** ** Payment verification: what it takes to mark an order paid *)

Lemma verifyPayment_unknown_run env user b st :
  vb_orderId b ≫= (fun i => orders st !! i) = None ->
  verifyPayment env user b st = (st, Responded 404 (MessageBody "Order not found")).
Proof.
  intros Hnone. unfold verifyPayment, runCatch500.
  unfold mbind at 1. unfold M_bind at 1. unfold Order_findById, mbind at 1, M_bind at 1.
  unfold get, mret at 1, M_ret at 1. cbv beta iota. by rewrite Hnone.
Qed.

Lemma lookup_orderId_Some (orderId : option string) (os : gmap string Order) o :
  orderId ≫= (fun i => os !! i) = Some o -> exists id, orderId = Some id /\ os !! id = Some o.
Proof. destruct orderId as [id|]; [eauto|done]. Qed.

Lemma checkPayment_valid_inv env b :
  (checkPayment env b).1 = true ->
  (razorpayInstance env = true /\ truthy (razorpay_signature b) = true /\
   razorpay_signature b =
   Some (hmac_sha256_hex env (default "" (RAZORPAY_KEY_SECRET env))
           (toStr (razorpay_order_id b) ++ "|" ++ toStr (razorpay_payment_id b)))) \/
  (razorpayInstance env && truthy (razorpay_signature b) = false /\
   paymentConfig_mode env = "mock" /\
   mv_success (verifyMockPayment env (razorpay_order_id b) (razorpay_payment_id b)
                                 (razorpay_signature b)) = true).
Proof.
  unfold checkPayment.
  destruct (razorpayInstance env && truthy (razorpay_signature b)) eqn:Hlive.
  - apply andb_prop in Hlive as [Hcfg Hsig]. simpl. intros Heq%strictEq_Some. by left.
  - destruct (String.eqb_spec (paymentConfig_mode env) "mock"); simpl; [|done].
    intros Hmock. by right.
Qed.

(** X7. [verifyPayment] changes the store only for an order that exists
    and a verification that holds.  An unknown or absent order identifier
    is answered 404 before the signature is looked at, and a failed
    verification 400, both with the store as it was.  A verification
    holds only in two ways: the gateway is configured, a signature is
    supplied and it is the HMAC-SHA256 digest of the provider order and
    payment identifiers joined by a bar; or that branch is not taken,
    the payment mode is mock, and the simulator accepts. *)
Theorem verifyPayment_changes_only_when_valid env user b st :
  let res := verifyPayment env user b st in
  let found := vb_orderId b ≫= (fun i => orders st !! i) in
  (found = None -> res = (st, Responded 404 (MessageBody "Order not found"))) /\
  (found <> None -> (checkPayment env b).1 = false ->
     res = (st, Responded 400 (MessageBody "Invalid payment signature"))) /\
  (res.1 <> st ->
     found <> None /\
     ((razorpayInstance env = true /\ truthy (razorpay_signature b) = true /\
       razorpay_signature b =
       Some (hmac_sha256_hex env (default "" (RAZORPAY_KEY_SECRET env))
               (toStr (razorpay_order_id b) ++ "|" ++ toStr (razorpay_payment_id b)))) \/
      (razorpayInstance env && truthy (razorpay_signature b) = false /\
       paymentConfig_mode env = "mock" /\
       mv_success (verifyMockPayment env (razorpay_order_id b) (razorpay_payment_id b)
                                     (razorpay_signature b)) = true))).
Proof.
  intros res found.
  assert (Hnone : found = None -> res = (st, Responded 404 (MessageBody "Order not found"))).
  { apply verifyPayment_unknown_run. }
  assert (Hbad : found <> None -> (checkPayment env b).1 = false ->
                 res = (st, Responded 400 (MessageBody "Invalid payment signature"))).
  { intros Hsome Hinvalid. destruct found as [o|] eqn:Hfound; [|done].
    apply lookup_orderId_Some in Hfound as (id & Hb & Ho).
    by apply (verifyPayment_invalid_run env user b id o st). }
  split; [exact Hnone|]. split; [exact Hbad|].
  intros Hchanged.
  destruct found as [o|] eqn:Hfound; [|by rewrite Hnone in Hchanged].
  split; [done|].
  destruct (checkPayment env b).1 eqn:Hvalid.
  - by apply checkPayment_valid_inv.
  - rewrite Hbad in Hchanged; done.
Qed.

Lemma verifyPayment_changes_only_when_valid_witness :
  let id := "65c3f0a1order0001" in
  let st := storeWith [sampleOrder id "Razorpay" false "pending" None] in
  let forged := mkVerifyBody (Some "order_1") (Some "pay_1") (Some "forged") (Some id) in
  verifyPayment sampleEnv stranger forged st
    = (st, Responded 400 (MessageBody "Invalid payment signature")) /\
  (verifyPayment sampleEnv stranger (signedVerifyBody id) st).1 <> st.
Proof.
  intros id st forged.
  destruct (verifyPayment_changes_only_when_valid sampleEnv stranger forged st)
    as (_ & Hbad & _).
  split; [apply Hbad; [discriminate|reflexivity]|].
  intros Heq. apply (f_equal notifications) in Heq. vm_compute in Heq. discriminate.
Defined.

(** X8. [verifyPayment] does not ask who calls.  For every caller, owner
    of the order or not, a verification that holds saves the order as
    paid, with the payment identifier and the provider order identifier
    of the request in its payment result; and the order-placed
    notification it dispatches is addressed to the caller. *)
Theorem verifyPayment_any_caller env user b id o st :
  vb_orderId b = Some id -> orders st !! id = Some o -> (checkPayment env b).1 = true ->
  notificationError env
    (orderPlacedNotification (verifiedOrder env b (checkPayment env b).2 o) user) = None ->
  let res := verifyPayment env user b st in
  (exists o', orders res.1 !! o_id o = Some o' /\
     o_isPaid o' = true /\ o_paidAt o' = Some (now env) /\
     o_paymentResult o' =
       Some (mkPaymentResult (checkPayment env b).2 (Some "completed") (Some (now env))
                             (razorpay_order_id b) (Some "razorpay")) /\
     o_user o' = o_user o) /\
  (exists n, n ∈ notifications res.1 /\ n_title n = "Order Placed!" /\
     n_user n = user_id user /\ n_relatedOrder n = Some (o_id o)).
Proof.
  intros Hb Hfound Hvalid Haccepted res. subst res.
  rewrite (verifyPayment_valid_run env user b id o st Hb Hfound Hvalid).
  cbn [fst orders notifications setNotifications setOrders]. split.
  - eexists. rewrite lookup_insert_eq. split; [reflexivity|]. done.
  - exists (orderPlacedNotification (verifiedOrder env b (checkPayment env b).2 o) user).
    split; [|done].
    apply elem_of_app. right. apply elem_of_app. left.
    unfold newOrderNotifications. simpl acceptedPrefix. rewrite Haccepted.
    apply list_elem_of_here.
Qed.

Lemma verifyPayment_any_caller_witness :
  let id := "65c3f0a1order0001" in
  let o := sampleOrder id "Razorpay" false "pending" None in
  let res := verifyPayment sampleEnv stranger (signedVerifyBody id) (storeWith [o]) in
  o_user o <> user_id stranger /\
  (o_isPaid <$> orders res.1 !! id) = Some true /\
  (n_user <$> notifications res.1 !! 0%nat) = Some "u2".
Proof.
  intros id o res.
  destruct (verifyPayment_any_caller sampleEnv stranger (signedVerifyBody id) id o
              (storeWith [o]) eq_refl eq_refl eq_refl eq_refl) as [_ _].
  split; [discriminate|]. split; reflexivity.
Defined.

(** ** The webhook *)

(** [handleWebhook], path by path. *)
Lemma handleWebhook_run env signature body st :
  handleWebhook env signature body st =
  if negb (webhookAuthentic env signature body)
  then (st, Responded 400 (MessageBody
              (if negb (truthy signature) || negb (truthy (RAZORPAY_WEBHOOK_SECRET env))
               then "Signature and secret are required for webhook"
               else "Invalid webhook signature")))
  else if strictEq (wb_event body) (Some "payment.captured")
  then
    match wb_entity body with
    | None => (st, Responded 500 (MessageBody "Cannot read properties of undefined"))
    | Some entity =>
        match we_notes entity with
        | None => (st, Responded 500 (MessageBody "Cannot read properties of undefined"))
        | Some orderId =>
            match orderId ≫= (fun i => orders st !! i) with
            | Some order =>
                if o_isPaid order then (st, Responded 200 (StatusBody "ok"))
                else (setOrders (<[o_id order := capturedOrder env entity order]> (orders st))
                                st,
                      Responded 200 (StatusBody "ok"))
            | None => (st, Responded 200 (StatusBody "ok"))
            end
        end
    end
  else (st, Responded 200 (StatusBody "ok")).
Proof.
  unfold handleWebhook, runCatch500, webhookAuthentic.
  destruct (truthy signature); simpl; [|done].
  destruct (truthy (RAZORPAY_WEBHOOK_SECRET env)); simpl; [|done].
  destruct (strictEq signature _); simpl; [|done].
  destruct (strictEq (wb_event body) (Some "payment.captured")); simpl; [|done].
  destruct (wb_entity body) as [entity|]; simpl; [|done].
  destruct (we_notes entity) as [orderId|]; simpl; [|done].
  unfold mbind at 1 2. unfold M_bind at 1 2.
  unfold Order_findById, mbind at 1, M_bind at 1, get, mret at 1, M_ret at 1.
  cbv beta iota.
  destruct (orderId ≫= (fun i => orders st !! i)) as [order|]; [|done].
  by destruct (o_isPaid order).
Qed.

(** X9. Delivering the same webhook twice is the same as delivering it
    once: the second delivery answers as the first did and leaves the
    store the first one left, whatever the signature, the event and the
    store. *)
Theorem handleWebhook_idempotent env signature body st :
  let once := handleWebhook env signature body st in
  handleWebhook env signature body once.1 = (once.1, once.2).
Proof.
  intros once. subst once. rewrite (handleWebhook_run env signature body st).
  destruct (negb (webhookAuthentic env signature body)) eqn:Hauth.
  { cbn [fst snd]. by rewrite handleWebhook_run, Hauth. }
  destruct (strictEq (wb_event body) (Some "payment.captured")) eqn:Hev.
  2:{ cbn [fst snd]. by rewrite handleWebhook_run, Hauth, Hev. }
  destruct (wb_entity body) as [entity|] eqn:Hent.
  2:{ cbn [fst snd]. by rewrite handleWebhook_run, Hauth, Hev, Hent. }
  destruct (we_notes entity) as [orderId|] eqn:Hnotes.
  2:{ cbn [fst snd]. by rewrite handleWebhook_run, Hauth, Hev, Hent, Hnotes. }
  destruct (orderId ≫= (fun i => orders st !! i)) as [order|] eqn:Hfound.
  2:{ cbn [fst snd]. by rewrite handleWebhook_run, Hauth, Hev, Hent, Hnotes, Hfound. }
  destruct (o_isPaid order) eqn:Hpaid.
  { cbn [fst snd]. by rewrite handleWebhook_run, Hauth, Hev, Hent, Hnotes, Hfound, Hpaid. }
  cbn [fst snd]. rewrite handleWebhook_run, Hauth, Hev, Hent, Hnotes.
  apply lookup_orderId_Some in Hfound as (id & -> & Hfound).
  cbn [orders setOrders mbind option_bind].
  destruct (decide (o_id order = id)) as [Hid|Hne].
  - rewrite Hid, lookup_insert_eq. done.
  - rewrite lookup_insert_ne, Hfound, Hpaid by done.
    by rewrite insert_insert_eq.
Qed.

(** X10. The footprint of the webhook.  [handleWebhook] never touches
    products, users or notifications, and it changes the orders only when
    it is authentic (signature and secret present, signature the digest of
    the body), the event is [payment.captured], and the order named in
    the notes exists and is unpaid; the change is then that one order,
    saved as paid and confirmed with one more tracking-history entry.
    Every other authentic delivery of a well-formed body, a
    [payment.failed] event among them, is acknowledged with the store as
    it was. *)
Theorem handleWebhook_footprint env signature body st :
  let res := handleWebhook env signature body st in
  products res.1 = products st /\ users res.1 = users st /\
  notifications res.1 = notifications st /\
  (res.1 <> st ->
     webhookAuthentic env signature body = true /\
     wb_event body = Some "payment.captured" /\
     exists entity id order,
       wb_entity body = Some entity /\ we_notes entity = Some (Some id) /\
       orders st !! id = Some order /\ o_isPaid order = false /\
       orders res.1 = <[o_id order := capturedOrder env entity order]> (orders st) /\
       o_isPaid (capturedOrder env entity order) = true /\
       o_trackingStatus (capturedOrder env entity order) = "confirmed" /\
       o_trackingHistory (capturedOrder env entity order) =
         (o_trackingHistory order ++ [webhookConfirmedEntry env])%list) /\
  (webhookAuthentic env signature body = true ->
   wb_event body <> Some "payment.captured" ->
   res = (st, Responded 200 (StatusBody "ok"))).
Proof.
  intros res. subst res. rewrite handleWebhook_run.
  destruct (webhookAuthentic env signature body) eqn:Hauth; simpl negb; cbv iota.
  2:{ cbn [fst snd]. repeat split; try done. }
  destruct (strictEq (wb_event body) (Some "payment.captured")) eqn:Hev.
  2:{ cbn [fst snd]. repeat split; try done. }
  apply strictEq_Some in Hev.
  destruct (wb_entity body) as [entity|] eqn:Hent.
  2:{ cbn [fst snd]. repeat split; try done. }
  destruct (we_notes entity) as [orderId|] eqn:Hnotes.
  2:{ cbn [fst snd]. repeat split; try done. }
  destruct (orderId ≫= (fun i => orders st !! i)) as [order|] eqn:Hfound.
  2:{ cbn [fst snd]. repeat split; try done. }
  destruct (o_isPaid order) eqn:Hpaid.
  { cbn [fst snd]. repeat split; try done. }
  apply lookup_orderId_Some in Hfound as (id & -> & Hfound).
  cbn [fst snd products users notifications orders setOrders].
  split; [done|]. split; [done|]. split; [done|]. split; [|done].
  intros _. split; [done|]. split; [done|].
  exists entity, id, order. repeat split; done.
Qed.

Lemma handleWebhook_footprint_witness :
  let id := "65c3f0a1order0001" in
  let st := storeWith [sampleOrder id "Razorpay" false "pending" None] in
  let body := capturedBody id in
  let good := Some (hmac_sha256_hex sampleEnv "whsec_test" (JSON_stringify sampleEnv body)) in
  let failed := mkWebhookBody (Some "payment.failed") (wb_entity body) in
  let goodFailed :=
    Some (hmac_sha256_hex sampleEnv "whsec_test" (JSON_stringify sampleEnv failed)) in
  (o_trackingStatus <$> orders (handleWebhook sampleEnv good body st).1 !! id)
    = Some "confirmed" /\
  handleWebhook sampleEnv goodFailed failed st = (st, Responded 200 (StatusBody "ok")).
Proof.
  intros id st body good failed goodFailed.
  destruct (handleWebhook_footprint sampleEnv goodFailed failed st) as (_ & _ & _ & _ & Hack).
  split; [reflexivity|].
  apply Hack; [reflexivity|discriminate].
Defined.

(** X11. The two confirmations compose one way round: once the
    client-confirmed verification has marked an order paid, no webhook
    delivery that names this order changes anything, so the order keeps
    the tracking status it had and is not confirmed by the webhook. *)
Theorem webhook_after_verification_changes_nothing env user b id o st signature body :
  vb_orderId b = Some id -> orders st !! id = Some o -> o_id o = id ->
  (checkPayment env b).1 = true ->
  (forall entity, wb_entity body = Some entity -> we_notes entity = Some (Some id)) ->
  let verified := (verifyPayment env user b st).1 in
  (handleWebhook env signature body verified).1 = verified /\
  (o_trackingStatus <$> orders verified !! id) = Some (o_trackingStatus o).
Proof.
  intros Hb Hfound Hid Hvalid Hnames verified.
  assert (Hverified : orders verified !! id
                      = Some (verifiedOrder env b (checkPayment env b).2 o)).
  { subst verified. rewrite (verifyPayment_valid_run env user b id o st Hb Hfound Hvalid).
    cbn [fst orders setNotifications setOrders]. rewrite Hid. apply lookup_insert_eq. }
  split; [|by rewrite Hverified].
  rewrite handleWebhook_run.
  destruct (negb (webhookAuthentic env signature body)); [done|].
  destruct (strictEq (wb_event body) (Some "payment.captured")); [|done].
  destruct (wb_entity body) as [entity|] eqn:Hent; [|done].
  rewrite (Hnames entity eq_refl). cbn [mbind option_bind]. by rewrite Hverified.
Qed.

Lemma webhook_after_verification_changes_nothing_witness :
  let id := "65c3f0a1order0001" in
  let o := sampleOrder id "Razorpay" false "pending" None in
  let verified := (verifyPayment sampleEnv customer (signedVerifyBody id) (storeWith [o])).1 in
  let body := capturedBody id in
  let good := Some (hmac_sha256_hex sampleEnv "whsec_test" (JSON_stringify sampleEnv body)) in
  orders (storeWith [o]) !! id = Some o /\
  (handleWebhook sampleEnv good body verified).1 = verified /\
  (o_trackingStatus <$> orders verified !! id) = Some "pending".
Proof.
  intros id o verified body good. split; [reflexivity|].
  apply (webhook_after_verification_changes_nothing sampleEnv customer (signedVerifyBody id)
           id o (storeWith [o]) good body eq_refl eq_refl eq_refl eq_refl).
  intros entity [= <-]. reflexivity.
Defined.

(** ** Delivery, returns and the tracking status *)

Lemma updateOrderToDelivered_run env id o st :
  orders st !! id = Some o ->
  updateOrderToDelivered env id st =
  (setOrders (<[o_id o := setDelivered true (Some (now env)) o]> (orders st)) st,
   Responded 200 (OrderBody (setDelivered true (Some (now env)) o))).
Proof.
  intros Hfound. unfold updateOrderToDelivered, runAsync.
  unfold mbind at 1. unfold M_bind at 1. unfold Order_findById, mbind at 1, M_bind at 1.
  simpl. by rewrite Hfound.
Qed.

Lemma requestReturn_not_delivered env user id o reason st :
  orders st !! id = Some o -> o_user o = user_id user ->
  o_trackingStatus o <> "delivered" ->
  requestReturn env user id reason st =
  (st, Uncaught (mkErr 400 "Return can only be requested for delivered orders")).
Proof.
  intros Hfound Howner Hstatus. unfold requestReturn, runAsync.
  unfold mbind at 1. unfold M_bind at 1. unfold Order_findById, mbind at 1, M_bind at 1.
  simpl. rewrite Hfound, Howner, String.eqb_refl. simpl.
  by destruct (String.eqb_spec (o_trackingStatus o) "delivered").
Qed.

(** X12. Marking an order delivered does not deliver it for the rest of
    the lifecycle.  [updateOrderToDelivered] sets [isDelivered] and
    stamps [deliveredAt] but leaves the tracking status alone.  So, unless
    the tracking status already was delivered, the owner's return request
    is still refused as not delivered; and unless it was delivered,
    shipped or cancelled, the owner can still cancel the order, which then
    is cancelled and flagged delivered at once. *)
Theorem delivered_flag_is_not_tracking env user id o st :
  orders st !! id = Some o -> o_id o = id -> o_user o = user_id user ->
  let delivered := (updateOrderToDelivered env id st).1 in
  (exists o', orders delivered !! id = Some o' /\
     o_isDelivered o' = true /\ o_deliveredAt o' = Some (now env) /\
     o_trackingStatus o' = o_trackingStatus o) /\
  (o_trackingStatus o <> "delivered" ->
   forall reason,
     requestReturn env user id reason delivered =
     (delivered, Uncaught (mkErr 400 "Return can only be requested for delivered orders"))) /\
  (isTerminalForCancel (o_trackingStatus o) = false ->
   exists c, orders (cancelOrder env user id delivered).1 !! id = Some c /\
     o_trackingStatus c = "cancelled" /\ o_isDelivered c = true).
Proof.
  intros Hfound Hid Howner delivered.
  assert (Hdelivered : orders delivered !! id = Some (setDelivered true (Some (now env)) o)).
  { subst delivered. rewrite (updateOrderToDelivered_run env id o st Hfound).
    cbn [fst orders setOrders]. rewrite Hid. apply lookup_insert_eq. }
  split; [by eexists|]. split.
  - intros Hstatus reason.
    by apply (requestReturn_not_delivered env user id _ reason delivered Hdelivered).
  - intros Hterm.
    rewrite (cancelOrder_run env user id _ delivered Hdelivered).
    + cbn [fst orders setNotifications setOrders setDelivered o_id]. rewrite Hid.
      eexists. rewrite lookup_insert_eq. split; [reflexivity|].
      split; [apply cancelledOrder_status|].
      unfold cancelledOrder. simpl. by destruct (o_isPaid o).
    + cbn [o_user setDelivered]. by rewrite Howner, String.eqb_refl.
    + done.
Qed.

Lemma delivered_flag_is_not_tracking_witness :
  let id := "65c3f0a1order0001" in
  let o := sampleOrder id "COD" false "out_for_delivery" None in
  let delivered := (updateOrderToDelivered sampleEnv id (storeWith [o])).1 in
  orders (storeWith [o]) !! id = Some o /\
  (requestReturn sampleEnv customer id (Some "Wrong size") delivered).2 =
  Uncaught (mkErr 400 "Return can only be requested for delivered orders").
Proof.
  intros id o delivered. split; [reflexivity|].
  destruct (delivered_flag_is_not_tracking sampleEnv customer id o (storeWith [o])
              eq_refl eq_refl eq_refl) as (_ & Hreturn & _).
  fold delivered in Hreturn. rewrite Hreturn; [reflexivity|discriminate].
Defined.

(** X13. A return can be requested once.  After a return request that
    went through, a later request by the owner, at whatever time and with
    whatever reason, is refused with status 400 and leaves the store as
    the first request left it.  The return window is checked before the
    existing request: while at most seven whole days have passed since
    the delivery (or no delivery time is recorded) the answer is that a
    return request already exists, and once the window has closed it is
    the error of the return window. *)
Theorem requestReturn_only_once env env' user id o reason reason' st :
  orders st !! id = Some o -> o_id o = id -> returnable env user o ->
  let requested := (requestReturn env user id reason st).1 in
  let res := requestReturn env' user id reason' requested in
  res.1 = requested /\
  (exists message, res.2 = Uncaught (mkErr 400 message)) /\
  ((forall d, o_deliveredAt o = Some d -> diffDays (now env') d <= 7) ->
   res.2 = Uncaught (mkErr 400 "Return request already exists for this order")) /\
  (forall d, o_deliveredAt o = Some d -> 7 < diffDays (now env') d ->
   res.2 = Uncaught
             (mkErr 400 "Return request can only be submitted within 7 days of delivery")).
Proof.
  intros Hfound Hid Hok requested res.
  assert (Hrequested : orders requested !! id = Some (setReturn "Requested" reason o)).
  { subst requested. rewrite (requestReturn_accept_run env user id o reason st Hfound Hok).
    cbn [fst orders setNotifications setOrders]. rewrite Hid. apply lookup_insert_eq. }
  destruct Hok as (Howner & Hstatus & _ & _).
  assert (Hres : res =
    (requested,
     Uncaught
       (match o_deliveredAt o with
        | Some d =>
            if (7 <? diffDays (now env') d)%Z
            then mkErr 400 "Return request can only be submitted within 7 days of delivery"
            else mkErr 400 "Return request already exists for this order"
        | None => mkErr 400 "Return request already exists for this order"
        end))).
  { subst res. unfold requestReturn, runAsync.
    unfold mbind at 1. unfold M_bind at 1. unfold Order_findById, mbind at 1, M_bind at 1.
    simpl. rewrite Hrequested.
    cbn [o_user o_trackingStatus o_deliveredAt o_returnStatus setReturn].
    rewrite Howner, Hstatus, String.eqb_refl. simpl.
    unfold mbind at 1. unfold M_bind at 1.
    destruct (o_deliveredAt o) as [d|]; [|done].
    by destruct (7 <? diffDays (now env') d)%Z. }
  rewrite Hres. cbn [fst snd]. split; [done|]. split; [|split].
  - destruct (o_deliveredAt o) as [d|]; [|by eauto].
    destruct (7 <? diffDays (now env') d)%Z; by eauto.
  - intros Hopen. destruct (o_deliveredAt o) as [d|]; [|done].
    specialize (Hopen d eq_refl).
    by destruct (Z.ltb_spec 7 (diffDays (now env') d)); [lia|].
  - intros d Hd Hclosed. rewrite Hd.
    by destruct (Z.ltb_spec 7 (diffDays (now env') d)); [|lia].
Qed.

Lemma requestReturn_only_once_witness :
  let id := "65c3f0a1order0001" in
  let o := sampleOrder id "COD" true "delivered" (Some (now sampleEnv - 2 * msPerDay)) in
  let requested := (requestReturn sampleEnv customer id (Some "Wrong size") (storeWith [o])).1 in
  orders (storeWith [o]) !! id = Some o /\
  (requestReturn (sampleEnvAfter 2) customer id (Some "Changed my mind") requested).2 =
    Uncaught (mkErr 400 "Return request already exists for this order") /\
  requestReturn (sampleEnvAfter 9) customer id (Some "Changed my mind") requested =
    (requested,
     Uncaught (mkErr 400 "Return request can only be submitted within 7 days of delivery")).
Proof.
  intros id o requested. split; [reflexivity|].
  assert (Hok : returnable sampleEnv customer o).
  { repeat split; try reflexivity. intros d [= <-]. vm_compute. discriminate. }
  destruct (requestReturn_only_once sampleEnv (sampleEnvAfter 2) customer id o
              (Some "Wrong size") (Some "Changed my mind") (storeWith [o])
              eq_refl eq_refl Hok) as (_ & _ & Hopen & _).
  destruct (requestReturn_only_once sampleEnv (sampleEnvAfter 9) customer id o
              (Some "Wrong size") (Some "Changed my mind") (storeWith [o])
              eq_refl eq_refl Hok) as (Hstore & _ & _ & Hclosed).
  fold requested in Hopen, Hstore, Hclosed. split.
  - apply Hopen. intros d [= <-]. vm_compute. discriminate.
  - rewrite <- Hstore at 2.
    rewrite <- (Hclosed (now sampleEnv - 2 * msPerDay) eq_refl); [by apply surjective_pairing|].
    vm_compute. reflexivity.
Defined.

Lemma returnUpdatedOrder_id status reason adminNote o :
  o_id (returnUpdatedOrder status reason adminNote o) = o_id o.
Proof.
  unfold returnUpdatedOrder.
  destruct (String.eqb status "Completed"), adminNote; done.
Qed.

Lemma updateReturnStatus_run id status reason adminNote o st :
  orders st !! id = Some o ->
  updateReturnStatus id status reason adminNote st =
  (setOrders (<[o_id o := returnUpdatedOrder status reason adminNote o]> (orders st)) st,
   Responded 200 (OrderBody (returnUpdatedOrder status reason adminNote o))).
Proof.
  intros Hfound. unfold updateReturnStatus, runAsync.
  unfold mbind at 1. unfold M_bind at 1. unfold Order_findById, mbind at 1, M_bind at 1.
  cbn -[returnUpdatedOrder]. rewrite Hfound.
  unfold Order_save, mbind, M_bind, modify, mret, M_ret. cbn -[returnUpdatedOrder].
  by rewrite returnUpdatedOrder_id.
Qed.

(** X14. What the admin's return update writes and what it leaves.  For
    an existing order, [updateReturnStatus] stores the given status as
    it comes, with no check against the return states; it replaces the
    reason only by a non-empty one and the admin note only when the body
    has one; it sets the tracking status to returned exactly for status
    Completed.  It restocks nothing and leaves the payment fields, the
    items and every other order as they were; an unknown identifier is
    refused with 404 and nothing changes. *)
Theorem updateReturnStatus_effect id status reason adminNote st :
  let res := updateReturnStatus id status reason adminNote st in
  (orders st !! id = None ->
     res = (st, Uncaught (mkErr 404 "Order not found"))) /\
  (forall o, orders st !! id = Some o -> o_id o = id ->
     products res.1 = products st /\ notifications res.1 = notifications st /\
     (forall id', id' <> id -> orders res.1 !! id' = orders st !! id') /\
     exists o', orders res.1 !! id = Some o' /\ res.2 = Responded 200 (OrderBody o') /\
       o_returnStatus o' = status /\
       o_returnReason o' = (if truthy reason then reason else o_returnReason o) /\
       o_returnAdminNote o' = from_option Some (o_returnAdminNote o) adminNote /\
       o_trackingStatus o' =
         (if String.eqb status "Completed" then "returned" else o_trackingStatus o) /\
       o_isPaid o' = o_isPaid o /\ o_paymentResult o' = o_paymentResult o /\
       o_orderItems o' = o_orderItems o /\
       o_trackingHistory o' = o_trackingHistory o).
Proof.
  intros res. split.
  - intros Hnone. subst res. unfold updateReturnStatus, runAsync.
    unfold mbind at 1. unfold M_bind at 1. unfold Order_findById, mbind at 1, M_bind at 1.
    simpl. by rewrite Hnone.
  - intros o Hfound Hid. subst res.
    rewrite (updateReturnStatus_run id status reason adminNote o st Hfound).
    cbn [fst snd products notifications orders setOrders]. rewrite Hid.
    split; [done|]. split; [done|]. split.
    + intros id' Hne. by rewrite lookup_insert_ne.
    + eexists. rewrite lookup_insert_eq. split; [reflexivity|]. split; [reflexivity|].
      unfold returnUpdatedOrder.
      destruct (String.eqb status "Completed"), adminNote; done.
Qed.

Lemma updateReturnStatus_effect_witness :
  let id := "65c3f0a1order0001" in
  let o := sampleOrder id "COD" true "delivered" (Some (now sampleEnv - 2 * msPerDay)) in
  let res := updateReturnStatus id "Completed" None (Some "Item received") (storeWith [o]) in
  (o_trackingStatus <$> orders res.1 !! id) = Some "returned" /\
  products res.1 = sampleProducts.
Proof.
  intros id o res.
  destruct (updateReturnStatus_effect id "Completed" None (Some "Item received")
              (storeWith [o])) as [_ Hfound].
  destruct (Hfound o eq_refl eq_refl) as (Hps & _ & _ & o' & Ho' & _ & _ & _ & _ & Ht & _).
  split; [|exact Hps].
  subst res. rewrite Ho'. exact (f_equal Some Ht).
Defined.

(** X15. A returned order can still be cancelled.  The guard of
    [cancelOrder] refuses delivered, shipped and cancelled, not returned:
    after a return has been completed, a cancellation by the owner goes
    through and raises the stock of every identifier by the quantity of
    the order once more. *)
Theorem returned_order_can_be_cancelled env user id o reason adminNote st :
  orders st !! id = Some o -> o_id o = id -> o_user o = user_id user ->
  let returned := (updateReturnStatus id "Completed" reason adminNote st).1 in
  let res := cancelOrder env user id returned in
  (o_trackingStatus <$> orders returned !! id) = Some "returned" /\
  (o_trackingStatus <$> orders res.1 !! id) = Some "cancelled" /\
  (forall q, stockOf q (products res.1) =
             (fun c => c + totalQty q (o_orderItems o)) <$> stockOf q (products st)).
Proof.
  intros Hfound Hid Howner returned res.
  set (o' := returnUpdatedOrder "Completed" reason adminNote o).
  assert (Hreturned : orders returned !! id = Some o').
  { subst returned. rewrite (updateReturnStatus_run id _ reason adminNote o st Hfound).
    cbn [fst orders setOrders]. rewrite Hid. apply lookup_insert_eq. }
  assert (Hstatus : o_trackingStatus o' = "returned").
  { subst o'. unfold returnUpdatedOrder. simpl. by destruct adminNote. }
  assert (Hitems : o_orderItems o' = o_orderItems o).
  { subst o'. unfold returnUpdatedOrder. simpl. by destruct adminNote. }
  assert (Huser : o_user o' = o_user o).
  { subst o'. unfold returnUpdatedOrder. simpl. by destruct adminNote. }
  assert (Hid' : o_id o' = id).
  { subst o'. by rewrite returnUpdatedOrder_id. }
  clearbody o'.
  split; [rewrite Hreturned; exact (f_equal Some Hstatus)|].
  subst res. rewrite (cancelOrder_run env user id o' returned Hreturned).
  - cbn [fst orders products setNotifications setOrders setProducts]. split.
    + rewrite Hid', lookup_insert_eq.
      exact (f_equal Some (cancelledOrder_status env user o')).
    + intros q. rewrite Hitems, stockOf_restore.
      subst returned. rewrite (updateReturnStatus_run id _ reason adminNote o st Hfound).
      done.
  - by rewrite Huser, Howner, String.eqb_refl.
  - by rewrite Hstatus.
Qed.

Lemma returned_order_can_be_cancelled_witness :
  let id := "65c3f0a1order0001" in
  let o := sampleOrder id "COD" true "delivered" None in
  let returned := (updateReturnStatus id "Completed" None None (storeWith [o])).1 in
  orders (storeWith [o]) !! id = Some o /\
  stockOf "p1" (products (cancelOrder sampleEnv customer id returned).1) = Some 7.
Proof.
  intros id o returned. split; [reflexivity|].
  destruct (returned_order_can_be_cancelled sampleEnv customer id o None None (storeWith [o])
              eq_refl eq_refl eq_refl) as (_ & _ & Hstock).
  fold returned in Hstock. rewrite Hstock. reflexivity.
Defined.

(** ** More on the bulk update *)

Lemma applySet_twice ud o : applySet ud (applySet ud o) = applySet ud o.
Proof.
  unfold applySet. simpl.
  by destruct (ud_isPaid ud), (ud_paidAt ud), (ud_isDelivered ud), (ud_deliveredAt ud),
    (ud_trackingStatus ud).
Qed.

(** X16. A bulk update to delivered opens the return window.  Once an
    order is in a bulk update with status delivered, its owner can request
    a return, provided no return is recorded, at any time from the update
    until eight days after it: the request goes through and the order is
    stored with return status Requested. *)
Theorem bulk_delivered_opens_return env env' user ids id o reason st :
  In id ids -> orders st !! id = Some o -> o_id o = id ->
  o_user o = user_id user -> o_returnStatus o = "None" ->
  now env <= now env' < now env + 8 * msPerDay ->
  let delivered := (updateOrdersStatus env (Some ids) "delivered" st).1 in
  let res := requestReturn env' user id reason delivered in
  exists o', orders res.1 !! id = Some o' /\
    o_returnStatus o' = "Requested" /\ o_returnReason o' = reason /\
    o_trackingStatus o' = "delivered" /\ o_deliveredAt o' = Some (now env).
Proof.
  intros Hin Hfound Hid Howner Hreturn Hnow delivered res.
  assert (Hne : ids <> []) by (by destruct ids).
  set (o1 := applySet (buildUpdateData env "delivered") o).
  assert (Hdelivered : orders delivered !! id = Some o1).
  { subst delivered. rewrite (updateOrdersStatus_run env ids "delivered" st Hne).
    cbn [fst orders setOrders]. rewrite lookup_updatedOrders_of, Hfound. simpl.
    apply inIds_In in Hin. by rewrite Hin. }
  assert (Hok : returnable env' user o1).
  { repeat split; try done. intros d [= <-]. unfold diffDays.
    rewrite Z.abs_eq by lia.
    assert ((now env' - now env) / msPerDay < 8); [|lia].
    apply Z.div_lt_upper_bound; unfold msPerDay in *; lia. }
  subst res. rewrite (requestReturn_accept_run env' user id o1 reason delivered Hdelivered Hok).
  cbn [fst orders setNotifications setOrders].
  assert (o_id o1 = id) as -> by done.
  eexists. rewrite lookup_insert_eq. split; [reflexivity|]. done.
Qed.

Lemma bulk_delivered_opens_return_witness :
  let id := "65c3f0a1order0001" in
  let o := sampleOrder id "COD" false "shipped" None in
  let delivered := (updateOrdersStatus sampleEnv (Some [id]) "delivered" (storeWith [o])).1 in
  orders (storeWith [o]) !! id = Some o /\
  (o_returnStatus <$>
     orders (requestReturn sampleEnv customer id (Some "Wrong size") delivered).1 !! id)
  = Some "Requested".
Proof.
  intros id o delivered. split; [reflexivity|].
  assert (Hnow : now sampleEnv <= now sampleEnv < now sampleEnv + 8 * msPerDay).
  { unfold msPerDay. simpl. lia. }
  destruct (bulk_delivered_opens_return sampleEnv sampleEnv customer [id] id o
              (Some "Wrong size") (storeWith [o]) (or_introl eq_refl) eq_refl eq_refl
              eq_refl eq_refl Hnow) as (o' & Ho' & Hstatus & _).
  fold delivered in Ho'. rewrite Ho'. exact (f_equal Some Hstatus).
Defined.

Lemma updatedOrders_of_twice ids ud os :
  updatedOrders_of ids ud (updatedOrders_of ids ud os) = updatedOrders_of ids ud os.
Proof.
  apply map_eq. intros k. rewrite !lookup_updatedOrders_of.
  destruct (os !! k) as [o|]; simpl; [|done].
  destruct (inIds ids k); [|done]. by rewrite applySet_twice.
Qed.

Lemma modifiedDocs_updated ids ud os : modifiedDocs ids ud (updatedOrders_of ids ud os) = ∅.
Proof.
  apply map_eq. intros k. unfold modifiedDocs.
  rewrite map_lookup_filter, lookup_empty, lookup_updatedOrders_of.
  destruct (os !! k) as [o|]; simpl; [|done].
  rewrite option_guard_False; [done|]. simpl. intros [Hin Hchanged].
  rewrite Hin in Hchanged. by rewrite applySet_twice in Hchanged.
Qed.

Lemma matchedDocs_updated ids ud os :
  size (matchedDocs ids (updatedOrders_of ids ud os)) = size (matchedDocs ids os).
Proof.
  rewrite <- !size_dom. f_equal. apply set_eq. intros k.
  rewrite !elem_of_dom. unfold matchedDocs, is_Some.
  setoid_rewrite map_lookup_filter_Some. setoid_rewrite lookup_updatedOrders_of.
  simpl. destruct (os !! k) as [o|]; simpl; split; intros [o' [Ho' Hin]]; eauto; done.
Qed.

(** X17. Repeating a bulk update to one of the five tracking states
    writes nothing new.  When the order schema has no timestamps, the
    second update over the same identifiers leaves the store the first one
    left and reports a modified count of 0.  When it has timestamps, every
    listed order is stamped and counted again, so the second update
    reports the same count as the first. *)
Theorem bulk_update_idempotent env ids status st :
  ids <> [] ->
  status = "pending" \/ status = "confirmed" \/ status = "processing" \/
  status = "shipped" \/ status = "out_for_delivery" ->
  let once := updateOrdersStatus env (Some ids) status st in
  let twice := updateOrdersStatus env (Some ids) status once.1 in
  (Order_timestamps env = false ->
     twice = (once.1, Responded 200 (BulkBody "Successfully updated 0 orders" (Some 0%nat)))) /\
  (Order_timestamps env = true -> twice.2 = once.2) /\
  (forall id, o_trackingStatus <$> orders twice.1 !! id
              = o_trackingStatus <$> orders once.1 !! id).
Proof.
  intros Hne Hstatus once twice. subst twice once.
  rewrite (updateOrdersStatus_run env ids status st Hne). cbn [fst snd].
  rewrite (updateOrdersStatus_run env ids status _ Hne).
  cbn [fst snd orders setOrders]. cbv zeta.
  rewrite (buildUpdateData_tracking env status Hstatus).
  rewrite updatedOrders_of_twice.
  split; [|split; [|done]].
  - intros ->.
    assert (isEmptyUpdate (mkUpdateData None None (Some status) None None) = false)
      as -> by done.
    rewrite modifiedDocs_updated, map_size_empty.
    unfold setOrders. cbn [products orders users notifications]. done.
  - intros ->. by rewrite matchedDocs_updated.
Qed.

Lemma bulk_update_idempotent_witness :
  let id := "65c3f0a1order0001" in
  let st := storeWith [sampleOrder id "COD" false "pending" None] in
  ([id] <> []) /\
  (updateOrdersStatus untimedEnv (Some [id]) "shipped" st).2 =
    Responded 200 (BulkBody "Successfully updated 1 orders" (Some 1%nat)) /\
  (updateOrdersStatus untimedEnv (Some [id]) "shipped"
     (updateOrdersStatus untimedEnv (Some [id]) "shipped" st).1).2 =
    Responded 200 (BulkBody "Successfully updated 0 orders" (Some 0%nat)) /\
  (updateOrdersStatus sampleEnv (Some [id]) "shipped"
     (updateOrdersStatus sampleEnv (Some [id]) "shipped" st).1).2 =
    Responded 200 (BulkBody "Successfully updated 1 orders" (Some 1%nat)).
Proof.
  intros id st. split; [discriminate|]. split; [reflexivity|].
  destruct (bulk_update_idempotent untimedEnv [id] "shipped" st) as (Hzero & _);
    [discriminate|tauto|].
  destruct (bulk_update_idempotent sampleEnv [id] "shipped" st) as (_ & Hsame & _);
    [discriminate|tauto|].
  split; [by rewrite (Hzero eq_refl)|].
  rewrite (Hsame eq_refl). reflexivity.
Defined.

(** ** Creating a payment order *)

(** [createPaymentOrder], path by path. *)
Lemma createPaymentOrder_run env gateway user amount orderId st :
  createPaymentOrder env gateway user amount orderId st =
  (st,
   match amount, orderId with
   | Some a, Some oid =>
       if (a =? 0)%Z || String.eqb oid ""
       then PaymentOrderRefused 400 "Amount and order ID are required"
       else
         match orders st !! oid with
         | None => PaymentOrderRefused 404 "Order not found"
         | Some o =>
             if negb (String.eqb (o_user o) (user_id user))
             then PaymentOrderRefused 403 "Not authorized"
             else if razorpayInstance env
             then match razorpay_orders_create gateway (a * 100) "INR" oid with
                  | inr po => PaymentOrderCreated (po_id po) (po_amount po) (po_currency po)
                                                  (RAZORPAY_KEY_ID env) "live"
                  | inl e => PaymentOrderRefused 500 (err_message e)
                  end
             else if String.eqb (paymentConfig_mode env) "mock"
             then match createMockPaymentOrder gateway a oid with
                  | inr po => PaymentOrderCreated (po_id po) (po_amount po) (po_currency po)
                                                  None "mock"
                  | inl e => PaymentOrderRefused 500 (err_message e)
                  end
             else PaymentOrderRefused 500 "Payment gateway not configured"
         end
   | _, _ => PaymentOrderRefused 400 "Amount and order ID are required"
   end).
Proof.
  unfold createPaymentOrder.
  destruct amount as [a|]; [|done]. destruct orderId as [oid|]; [|done].
  unfold truthy. rewrite negb_involutive.
  destruct ((a =? 0)%Z || String.eqb oid ""); [done|].
  unfold mbind at 1. unfold M_bind at 1.
  unfold Order_findById, mbind at 1, M_bind at 1, get, mret at 1, M_ret at 1.
  cbv beta iota. cbn [mbind option_bind].
  destruct (orders st !! oid) as [o|]; [|done].
  destruct (negb (String.eqb (o_user o) (user_id user))); [done|].
  destruct (razorpayInstance env).
  - unfold mbind, M_bind, call.
    by destruct (razorpay_orders_create gateway (a * 100) "INR" oid).
  - destruct (String.eqb (paymentConfig_mode env) "mock"); [|done].
    unfold mbind, M_bind, call.
    by destruct (createMockPaymentOrder gateway a oid).
Qed.

(** X18. [createPaymentOrder] never writes to the store, and it reaches
    the payment provider or the simulator only for the owner of an
    existing order and a non-zero amount.  An absent or zero amount, or an
    absent or empty order identifier, is refused with 400; a caller who
    does not own the order, an admin included, with 403.  A payment order
    in live mode comes from the provider, asked for a hundred times the
    amount in INR with the order identifier as receipt; one in mock mode
    comes from the simulator, and only when the gateway is not
    configured. *)
Theorem createPaymentOrder_guards env gateway user amount orderId st :
  let res := createPaymentOrder env gateway user amount orderId st in
  res.1 = st /\
  (amount = None \/ amount = Some 0 \/ truthy orderId = false ->
     res.2 = PaymentOrderRefused 400 "Amount and order ID are required") /\
  (forall a oid o, amount = Some a -> a <> 0 -> orderId = Some oid -> oid <> "" ->
     orders st !! oid = Some o -> o_user o <> user_id user ->
     res.2 = PaymentOrderRefused 403 "Not authorized") /\
  (forall pid amt cur key mode, res.2 = PaymentOrderCreated pid amt cur key mode ->
     exists a oid o,
       amount = Some a /\ a <> 0 /\ orderId = Some oid /\
       orders st !! oid = Some o /\ o_user o = user_id user /\
       ((mode = "live" /\ razorpayInstance env = true /\ key = RAZORPAY_KEY_ID env /\
         razorpay_orders_create gateway (a * 100) "INR" oid
           = inr (mkPaymentOrder pid amt cur)) \/
        (mode = "mock" /\ razorpayInstance env = false /\ key = None /\
         createMockPaymentOrder gateway a oid = inr (mkPaymentOrder pid amt cur)))).
Proof.
  intros res. subst res. rewrite createPaymentOrder_run. cbn [fst snd].
  split; [done|].
  destruct amount as [a|].
  2:{ split; [done|]. split; [intros; discriminate|intros; discriminate]. }
  destruct orderId as [oid|].
  2:{ split; [done|]. split; [intros; discriminate|intros; discriminate]. }
  destruct (Z.eqb_spec a 0) as [->|Ha]; cbn [orb].
  { split; [done|]. split; [|intros; discriminate].
    intros a' oid' o' [= <-] Hne. done. }
  destruct (String.eqb_spec oid "") as [->|Hoid].
  { split; [done|]. split; [|intros; discriminate].
    intros a' oid' o' _ _ [= <-] Hne. done. }
  split.
  { intros [Hnone|[[= Hzero]|Hempty]]; [discriminate|done|].
    simpl in Hempty. apply negb_false_iff, String.eqb_eq in Hempty. done. }
  destruct (orders st !! oid) as [o|] eqn:Hfound.
  2:{ split; [|intros; discriminate].
      intros a' oid' o' _ _ [= <-] _ Hsome. congruence. }
  destruct (String.eqb_spec (o_user o) (user_id user)) as [Howner|Hother]; cbn [negb].
  2:{ split; [done|intros; discriminate]. }
  split.
  { intros a' oid' o' _ _ [= <-] _ Hsome Hnot. congruence. }
  intros pid amt cur key mode Hcreated.
  exists a, oid, o. split; [done|]. split; [done|]. split; [done|].
  split; [done|]. split; [done|].
  destruct (razorpayInstance env).
  - destruct (razorpay_orders_create gateway (a * 100) "INR" oid) as [e|[pid' amt' cur']];
      [discriminate|].
    injection Hcreated as <- <- <- <- <-. by left.
  - destruct (String.eqb (paymentConfig_mode env) "mock"); [|discriminate].
    destruct (createMockPaymentOrder gateway a oid) as [e|[pid' amt' cur']];
      [discriminate|].
    injection Hcreated as <- <- <- <- <-. by right.
Qed.

Lemma createPaymentOrder_guards_witness :
  let id := "65c3f0a1order0001" in
  let st := storeWith [sampleOrder id "Razorpay" false "pending" None] in
  let gateway := mkGateway (fun paise currency receipt =>
                              inr (mkPaymentOrder ("order_" ++ receipt) paise currency))
                           (fun amount _ => inr (mkPaymentOrder "mock" amount "INR")) in
  createPaymentOrder sampleEnv gateway (mkPrincipal "admin1" "admin") (Some 995) (Some id) st
    = (st, PaymentOrderRefused 403 "Not authorized") /\
  createPaymentOrder sampleEnv gateway customer (Some 995) (Some id) st
    = (st, PaymentOrderCreated ("order_" ++ id) 99500 "INR" (Some "rzp_test_key") "live").
Proof.
  intros id st gateway.
  destruct (createPaymentOrder_guards sampleEnv gateway (mkPrincipal "admin1" "admin")
              (Some 995) (Some id) st) as (Hst & _ & Hother & _).
  split; [|reflexivity].
  apply injective_projections; [exact Hst|].
  apply (Hother 995 id (sampleOrder id "Razorpay" false "pending" None));
    try reflexivity; discriminate.
Defined.

(** ** The middleware and the routes *)

Lemma splitSpace_noSpace t : hasSpace t = false -> splitSpace t = [t].
Proof.
  induction t as [|c t IH]; simpl; [done|].
  intros [Hc Ht]%orb_false_elim. by rewrite Hc, (IH Ht).
Qed.

Lemma splitSpace_bearer t : splitSpace ("Bearer " ++ t) = "Bearer" :: splitSpace t.
Proof. done. Qed.

(** X19. A token comes back out of its header.  For a token without a
    space, as every signed token is, [verifyToken] reads from the header
    ["Bearer " + token] exactly that token: it hands the payload that
    [jwt.verify] gives for it to the next handler as [req.user], and
    hands over the 403 error when [jwt.verify] rejects it. *)
Theorem bearer_token_roundtrip auth req t next :
  rq_authorization req = Some ("Bearer " ++ t) -> hasSpace t = false ->
  verifyToken auth req next =
  match jwt_verify auth t with
  | Some user => next None (setUser user req)
  | None => next (Some (createError auth 403 "Token is not valid!")) req
  end.
Proof.
  intros Hheader Hspace. unfold verifyToken. rewrite Hheader.
  assert (negb (String.eqb ("Bearer " ++ t) "") && String.prefix "Bearer " ("Bearer " ++ t)
          = true) as ->.
  { simpl. by destruct t. }
  rewrite splitSpace_bearer, (splitSpace_noSpace t Hspace). done.
Qed.

Lemma bearer_token_roundtrip_witness :
  rq_authorization (bearer "token-of-u1") = Some ("Bearer " ++ "token-of-u1") /\
  verifyToken sampleAuth (bearer "token-of-u1") expressNext
    = Continue (setUser customer (bearer "token-of-u1")).
Proof.
  split; [reflexivity|].
  rewrite (bearer_token_roundtrip sampleAuth (bearer "token-of-u1") "token-of-u1"
             expressNext eq_refl eq_refl).
  reflexivity.
Defined.

(** X20. [verifyToken] lets a request through only with a verified
    token.  Run by the router, it either hands on the request with
    [req.user] set to the payload that [jwt.verify] gave for the second
    space-separated piece of a header beginning with ["Bearer "], or it
    hands over the 401 error (header absent or not of that form) or the
    403 error (token rejected); it never throws. *)
Theorem verifyToken_sound auth req :
  match verifyToken auth req expressNext with
  | Continue req' =>
      exists header token user,
        rq_authorization req = Some header /\ String.prefix "Bearer " header = true /\
        splitSpace header !! 1%nat = Some token /\ jwt_verify auth token = Some user /\
        req' = setUser user req
  | Fail e =>
      (e = createError auth 401 "You are not authenticated!" /\
       forall header, rq_authorization req = Some header ->
                      String.prefix "Bearer " header = false) \/
      e = createError auth 403 "Token is not valid!"
  | Thrown _ => False
  end.
Proof.
  unfold verifyToken. destruct (rq_authorization req) as [header|]; simpl.
  2:{ left. split; [done|]. intros; discriminate. }
  destruct (String.prefix "Bearer " header) eqn:Hprefix.
  2:{ rewrite andb_false_r. simpl. left. split; [done|]. by intros ? [= <-]. }
  destruct (String.eqb_spec header "") as [->|_]; [done|]. simpl.
  destruct (splitSpace header !! 1%nat) as [token|] eqn:Htoken; simpl; [|by right].
  destruct (jwt_verify auth token) as [user|] eqn:Hjwt; simpl; [|by right].
  exists header, token, user. done.
Qed.

(** X21. Used alone, [verifyAdmin] and [verifyUser] lose the
    authentication error.  They give [verifyToken] a callback that takes
    no argument and reads [req.user]: when the token check fails on a
    request that has no user yet, the 401 or 403 error is dropped and the
    callback throws a [TypeError], which the error handler answers with
    status 500.  The controller is still not reached: [verifyAdmin] hands
    the request on only with a verified token whose role is admin. *)
Theorem verifyAdmin_alone auth req :
  rq_user req = None ->
  (forall e, verifyToken auth req expressNext = Fail e ->
     verifyAdmin auth req expressNext = Thrown (undefinedUserError "role") /\
     verifyUser auth req expressNext = Thrown (undefinedUserError "id") /\
     handleError (undefinedUserError "role") =
       ErrorAnswer 500 "Cannot read properties of undefined (reading 'role')") /\
  (forall req', verifyAdmin auth req expressNext = Continue req' ->
     verifyToken auth req expressNext = Continue req' /\
     exists user, rq_user req' = Some user /\ user_role user = "admin").
Proof.
  intros Hnouser. unfold verifyAdmin, verifyUser, verifyToken.
  destruct (rq_authorization req) as [header|]; [|by rewrite Hnouser].
  destruct (negb (String.eqb header "") && String.prefix "Bearer " header);
    [|by rewrite Hnouser].
  destruct (splitSpace header !! 1%nat ≫= jwt_verify auth) as [user|];
    [|by rewrite Hnouser].
  cbn [rq_user setUser expressNext]. split; [intros e; discriminate|].
  intros req'. destruct (String.eqb_spec (user_role user) "admin") as [Hrole|]; [|done].
  intros [= <-]. split; [done|]. by exists user.
Qed.

Lemma verifyAdmin_alone_witness :
  let anonymous := mkRequest None None None in
  rq_user anonymous = None /\
  verifyToken sampleAuth anonymous expressNext
    = Fail (mkJsError (Some 401) "You are not authenticated!") /\
  verifyAdmin sampleAuth anonymous expressNext = Thrown (undefinedUserError "role").
Proof.
  intros anonymous. split; [reflexivity|]. split; [reflexivity|].
  destruct (verifyAdmin_alone sampleAuth anonymous eq_refl) as [Hlost _].
  apply (Hlost (mkJsError (Some 401) "You are not authenticated!")). reflexivity.
Defined.

(** The chain [protect, admin], step by step. *)
Lemma admin_chain_run auth req :
  runChain [verifyToken auth; verifyAdmin auth] req =
  match verifyToken auth req expressNext with
  | Continue req' =>
      match rq_user req' with
      | Some user =>
          if String.eqb (user_role user) "admin" then Continue req'
          else Fail (createError auth 403 "Admin access only!")
      | None => Thrown (undefinedUserError "role")
      end
  | stop => stop
  end.
Proof.
  cbn [runChain].
  pose proof (verifyToken_sound auth req) as Hsound.
  destruct (verifyToken auth req expressNext) as [req1|e|e] eqn:Hfirst; [|done|done].
  destruct Hsound as (header & token & user & Hheader & Hprefix & Htoken & Hjwt & ->).
  unfold verifyAdmin, verifyToken. cbn [rq_authorization rq_user setUser].
  rewrite Hheader, Hprefix, Htoken. cbn [mbind option_bind]. rewrite Hjwt.
  assert (negb (String.eqb header "") = true) as ->.
  { destruct header; [discriminate|done]. }
  cbn [andb rq_user setUser expressNext].
  by destruct (String.eqb (user_role user) "admin").
Qed.

(** X22. Behind [protect], [admin] is a proper gate.  The chain of
    [verifyToken] and [verifyAdmin], as the admin routes of the orders
    have it, never throws: it hands over the 401 error, one of the two 403
    errors, or the request with [req.user] a verified principal of role
    admin. *)
Theorem admin_chain_gate auth req :
  match runChain [verifyToken auth; verifyAdmin auth] req with
  | Continue req' =>
      verifyToken auth req expressNext = Continue req' /\
      exists user, rq_user req' = Some user /\ user_role user = "admin"
  | Fail e =>
      e = createError auth 401 "You are not authenticated!" \/
      e = createError auth 403 "Token is not valid!" \/
      e = createError auth 403 "Admin access only!"
  | Thrown _ => False
  end.
Proof.
  rewrite admin_chain_run.
  pose proof (verifyToken_sound auth req) as Hsound.
  destruct (verifyToken auth req expressNext) as [req1|e|e]; [|tauto|done].
  destruct Hsound as (header & token & user & _ & _ & _ & _ & ->).
  cbn [rq_user setUser].
  destruct (String.eqb_spec (user_role user) "admin") as [Hrole|]; [|tauto].
  split; [done|]. by exists user.
Qed.

(** X23. The bulk update is for admins only.  A request to the
    bulk-update route changes the store only if its header carries a
    token that [jwt.verify] accepts with role admin; any other request is
    answered by the error handler with the store as it was. *)
Theorem bulk_update_route_admin_only env auth orderIds status req st :
  let res := PUT_orders_bulk_update env auth orderIds status req st in
  (res.1 <> st ->
     exists header token user,
       rq_authorization req = Some header /\ splitSpace header !! 1%nat = Some token /\
       jwt_verify auth token = Some user /\ user_role user = "admin") /\
  ((forall header token user,
      rq_authorization req = Some header -> splitSpace header !! 1%nat = Some token ->
      jwt_verify auth token = Some user -> user_role user <> "admin") ->
   res.1 = st /\ exists status' message, res.2 = ErrorAnswer status' message).
Proof.
  intros res. subst res. unfold PUT_orders_bulk_update, route.
  pose proof (admin_chain_gate auth req) as Hgate.
  pose proof (verifyToken_sound auth req) as Hsound.
  destruct (runChain [verifyToken auth; verifyAdmin auth] req) as [req'|e|e];
    [|by split; [|eauto]|done].
  destruct Hgate as (Hfirst & user & Huser & Hrole).
  rewrite Hfirst in Hsound.
  destruct Hsound as (header & token & user' & Hheader & _ & Htoken & Hjwt & ->).
  cbn [rq_user setUser] in *. injection Huser as ->.
  split.
  - intros _. by exists header, token, user.
  - intros Hnone. by destruct (Hnone header token user).
Qed.

Lemma bulk_update_route_admin_only_witness :
  let id := "65c3f0a1order0001" in
  let st := storeWith [sampleOrder id "COD" false "pending" None] in
  (PUT_orders_bulk_update sampleEnv sampleAuth (Some [id]) "shipped"
     (bearer "token-of-u1") st).1 = st /\
  (PUT_orders_bulk_update sampleEnv sampleAuth (Some [id]) "shipped"
     (bearer "token-of-u1") st).2 = ErrorAnswer 403 "Admin access only!" /\
  (PUT_orders_bulk_update sampleEnv sampleAuth (Some [id]) "shipped"
     (bearer "token-of-admin1") st).2 =
    Answer 200 (BulkBody "Successfully updated 1 orders" (Some 1%nat)).
Proof.
  intros id st.
  destruct (bulk_update_route_admin_only sampleEnv sampleAuth (Some [id]) "shipped"
              (bearer "token-of-u1") st) as [_ Hother].
  split; [|split; reflexivity].
  apply Hother. intros header token user [= <-] [= <-] [= <-]. discriminate.
Defined.

(** The ways [addOrderItems] can end: with the 201 answer, or with an
    error handed to [next] and the store as it was. *)
Lemma addOrderItems_outcomes env user b st :
  (exists body, (addOrderItems env user b st).2 = Responded 201 body) \/
  (exists e, addOrderItems env user b st = (st, Forwarded e)).
Proof.
  destruct (b_orderItems b) as [[|item0 items0]|] eqn:Hb.
  - right. eexists. by apply addOrderItems_empty.
  - rewrite (addOrderItems_run env user b _ st Hb) by done.
    destruct (firstInsufficient (products st) (item0 :: items0)); [right; by eexists|].
    destruct (orders st !! newOrderId env); [right; by eexists|].
    left. by eexists.
  - right. unfold addOrderItems, runNext. rewrite Hb. by eexists.
Qed.

Lemma checkError_message ps item : String.eqb (err_message (checkError ps item)) "" = false.
Proof. unfold checkError. by destruct (resolveItem (i_product item) ps). Qed.

(** X24. The status a controller sets on an error does not reach the
    client.  On the route that creates orders, a request that passes
    [verifyToken] is answered either with the 201 answer of the
    controller or, for every error the controller hands to [next], by the
    error handler with status 500 and the store as it was: the error
    object carries no status, so the 400 or 404 that the controller had
    set is overwritten.  An insufficient line item is thus answered with
    status 500 and the controller's message. *)
Theorem order_creation_errors_are_500 env auth b req req' user st :
  verifyToken auth req expressNext = Continue req' -> rq_user req' = Some user ->
  let res := POST_orders env auth b req st in
  ((exists body, res.2 = Answer 201 body) \/
   (exists message, res = (st, ErrorAnswer 500 message))) /\
  (forall items item,
     b_orderItems b = Some items -> firstInsufficient (products st) items = Some item ->
     err_status (checkError (products st) item) <> 500 /\
     res = (st, ErrorAnswer 500 (err_message (checkError (products st) item)))).
Proof.
  intros Hpass Huser res. subst res. unfold POST_orders, route. cbn [runChain].
  rewrite Hpass, Huser. split.
  - destruct (addOrderItems_outcomes env user b st) as [[body Hok]|[e He]].
    + left. exists body. destruct (addOrderItems env user b st) as [st' o].
      simpl in Hok. by subst o.
    + right. rewrite He. by eexists.
  - intros items item Hb Hfirst.
    split.
    { rewrite checkError_status. by destruct (resolveItem (i_product item) (products st)). }
    assert (Hne : items <> []) by (intros ->; discriminate).
    rewrite (addOrderItems_run env user b items st Hb Hne), Hfirst.
    unfold replyOf, handleError, controllerError, errorStatus, errorMessage.
    cbn [je_status je_message]. by rewrite checkError_message.
Qed.

Lemma order_creation_errors_are_500_witness :
  let b := sampleRequest [mkOrderItem "p2" (Some "Cotton Kurta") 3] "COD" in
  verifyToken sampleAuth (bearer "token-of-u1") expressNext
    = Continue (setUser customer (bearer "token-of-u1")) /\
  (addOrderItems sampleEnv customer b sampleStore).2
    = Forwarded (mkErr 400 "Insufficient stock for product: Cotton Kurta") /\
  POST_orders sampleEnv sampleAuth b (bearer "token-of-u1") sampleStore
    = (sampleStore, ErrorAnswer 500 "Insufficient stock for product: Cotton Kurta").
Proof.
  intros b. split; [reflexivity|]. split; [reflexivity|].
  destruct (order_creation_errors_are_500 sampleEnv sampleAuth b (bearer "token-of-u1")
              _ customer sampleStore eq_refl eq_refl) as [_ Hitem].
  destruct (Hitem [mkOrderItem "p2" (Some "Cotton Kurta") 3]
                  (mkOrderItem "p2" (Some "Cotton Kurta") 3) eq_refl eq_refl) as [_ Hres].
  exact Hres.
Defined.
